(** * MQTT Sentinel load-test engine: identity allocation, connection
      sessions and statistics, embedded from the Locust drivers.

    Sources embedded here:
    - [demo/loadtest/locustfile_distributed.py]  (gmqtt driver, allocator)
    - [demo/loadtest/locustfile_connection_test.py] (paho driver)
    - [demo/loadtest/locustfile.py] (subscriber, alert statistics)
    - [demo/loadtest/populate_users.py] (batched creation of the users)

    Python integers are unbounded, so they are [Z].  Dictionaries keyed by
    strings are [gmap string _].  Time is counted in whole milliseconds:
    readings of [time.time()] are inputs of the functions that take them,
    and what the protocol client does during a call (how long its connect
    takes, whether and when it calls back) is an input too.  A lock held
    around a read-modify-write is what a function from state to state
    already is. *)

From Stdlib Require Import ZArith Lia.
From stdpp Require Import gmap strings list fin_maps pretty.

Local Open Scope Z_scope.

(* ===================================================================== *)
(** ** Identity allocator ([UserIDAllocator], locustfile_distributed.py) *)
(* ===================================================================== *)

Module Allocator.

(** Records written to the module logger. *)
Inductive LogRecord : Type :=
| Warning (msg : string) (worker : Z).

(** The attributes set by [__init__]; the lock only serialises the calls,
    which is what a function on the state already does. *)
Record UserIDAllocator : Type := mkAllocator {
  worker_index : Z;
  worker_count : Z;
  user_pool_size : Z;
  _counter : Z;
  _base_id : Z
}.

(** [UserIDAllocator.__init__] *)
Definition init (worker_index worker_count user_pool_size : Z) : UserIDAllocator :=
  {| worker_index := worker_index;
     worker_count := worker_count;
     user_pool_size := user_pool_size;
     _counter := 0;
     _base_id := worker_index + 1 |}.

Definition set_counter (a : UserIDAllocator) (c : Z) : UserIDAllocator :=
  {| worker_index := worker_index a;
     worker_count := worker_count a;
     user_pool_size := user_pool_size a;
     _counter := c;
     _base_id := _base_id a |}.

(** The result of one call: the identity returned, the records logged
    during the call, and the allocator afterwards. *)
Record Call : Type := mkCall {
  user_id : Z;
  logged : list LogRecord;
  after : UserIDAllocator
}.

(** [UserIDAllocator.get_next_user_id] *)
Definition get_next_user_id (a : UserIDAllocator) : Call :=
  let user_id := _base_id a + (_counter a * worker_count a) in
  let a1 := set_counter a (_counter a + 1) in
  if user_pool_size a <? user_id
  then {| user_id := _base_id a;
          logged := [Warning "User ID wrapped around at worker" (worker_index a)];
          after := set_counter a1 0 |}
  else {| user_id := user_id; logged := []; after := a1 |}.

(** [UserIDAllocator.get_user_count] *)
Definition get_user_count (a : UserIDAllocator) : Z := _counter a.

(** The allocator after [n] calls. *)
Fixpoint state_after (n : nat) (a : UserIDAllocator) : UserIDAllocator :=
  match n with
  | O => a
  | S n' => state_after n' (after (get_next_user_id a))
  end.

(** The call made when [n] calls have already been made. *)
Definition nth_call (n : nat) (a : UserIDAllocator) : Call :=
  get_next_user_id (state_after n a).

(** The identities returned by the first [n] calls, in call order. *)
Fixpoint ids (n : nat) (a : UserIDAllocator) : list Z :=
  match n with
  | O => []
  | S n' => let c := get_next_user_id a in user_id c :: ids n' (after c)
  end.

(** No call among the first [n] logged a wraparound. *)
Fixpoint no_wrap (n : nat) (a : UserIDAllocator) : Prop :=
  match n with
  | O => True
  | S n' => let c := get_next_user_id a in logged c = [] /\ no_wrap n' (after c)
  end.

End Allocator.

(* ===================================================================== *)
(** ** Values shared by the three drivers                                 *)
(* ===================================================================== *)

Module Py.

(** A Python [str]: its code points. *)
Definition pystr : Type := list N.

Definition str_of (s : string) : pystr :=
  map Ascii.N_of_ascii (String.list_ascii_of_string s).

(** The values the drivers put in a request context. *)
Inductive PyVal : Type :=
| VStr (s : string)
| VInt (n : Z)
| VBool (b : bool).

(** Truth value of a context entry. *)
Definition truthy (v : PyVal) : bool :=
  match v with
  | VStr s => negb (String.eqb s "")
  | VInt n => negb (n =? 0)
  | VBool b => b
  end.

(** The texts the drivers build for their exceptions; an f-string is kept
    as its template with the values substituted into it. *)
Inductive Text : Type :=
| Lit (s : string)
| UnknownErrorRc (rc : Z)          (* f"Unknown error (rc={rc})" *)
| ConnackTimeout (seconds : Z)     (* f"CONNACK timeout ({CONFIG.connect_timeout}s)" *)
| ConnectionTimeout (seconds : Z)  (* f"Connection timeout ({timeout}s)" *)
| UnexpectedPayload (shown : pystr)(* f"Unexpected payload: {payload[:50]}" *).

(** Truth value of a text: every template is non-empty. *)
Definition text_truthy (t : Text) : bool :=
  match t with
  | Lit s => negb (String.eqb s "")
  | _ => true
  end.

(** The exceptions that reach an [except Exception] clause of the
    drivers. *)
Inductive Exn : Type :=
| Exception (msg : Text)           (* Exception(msg), raised by the driver *)
| AsyncioTimeoutError              (* asyncio.TimeoutError, from asyncio.wait_for *)
| FuturesTimeoutError              (* TimeoutError of Future.result(timeout=...) *)
| LibraryError (what : string)     (* raised by the protocol client *).

(** The keyword arguments of [environment.events.request.fire]. *)
Record Request : Type := mkRequest {
  request_type : string;
  name : string;
  response_time : Z;
  response_length : Z;
  exception : option Exn;
  context : gmap string PyVal
}.

(** Result of a call that may raise. *)
Inductive Result (A : Type) : Type :=
| Return (a : A)
| Raise (e : Exn).
Arguments Return {A} a.
Arguments Raise {A} e.

(** [response_time] as the drivers compute it.  Clock readings are in
    milliseconds, so the difference needs no factor 1000.  A start of
    [None] or of 0 is false in the conditional expression. *)
Definition elapsed_since (start : option Z) (now : Z) : Z :=
  match start with
  | Some t => if t =? 0 then 0 else now - t
  | None => 0
  end.

(** [d[k] += 1] on a dictionary of counters that has the key. *)
Definition incr (k : string) (d : gmap string Z) : gmap string Z :=
  alter (fun v => v + 1) k d.

(** *** [bytes.decode('utf-8', errors='replace')]

    One code point per well-formed sequence; an ill-formed sequence gives
    U+FFFD for its longest prefix that starts a well-formed sequence (one
    byte at least), and decoding resumes after that prefix. *)

Definition replacement : N := 0xFFFD%N.

Definition is_cont (n : N) : bool := ((0x80 <=? n) && (n <=? 0xBF))%N.

(** Range allowed for the second byte after the lead byte [n0]. *)
Definition second_ok (n0 n1 : N) : bool :=
  (if n0 =? 0xE0 then (0xA0 <=? n1) && (n1 <=? 0xBF)
   else if n0 =? 0xED then (0x80 <=? n1) && (n1 <=? 0x9F)
   else if n0 =? 0xF0 then (0x90 <=? n1) && (n1 <=? 0xBF)
   else if n0 =? 0xF4 then (0x80 <=? n1) && (n1 <=? 0x8F)
   else is_cont n1)%N.

Fixpoint decode (bs : list Byte.byte) : pystr :=
  match bs with
  | [] => []
  | b0 :: r0 =>
    let n0 := Byte.to_N b0 in
    if (n0 <? 0x80)%N then n0 :: decode r0
    else if ((0xC2 <=? n0) && (n0 <=? 0xDF))%N then
      match r0 with
      | [] => [replacement]
      | b1 :: r1 =>
        let n1 := Byte.to_N b1 in
        if is_cont n1
        then ((n0 - 0xC0) * 64 + (n1 - 0x80))%N :: decode r1
        else replacement :: decode r0
      end
    else if ((0xE0 <=? n0) && (n0 <=? 0xEF))%N then
      match r0 with
      | [] => [replacement]
      | b1 :: r1 =>
        let n1 := Byte.to_N b1 in
        if second_ok n0 n1 then
          match r1 with
          | [] => [replacement]
          | b2 :: r2 =>
            let n2 := Byte.to_N b2 in
            if is_cont n2
            then ((n0 - 0xE0) * 4096 + (n1 - 0x80) * 64 + (n2 - 0x80))%N
                   :: decode r2
            else replacement :: decode r1
          end
        else replacement :: decode r0
      end
    else if ((0xF0 <=? n0) && (n0 <=? 0xF4))%N then
      match r0 with
      | [] => [replacement]
      | b1 :: r1 =>
        let n1 := Byte.to_N b1 in
        if second_ok n0 n1 then
          match r1 with
          | [] => [replacement]
          | b2 :: r2 =>
            let n2 := Byte.to_N b2 in
            if is_cont n2 then
              match r2 with
              | [] => [replacement]
              | b3 :: r3 =>
                let n3 := Byte.to_N b3 in
                if is_cont n3
                then ((n0 - 0xF0) * 262144 + (n1 - 0x80) * 4096
                      + (n2 - 0x80) * 64 + (n3 - 0x80))%N :: decode r3
                else replacement :: decode r2
              end
            else replacement :: decode r1
          end
        else replacement :: decode r0
      end
    else replacement :: decode r0
  end.

(** The bytes of an ASCII literal, as in [b"ALERT"]. *)
Definition bytes_of (s : string) : list Byte.byte := String.list_byte_of_string s.

End Py.

(* ===================================================================== *)
(** ** What the paho client hands to the drivers                          *)
(* ===================================================================== *)

(** [locustfile.py] and [locustfile_connection_test.py] build their client
    with [callback_api_version=mqtt.CallbackAPIVersion.VERSION2]. *)
Module Paho.

(** The [rc] a VERSION2 callback receives is a [ReasonCode] object, not
    an integer.  [value] is what [==] compares with an integer, [getName]
    what [str()] and an f-string give.  The class defines [__eq__] and no
    [__hash__], so an instance cannot be used as a dictionary key: looking
    one up raises [TypeError]. *)
Record ReasonCode : Type := mkReasonCode {
  value : Z;
  getName : string
}.

(** [TypeError("unhashable type: 'ReasonCode'")] *)
Definition unhashable : string := "TypeError: unhashable type: 'ReasonCode'".

(** How [loop_stop()] followed by [disconnect()] on a client ends: both
    return, or one of them raises.  An [on_disconnect] callback runs inside
    [disconnect()], and what it raises comes out of that call. *)
Inductive Teardown : Type :=
| BothReturn
| LoopStopRaises (what : string)
| DisconnectRaises (what : string).

End Paho.

(* ===================================================================== *)
(** ** Subscriber driver (locustfile.py)                                  *)
(* ===================================================================== *)

Module Subscriber.
Import Py.

(** [alert_stats] at module load. *)
Definition alert_stats0 : gmap string Z :=
  {[ "total_received" := 0; "valid_alerts" := 0; "invalid_alerts" := 0 ]}.

(** Calls made on a paho client. *)
Inductive ClientCall : Type := LoopStop | ClientDisconnect.

(** Records written to the module logger by [_on_message]. *)
Inductive LogRecord : Type :=
| Debug (what : string)
| WarningUnexpected (shown : pystr).

(** What the process holds besides the sessions: the requests fired so
    far (oldest first), the [alert_stats] dictionary, the calls made on
    paho clients and the records logged. *)
Record World : Type := mkWorld {
  requests : list Request;
  alert_stats : gmap string Z;
  client_calls : list ClientCall;
  log : list LogRecord
}.

Definition world0 : World :=
  {| requests := []; alert_stats := alert_stats0; client_calls := []; log := [] |}.

(** [on_request], the listener registered on [events.request]. *)
Definition on_request (r : Request) (stats : gmap string Z) : gmap string Z :=
  if String.eqb (request_type r) "MQTT" && String.eqb (name r) "alert_received" then
    let stats := incr "total_received" stats in
    if truthy (default (VBool false) (context r !! "valid"))
    then incr "valid_alerts" stats
    else incr "invalid_alerts" stats
  else stats.

(** [environment.events.request.fire]: the request is recorded and the
    listener runs. *)
Definition fire (r : Request) (w : World) : World :=
  {| requests := requests w ++ [r];
     alert_stats := on_request r (alert_stats w);
     client_calls := client_calls w;
     log := log w |}.

Definition call_client (c : ClientCall) (w : World) : World :=
  {| requests := requests w; alert_stats := alert_stats w;
     client_calls := client_calls w ++ [c]; log := log w |}.

Definition write_log (l : LogRecord) (w : World) : World :=
  {| requests := requests w; alert_stats := alert_stats w;
     client_calls := client_calls w; log := log w ++ [l] |}.

(** The attributes of [MQTTSubscriberClient]. *)
Record MQTTSubscriberClient : Type := mkClient {
  client_id : string;
  _connected : bool;
  _connect_start : option Z;
  messages_received : Z;
  last_message_time : option Z
}.

(** [MQTTSubscriberClient.__init__] *)
Definition init (client_id : string) : MQTTSubscriberClient :=
  {| client_id := client_id; _connected := false; _connect_start := None;
     messages_received := 0; last_message_time := None |}.

(** A message handed over by paho: [msg.topic] and [msg.payload]. *)
Record MQTTMessage : Type := mkMessage {
  topic : string;
  payload : list Byte.byte
}.

Definition ALERT : pystr := str_of "ALERT".

(** [is_valid] of [_on_message]. *)
Definition is_valid (msg : MQTTMessage) : bool :=
  bool_decide (decode (payload msg) = ALERT).

(** [MQTTSubscriberClient._on_message]; [now] is the reading of
    [time.time()]. *)
Definition _on_message (now : Z) (msg : MQTTMessage)
    (s : MQTTSubscriberClient) (w : World) : MQTTSubscriberClient * World :=
  let s' := {| client_id := client_id s;
               _connected := _connected s;
               _connect_start := _connect_start s;
               messages_received := messages_received s + 1;
               last_message_time := Some now |} in
  let payload_text := decode (payload msg) in
  let valid := is_valid msg in
  let w1 := fire {| request_type := "MQTT";
                    name := "alert_received";
                    response_time := 0;
                    response_length := Z.of_nat (length (payload msg));
                    exception :=
                      if valid then None
                      else Some (Exception (UnexpectedPayload (take 50 payload_text)));
                    context := {[ "topic" := VStr (topic msg);
                                  "valid" := VBool valid ]} |} w in
  let w2 := if valid
            then write_log (Debug "received ALERT") w1
            else write_log (WarningUnexpected (take 50 payload_text)) w1 in
  (s', w2).

Definition set_connected (b : bool) (s : MQTTSubscriberClient)
    : MQTTSubscriberClient :=
  {| client_id := client_id s; _connected := b;
     _connect_start := _connect_start s;
     messages_received := messages_received s;
     last_message_time := last_message_time s |}.

(** The body of [MQTTSubscriberClient._on_disconnect].  Its signature is
    [(self, client, userdata, rc, properties=None)]; a VERSION2 client
    calls its [on_disconnect] with one argument more
    ([client, userdata, disconnect_flags, reason_code, properties]), so
    that call raises [TypeError] before the body runs. *)
Definition _on_disconnect (s : MQTTSubscriberClient) : MQTTSubscriberClient :=
  set_connected false s.

(** [MQTTSubscriberClient.disconnect].  There is no [try] around the two
    calls on the client: when one of them raises, the exception leaves
    [disconnect] and the assignment [self._connected = False] is not
    reached.  The result is what the call returns or raises, and the
    session and world it leaves. *)
Definition disconnect (td : Paho.Teardown) (s : MQTTSubscriberClient) (w : World)
    : Result unit * (MQTTSubscriberClient * World) :=
  if _connected s then
    match td with
    | Paho.LoopStopRaises what =>
        (Raise (LibraryError what), (s, call_client LoopStop w))
    | Paho.DisconnectRaises what =>
        (Raise (LibraryError what),
         (s, call_client ClientDisconnect (call_client LoopStop w)))
    | Paho.BothReturn =>
        (Return tt,
         (set_connected false s,
          call_client ClientDisconnect (call_client LoopStop w)))
    end
  else (Return tt, (s, w)).

(** [MQTTSubscriberClient.is_connected] *)
Definition is_connected (s : MQTTSubscriberClient) : bool := _connected s.

(** [on_report_to_master]: the worker attaches a copy of its counters to
    the status payload [data], of which the entries that are dictionaries
    of counters are kept. *)
Definition on_report_to_master (stats : gmap string Z)
    (data : gmap string (gmap string Z)) : gmap string (gmap string Z) :=
  <["alert_stats" := stats]> data.

(** The loop of [on_worker_report]:
    [for key in alert_stats: alert_stats[key] += reported.get(key, 0)]. *)
Definition add_reported (stats reported : gmap string Z) : gmap string Z :=
  map_imap (fun key v => Some (v + default 0 (reported !! key))) stats.

(** [on_worker_report], run by the coordinator on its own [alert_stats]. *)
Definition on_worker_report (data : gmap string (gmap string Z))
    (stats : gmap string Z) : gmap string Z :=
  match data !! "alert_stats" with
  | Some reported => add_reported stats reported
  | None => stats
  end.

(** One worker's report reaching the coordinator. *)
Definition merge (stats snapshot : gmap string Z) : gmap string Z :=
  on_worker_report (on_report_to_master snapshot ∅) stats.

(** The coordinator's totals after the reports of [workers], received in
    list order. *)
Definition merge_all (stats : gmap string Z) (workers : list (gmap string Z))
    : gmap string Z :=
  foldl merge stats workers.

(** A counter snapshot: the three counters, none negative. *)
Definition snapshot (m : gmap string Z) : Prop :=
  dom m = dom alert_stats0 /\ map_Forall (fun _ v => 0 <= v) m.

(** What the workers of [ws] reported under [k], added up. *)
Definition reported_sum (k : string) (ws : list (gmap string Z)) : Z :=
  foldr (fun r acc => default 0 (r !! k) + acc) 0 ws.

(** Session and world after the calls [disconnect()] of a subscriber
    session, one per entry of [tds], in order, whatever each returns or
    raises. *)
Fixpoint subscriber_disconnects (tds : list Paho.Teardown)
    (sw : MQTTSubscriberClient * World)
    : MQTTSubscriberClient * World :=
  match tds with
  | [] => sw
  | td :: tds' => subscriber_disconnects tds' (snd (disconnect td (fst sw) (snd sw)))
  end.

End Subscriber.

(* ===================================================================== *)
(** ** What the two connection drivers share                              *)
(* ===================================================================== *)

(** [locustfile_connection_test.py] and [locustfile_distributed.py] have the
    same [connection_stats], the same [on_request] listener and the same
    [rc_messages] table. *)
Module Connections.
Import Py.

(** [connection_stats] at module load. *)
Definition connection_stats0 : gmap string Z :=
  {[ "total_attempts" := 0; "successful" := 0; "failed" := 0;
     "auth_failures" := 0 ]}.

(** Calls made on the protocol client. *)
Inductive ClientCall : Type := LoopStop | ClientDisconnect.

(** The requests fired so far (oldest first), the [connection_stats]
    dictionary and the calls made on protocol clients. *)
Record World : Type := mkWorld {
  requests : list Request;
  connection_stats : gmap string Z;
  client_calls : list ClientCall
}.

Definition world0 : World :=
  {| requests := []; connection_stats := connection_stats0; client_calls := [] |}.

(** [x in (4, 5)] for [x = context.get('rc')]. *)
Definition in_4_5 (x : option PyVal) : bool :=
  match x with
  | Some (VInt n) => (n =? 4) || (n =? 5)
  | _ => false
  end.

(** [on_request], the listener registered on [events.request]. *)
Definition on_request (r : Request) (stats : gmap string Z) : gmap string Z :=
  if String.eqb (request_type r) "MQTT" && String.eqb (name r) "connect" then
    let stats := incr "total_attempts" stats in
    match exception r with
    | Some _ =>
      let stats := incr "failed" stats in
      if negb (bool_decide (context r = ∅)) && in_4_5 (context r !! "rc")
      then incr "auth_failures" stats
      else stats
    | None => incr "successful" stats
    end
  else stats.

(** [environment.events.request.fire] *)
Definition fire (r : Request) (w : World) : World :=
  {| requests := requests w ++ [r];
     connection_stats := on_request r (connection_stats w);
     client_calls := client_calls w |}.

Definition call_client (c : ClientCall) (w : World) : World :=
  {| requests := requests w; connection_stats := connection_stats w;
     client_calls := client_calls w ++ [c] |}.

(** [rc_messages] of [_on_connect]. *)
Definition rc_messages : gmap Z string :=
  {[ 1 := "Incorrect protocol version";
     2 := "Invalid client identifier";
     3 := "Server unavailable";
     4 := "Bad username or password";
     5 := "Not authorized" ]}.

(** [rc_messages.get(rc, f"Unknown error (rc={rc})")] *)
Definition error_msg (rc : Z) : Text :=
  match rc_messages !! rc with
  | Some m => Lit m
  | None => UnknownErrorRc rc
  end.

(** The request a failed connect fires from an [except] clause. *)
Definition failed_connect (client_id : string) (response_time : Z) (e : Exn)
    : Request :=
  {| request_type := "MQTT"; name := "connect";
     response_time := response_time; response_length := 0;
     exception := Some e;
     context := {[ "client_id" := VStr client_id ]} |}.

Definition ms (seconds : Z) : Z := seconds * 1000.

(** What the protocol layer does during one connect attempt.  Delays are
    in milliseconds. *)
Inductive Transport : Type :=
| Established (delay : Z)               (* [client.connect(...)] returns *)
| Broken (delay : Z) (what : string)    (* [client.connect(...)] raises *)
| Silent                                (* [client.connect(...)] never completes *).

Record Attempt : Type := mkAttempt {
  t0 : Z;                        (* reading of [time.time()] when the attempt starts *)
  transport : Transport;
  connack : option (Z * Z)       (* delay until the client calls [_on_connect], and its [rc] *)
}.

(** The error kinds of section 7 of the specification. *)
Inductive ErrorClass : Type :=
| ProtocolDenied | Timeout | TransportError | PayloadMismatch | Other.

(** Specification side.  The drivers do not compute a kind, they pass the
    exception on; this reads the kind off the exception the way section 7
    describes it: a timeout is "no acknowledgment within the bounded
    wait", a denial is one of the CONNACK texts, a transport error is what
    the protocol client raised. *)
Definition spec_error_class (e : Exn) : ErrorClass :=
  match e with
  | AsyncioTimeoutError | FuturesTimeoutError => Timeout
  | Exception (ConnackTimeout _) | Exception (ConnectionTimeout _) => Timeout
  | Exception (UnknownErrorRc _) => ProtocolDenied
  | Exception (Lit m) =>
      if bool_decide (m ∈ (map_to_list rc_messages).*2)
      then ProtocolDenied else Other
  | Exception (UnexpectedPayload _) => PayloadMismatch
  | LibraryError _ => TransportError
  end.

(** Specification side: a failed connect outcome. *)
Definition failed (r : Request) : Prop :=
  request_type r = "MQTT" /\ name r = "connect" /\ exception r <> None.

(** Specification side: a failed connect outcome of kind [c]. *)
Definition failed_as (c : ErrorClass) (r : Request) : Prop :=
  request_type r = "MQTT" /\ name r = "connect" /\
  exists e, exception r = Some e /\ spec_error_class e = c.

End Connections.

(* ===================================================================== *)
(** ** gmqtt driver (locustfile_distributed.py)                           *)
(* ===================================================================== *)

Module Distributed.
Import Py Connections.

(** [Config]; [load_config] fills it from the environment. *)
Record Config : Type := mkConfig {
  mqtt_broker : string;
  mqtt_port : Z;
  use_tls : bool;
  user_prefix : string;
  user_pool_size : Z;
  worker_index : Z;
  worker_count : Z;
  users_per_worker : Z;
  connect_timeout : Z;
  keepalive : Z
}.

(** The defaults of the dataclass. *)
Definition default_config : Config :=
  {| mqtt_broker := ""; mqtt_port := 443; use_tls := true;
     user_prefix := "user"; user_pool_size := 1500000;
     worker_index := 0; worker_count := 1; users_per_worker := 10000;
     connect_timeout := 30; keepalive := 60 |}.

(** [get_user_allocator] on first use. *)
Definition get_user_allocator (cfg : Config) : Allocator.UserIDAllocator :=
  Allocator.init (worker_index cfg) (worker_count cfg) (user_pool_size cfg).

(** The attributes of [GMQTTConnectionClient].  [_connect_event] is
    [Some flag] once an [asyncio.Event] exists; [client] is the
    [MQTTClient] made for the client identifier. *)
Record GMQTTConnectionClient : Type := mkSession {
  client_id : string;
  _connected : bool;
  _connect_start : option Z;
  _connect_error : option Text;
  _connect_event : option bool;
  client : option string
}.

(** [GMQTTConnectionClient.__init__] *)
Definition init (client_id : string) : GMQTTConnectionClient :=
  {| client_id := client_id; _connected := false; _connect_start := None;
     _connect_error := None; _connect_event := None; client := None |}.

Definition set_connected (b : bool) (s : GMQTTConnectionClient) :=
  {| client_id := client_id s; _connected := b;
     _connect_start := _connect_start s; _connect_error := _connect_error s;
     _connect_event := _connect_event s; client := client s |}.

Definition set_connect_error (e : option Text) (s : GMQTTConnectionClient) :=
  {| client_id := client_id s; _connected := _connected s;
     _connect_start := _connect_start s; _connect_error := e;
     _connect_event := _connect_event s; client := client s |}.

Definition set_connect_event (ev : option bool) (s : GMQTTConnectionClient) :=
  {| client_id := client_id s; _connected := _connected s;
     _connect_start := _connect_start s; _connect_error := _connect_error s;
     _connect_event := ev; client := client s |}.

(** [GMQTTConnectionClient._on_connect]; [now] is the reading of
    [time.time()]. *)
Definition _on_connect (now rc : Z) (sw : GMQTTConnectionClient * World)
    : GMQTTConnectionClient * World :=
  let '(s, w) := sw in
  let response_time := elapsed_since (_connect_start s) now in
  let '(s1, w1) :=
    if rc =? 0 then
      (set_connected true s,
       fire {| request_type := "MQTT"; name := "connect";
               response_time := response_time; response_length := 0;
               exception := None;
               context := {[ "client_id" := VStr (client_id s) ]} |} w)
    else
      (set_connect_error (Some (error_msg rc)) s,
       fire {| request_type := "MQTT"; name := "connect";
               response_time := response_time; response_length := 0;
               exception := Some (Exception (error_msg rc));
               context := {[ "client_id" := VStr (client_id s);
                             "rc" := VInt rc ]} |} w) in
  match _connect_event s1 with
  | Some _ => (set_connect_event (Some true) s1, w1)
  | None => (s1, w1)
  end.

(** [GMQTTConnectionClient._on_disconnect] *)
Definition _on_disconnect (s : GMQTTConnectionClient) : GMQTTConnectionClient :=
  set_connected false s.

(** [GMQTTConnectionClient.is_connected] *)
Definition is_connected (s : GMQTTConnectionClient) : bool := _connected s.

(** The callback the client makes, if it makes it strictly before
    [upto] milliseconds into the attempt (a timeout that falls due at the
    same millisecond wins). *)
Definition deliver_before (att : Attempt) (upto : Z)
    (sw : GMQTTConnectionClient * World) : GMQTTConnectionClient * World :=
  match connack att with
  | Some (delay, rc) =>
      if delay <? upto then _on_connect (t0 att + delay) rc sw else sw
  | None => sw
  end.

(** The time [asyncio.wait_for(..., timeout=CONFIG.connect_timeout)]
    allows, in milliseconds: with a timeout that is not positive it gives up
    at once. *)
Definition wait_limit (cfg : Config) : Z := Z.max 0 (ms (connect_timeout cfg)).

(** [asyncio.wait_for(self.client.connect(...), timeout=CONFIG.connect_timeout)]:
    when it ends, and how. *)
Definition await_transport (cfg : Config) (att : Attempt) : Z * Result unit :=
  let limit := wait_limit cfg in
  match transport att with
  | Established d =>
      if d <? limit then (d, Return tt) else (limit, Raise AsyncioTimeoutError)
  | Broken d what =>
      if d <? limit then (d, Raise (LibraryError what))
      else (limit, Raise AsyncioTimeoutError)
  | Silent => (limit, Raise AsyncioTimeoutError)
  end.

(** One run of a coroutine on the background loop: when it finishes
    (milliseconds after it was submitted), what it returns, the session
    and world then, and the session and world while it is suspended in
    its last [await]. *)
Record Run (A : Type) : Type := mkRun {
  finished : option Z;          (* [None]: it never finishes *)
  value : A;
  final : GMQTTConnectionClient * World;
  waiting : GMQTTConnectionClient * World
}.
Arguments finished {A} _.
Arguments value {A} _.
Arguments final {A} _.
Arguments waiting {A} _.

(** The [except Exception as e] clause of [_connect_async], entered
    [at_ms] milliseconds into the attempt. *)
Definition connect_async_except (att : Attempt) (at_ms : Z) (e : Exn)
    (sw : GMQTTConnectionClient * World) : GMQTTConnectionClient * World :=
  let '(s, w) := sw in
  let response_time := (t0 att + at_ms) - default 0 (_connect_start s) in
  (s, fire (failed_connect (client_id s) response_time e) w).

(** The session the coroutine works on once its first three
    assignments and the creation of the client are done. *)
Definition started (att : Attempt) (s : GMQTTConnectionClient)
    : GMQTTConnectionClient :=
  {| client_id := client_id s; _connected := _connected s;
     _connect_start := Some (t0 att); _connect_error := None;
     _connect_event := Some false; client := Some (client_id s) |}.

(** [GMQTTConnectionClient._connect_async] *)
Definition _connect_async (cfg : Config) (att : Attempt)
    (s : GMQTTConnectionClient) (w : World) : Run bool :=
  let limit := wait_limit cfg in
  let s0 := started att s in
  match await_transport cfg att with
  | (at_ms, Raise e) =>
      {| finished := Some at_ms; value := false;
         final := connect_async_except att at_ms e
                    (deliver_before att at_ms (s0, w));
         waiting := (s0, w) |}
  | (d, Return _) =>
      (* wait for CONNACK: the event is set by [_on_connect] *)
      let '(s1, w1) := deliver_before att (d + limit) (s0, w) in
      match _connect_event s1 with
      | Some true =>
          let at_ms := Z.max d (default 0 (fst <$> connack att)) in
          if _connected s1 then
            {| finished := Some at_ms; value := true; final := (s1, w1);
               waiting := (s0, w) |}
          else
            let e := match _connect_error s1 with
                     | Some m => if text_truthy m then Exception m
                                 else Exception (Lit "Connection failed")
                     | None => Exception (Lit "Connection failed")
                     end in
            {| finished := Some at_ms; value := false;
               final := connect_async_except att at_ms e (s1, w1);
               waiting := (s0, w) |}
      | _ =>
          {| finished := Some (d + limit); value := false;
             final := connect_async_except att (d + limit)
                        (Exception (ConnackTimeout (connect_timeout cfg))) (s1, w1);
             waiting := (s0, w) |}
      end
  end.

(** [run_async], with the background loop of [get_event_loop] running:
    [future.result(timeout=CONFIG.connect_timeout + 5)] gives the
    coroutine's value if it has finished by then and raises otherwise.  With
    a timeout below zero [result] does not wait: it raises at once. *)
Definition run_async {A : Type} (cfg : Config) (run : Run A) : Z * Result A :=
  let budget := ms (connect_timeout cfg + 5) in
  match finished run with
  | Some at_ms =>
      if at_ms <=? budget then (at_ms, Return (value run))
      else (Z.max 0 budget, Raise FuturesTimeoutError)
  | None => (Z.max 0 budget, Raise FuturesTimeoutError)
  end.

(** What a call leaves behind: its result, how long the caller was
    blocked, and the session and world when it returns. *)
Record Outcome (A : Type) : Type := mkOutcome {
  returned : Result A;
  elapsed : Z;
  session : GMQTTConnectionClient;
  world : World
}.
Arguments returned {A} _.
Arguments elapsed {A} _.
Arguments session {A} _.
Arguments world {A} _.

(** [GMQTTConnectionClient.connect]: the outcome at the moment the call
    returns.  When the bridge gives up, the coroutine is not cancelled: it
    goes on from [waiting run], and what it or a later callback fires comes
    after this outcome.  With a budget below zero the bridge gives up as
    soon as the coroutine is submitted; the coroutine is taken to have
    reached its first [await] by then. *)
Definition connect (cfg : Config) (att : Attempt)
    (s : GMQTTConnectionClient) (w : World) : Outcome bool :=
  let run := _connect_async cfg att s w in
  match run_async cfg run with
  | (at_ms, Return b) =>
      {| returned := Return b; elapsed := at_ms;
         session := fst (final run); world := snd (final run) |}
  | (at_ms, Raise e) =>
      let '(s', w') := waiting run in
      let now := t0 att + at_ms in
      let start := match _connect_start s' with
                   | Some t => if t =? 0 then now else t
                   | None => now
                   end in
      {| returned := Return false; elapsed := at_ms; session := s';
         world := fire (failed_connect (client_id s') (now - start) e) w' |}
  end.

(** Sessions as the driver makes them: [_connected] is only ever set by
    a callback of the session's own [MQTTClient], so a connected session
    has one. *)
Definition well_formed (s : GMQTTConnectionClient) : Prop :=
  _connected s = true -> client s <> None.

(** How the awaited [client.disconnect()] behaves: it returns or raises
    after a delay, or never completes. *)
Inductive Teardown : Type :=
| Closed (delay : Z)
| CloseRaises (delay : Z) (what : string)
| CloseHangs.

(** [GMQTTConnectionClient._disconnect_async] *)
Definition _disconnect_async (td : Teardown)
    (s : GMQTTConnectionClient) (w : World) : Run unit :=
  match client s with
  | Some _ =>
      if _connected s then
        let w1 := call_client ClientDisconnect w in
        {| finished := match td with
                       | Closed d | CloseRaises d _ => Some d
                       | CloseHangs => None
                       end;
           value := tt;
           (* the [except Exception: pass] makes both endings alike *)
           final := (set_connected false s, w1);
           waiting := (s, w1) |}
      else {| finished := Some 0; value := tt; final := (s, w); waiting := (s, w) |}
  | None => {| finished := Some 0; value := tt; final := (s, w); waiting := (s, w) |}
  end.

(** [GMQTTConnectionClient.disconnect] *)
Definition disconnect (cfg : Config) (td : Teardown)
    (s : GMQTTConnectionClient) (w : World) : Outcome unit :=
  match _connected s, client s with
  | true, Some _ =>
      let run := _disconnect_async td s w in
      match run_async cfg run with
      | (at_ms, Return _) =>
          {| returned := Return tt; elapsed := at_ms;
             session := set_connected false (fst (final run));
             world := snd (final run) |}
      | (at_ms, Raise _) =>
          (* [except Exception: pass] *)
          {| returned := Return tt; elapsed := at_ms;
             session := set_connected false (fst (waiting run));
             world := snd (waiting run) |}
      end
  | _, _ => {| returned := Return tt; elapsed := 0; session := s; world := w |}
  end.

(** Sessions and worlds after the calls [disconnect()] of a gmqtt
    session, one per entry of [tds], in order. *)
Fixpoint gmqtt_disconnects (cfg : Config)
    (tds : list Teardown)
    (sw : GMQTTConnectionClient * World)
    : GMQTTConnectionClient * World :=
  match tds with
  | [] => sw
  | td :: tds' =>
      let o := disconnect cfg td (fst sw) (snd sw) in
      gmqtt_disconnects cfg tds' (session o, world o)
  end.

End Distributed.

(* ===================================================================== *)
(** ** paho driver (locustfile_connection_test.py)                        *)
(* ===================================================================== *)

Module ConnectionTest.
Import Py Connections.

(** [Config]; [load_config] fills it from the environment. *)
Record Config : Type := mkConfig {
  mqtt_broker : string;
  mqtt_port : Z;
  use_tls : bool;
  user_prefix : string;
  user_start : Z;
  user_max : Z;
  connect_timeout : Z;
  keepalive : Z
}.

Definition default_config : Config :=
  {| mqtt_broker := ""; mqtt_port := 443; use_tls := true;
     user_prefix := "user"; user_start := 1; user_max := 1500000;
     connect_timeout := 30; keepalive := 60 |}.

(** [get_next_user_id] on the global [_user_counter]: the value returned
    and the counter afterwards. *)
Definition get_next_user_id (_user_counter : Z) : Z * Z :=
  (_user_counter + 1, _user_counter + 1).

(** The attributes of [MQTTConnectionClient]. *)
Record MQTTConnectionClient : Type := mkSession {
  client_id : string;
  _connected : bool;
  _connect_start : option Z;
  _connect_error : option Text
}.

(** [MQTTConnectionClient.__init__] *)
Definition init (client_id : string) : MQTTConnectionClient :=
  {| client_id := client_id; _connected := false; _connect_start := None;
     _connect_error := None |}.

Definition set_connected (b : bool) (s : MQTTConnectionClient) :=
  {| client_id := client_id s; _connected := b;
     _connect_start := _connect_start s; _connect_error := _connect_error s |}.

Definition set_connect_error (e : option Text) (s : MQTTConnectionClient) :=
  {| client_id := client_id s; _connected := _connected s;
     _connect_start := _connect_start s; _connect_error := e |}.

(** [MQTTConnectionClient._on_connect]: what the call returns or raises,
    and the session and world it leaves.  [rc] is a [ReasonCode] (the client
    is a VERSION2 one).  [rc == 0] compares its value.  In the other branch
    [rc_messages.get(rc, ...)] needs the hash of [rc] and raises [TypeError]:
    [_connect_error] is not assigned and no request is fired.  The exception
    goes to the network thread of the client, which made the call. *)
Definition _on_connect (now : Z) (rc : Paho.ReasonCode)
    (sw : MQTTConnectionClient * World)
    : Result unit * (MQTTConnectionClient * World) :=
  let '(s, w) := sw in
  let response_time := elapsed_since (_connect_start s) now in
  if Paho.value rc =? 0 then
    (Return tt,
     (set_connected true s,
      fire {| request_type := "MQTT"; name := "connect";
              response_time := response_time; response_length := 0;
              exception := None;
              context := {[ "client_id" := VStr (client_id s) ]} |} w))
  else (Raise (LibraryError Paho.unhashable), (s, w)).

(** [MQTTConnectionClient._on_disconnect] *)
Definition _on_disconnect (s : MQTTConnectionClient) : MQTTConnectionClient :=
  set_connected false s.

(** [MQTTConnectionClient.is_connected] *)
Definition is_connected (s : MQTTConnectionClient) : bool := _connected s.

(** paho's [client.connect(broker, port, keepalive=...)] blocks the
    caller until it returns or raises. *)
Inductive BlockingConnect : Type :=
| Returns (delay : Z)
| Raises (delay : Z) (what : string).

Record Attempt : Type := mkAttempt {
  t0 : Z;                     (* reading of [time.time()] on entry *)
  blocking : BlockingConnect;
  connack : option (Z * Paho.ReasonCode)
                              (* delay from entry until the network thread
                                 calls [_on_connect], and its [rc] *)
}.

(** The session and world a reader sees [at_ms] milliseconds into the
    attempt: the callback has run if it was due by then. *)
Definition seen_at (att : Attempt) (at_ms : Z)
    (sw : MQTTConnectionClient * World) : MQTTConnectionClient * World :=
  match connack att with
  | Some (delay, rc) =>
      if delay <=? at_ms then snd (_on_connect (t0 att + delay) rc sw) else sw
  | None => sw
  end.

Definition error_set (s : MQTTConnectionClient) : bool :=
  match _connect_error s with
  | Some m => text_truthy m
  | None => false
  end.

(** The polling loop of [connect]:
    [while not self._connected and not self._connect_error
           and (time.time() - start) < timeout: time.sleep(0.05)].
    [start_ms] is when the loop was entered and [waited] how long it has
    slept so far, each sleep taking its 50 milliseconds.  The result is
    the time waited when the loop ends. *)
Fixpoint wait_for_connection (fuel : nat) (cfg : Config) (att : Attempt)
    (start_ms waited : Z) (sw : MQTTConnectionClient * World) : option Z :=
  match fuel with
  | O => None
  | S fuel' =>
      let s := fst (seen_at att (start_ms + waited) sw) in
      if negb (_connected s) && negb (error_set s)
         && (waited <? ms (connect_timeout cfg))
      then wait_for_connection fuel' cfg att start_ms (waited + 50) sw
      else Some waited
  end.

(** Polls that always suffice. *)
Definition enough_polls (cfg : Config) : nat :=
  Z.to_nat (ms (connect_timeout cfg) / 50) + 2.

Record Outcome (A : Type) : Type := mkOutcome {
  returned : Result A;
  elapsed : Z;
  session : MQTTConnectionClient;
  world : World
}.
Arguments returned {A} _.
Arguments elapsed {A} _.
Arguments session {A} _.
Arguments world {A} _.

(** The [except Exception as e] clause of [connect]. *)
Definition connect_except (att : Attempt) (at_ms : Z) (e : Exn)
    (sw : MQTTConnectionClient * World) : Outcome bool :=
  let '(s, w) := sw in
  let response_time := (t0 att + at_ms) - default 0 (_connect_start s) in
  {| returned := Return false; elapsed := at_ms; session := s;
     world := fire (failed_connect (client_id s) response_time e) w |}.

(** [MQTTConnectionClient.connect]; [None] when [fuel] polls do not end
    the loop. *)
Definition connect (fuel : nat) (cfg : Config) (att : Attempt)
    (s : MQTTConnectionClient) (w : World) : option (Outcome bool) :=
  let s0 := {| client_id := client_id s; _connected := _connected s;
               _connect_start := Some (t0 att); _connect_error := None |} in
  match blocking att with
  | Raises d what =>
      Some (connect_except att d (LibraryError what) (s0, w))
  | Returns d =>
      match wait_for_connection fuel cfg att d 0 (s0, w) with
      | None => None
      | Some waited =>
          let at_ms := d + waited in
          let '(s1, w1) := seen_at att at_ms (s0, w) in
          if _connected s1 then
            Some {| returned := Return true; elapsed := at_ms;
                    session := s1; world := w1 |}
          else
            let e := match _connect_error s1 with
                     | Some m =>
                         if text_truthy m then Exception m
                         else Exception (ConnectionTimeout (connect_timeout cfg))
                     | None => Exception (ConnectionTimeout (connect_timeout cfg))
                     end in
            Some (connect_except att at_ms e (s1, w1))
      end
  end.

(** [MQTTConnectionClient.disconnect].  The two calls on the client are
    in one [try]: when [loop_stop()] raises, [client.disconnect()] is not
    called; [except Exception: pass] drops what either raises, and
    [self._connected = False] follows in every case. *)
Definition disconnect (td : Paho.Teardown) (s : MQTTConnectionClient) (w : World)
    : MQTTConnectionClient * World :=
  if _connected s then
    (set_connected false s,
     match td with
     | Paho.LoopStopRaises _ => call_client LoopStop w
     | Paho.DisconnectRaises _ | Paho.BothReturn =>
         call_client ClientDisconnect (call_client LoopStop w)
     end)
  else (s, w).

End ConnectionTest.

(* ===================================================================== *)
(** ** Virtual users of the connection drivers                            *)
(* ===================================================================== *)

(** [MQTTConnectionUser.__init__] is the same text in
    [locustfile_connection_test.py] and [locustfile_distributed.py], but for
    where the user number comes from. *)
Module Users.

(** [f"{CONFIG.user_prefix}{user_num}"] *)
Definition client_id_of (user_prefix : string) (user_num : Z) : string :=
  user_prefix +:+ pretty user_num.

(** [host[n:]] *)
Fixpoint drop_chars (n : nat) (s : string) : string :=
  match n, s with
  | O, _ => s
  | S n', String _ rest => drop_chars n' rest
  | S _, EmptyString => EmptyString
  end.

(** The character [":"]. *)
Definition colon : Ascii.ascii := Ascii.ascii_of_N 58.

(** [host.split(":", 1)] when [":" in host]: the text before the first
    colon and the text after it; [None] when there is no colon. *)
Fixpoint split_colon (s : string) : option (string * string) :=
  match s with
  | EmptyString => None
  | String c rest =>
      if Ascii.eqb c colon then Some (EmptyString, rest)
      else match split_colon rest with
           | Some (before, after) => Some (String c before, after)
           | None => None
           end
  end.

(** The connection target a user ends up with. *)
Record Target : Type := mkTarget {
  broker : string;
  port : Z;
  use_tls : bool
}.

(** The part of [__init__] under "Parse broker from host".  [int] is
    Python's [int] on a string, [None] where it raises [ValueError];
    [host] is [self.host], which may be [None].  The result is [None] when
    [int(port_str)] raises. *)
Definition parse_target (int : string -> option Z)
    (mqtt_broker : string) (mqtt_port : Z) (cfg_use_tls : bool)
    (host : option string) : option Target :=
  match host with
  | Some h =>
      if String.eqb mqtt_broker "" && negb (String.eqb h "") then
        let '(h1, tls) :=
          if String.prefix "mqtts://" h then (drop_chars 8 h, true)
          else if String.prefix "mqtt://" h then (drop_chars 7 h, false)
          else (h, cfg_use_tls) in
        match split_colon h1 with
        | Some (b, port_str) =>
            match int port_str with
            | Some p => Some {| broker := b; port := p; use_tls := tls |}
            | None => None
            end
        | None => Some {| broker := h1; port := mqtt_port; use_tls := tls |}
        end
      else Some {| broker := mqtt_broker; port := mqtt_port; use_tls := cfg_use_tls |}
  | None => Some {| broker := mqtt_broker; port := mqtt_port; use_tls := cfg_use_tls |}
  end.

(** Python's [int] on a string of ASCII characters: whitespace around the
    number is dropped, a sign may come first, and single underscores may
    stand between digits.  [None] is where [int] raises [ValueError]. *)
Definition is_space (c : Ascii.ascii) : bool :=
  let n := Z.of_N (Ascii.N_of_ascii c) in
  ((9 <=? n) && (n <=? 13)) || ((28 <=? n) && (n <=? 32)).

Definition is_digit (c : Ascii.ascii) : bool :=
  let n := Z.of_N (Ascii.N_of_ascii c) in (48 <=? n) && (n <=? 57).

Fixpoint lstrip (l : list Ascii.ascii) : list Ascii.ascii :=
  match l with
  | c :: rest => if is_space c then lstrip rest else l
  | [] => []
  end.

(** The digits after the sign; [after_digit] says whether the character
    before was a digit, as an underscore and the end of the text need. *)
Fixpoint digits_value (acc : Z) (after_digit : bool) (l : list Ascii.ascii)
    : option Z :=
  match l with
  | [] => if after_digit then Some acc else None
  | c :: rest =>
      if is_digit c
      then digits_value (acc * 10 + (Z.of_N (Ascii.N_of_ascii c) - 48)) true rest
      else if Ascii.eqb c (Ascii.ascii_of_N 95) && after_digit
      then digits_value acc false rest
      else None
  end.

Definition int_of_ascii (s : string) : option Z :=
  let l := List.rev (lstrip (List.rev (lstrip (String.list_ascii_of_string s)))) in
  match l with
  | c :: rest =>
      if Ascii.eqb c (Ascii.ascii_of_N 43) then digits_value 0 false rest
      else if Ascii.eqb c (Ascii.ascii_of_N 45)
      then Z.opp <$> digits_value 0 false rest
      else digits_value 0 false l
  | [] => None
  end.

(** The user numbers of [locustfile_connection_test.py]:
    [CONFIG.user_start + get_next_user_id() - 1] for each of [n] users
    created one after the other, and the global counter afterwards. *)
Fixpoint spawn (user_start : Z) (n : nat) (_user_counter : Z) : list Z * Z :=
  match n with
  | O => ([], _user_counter)
  | S n' =>
      let '(id, counter) := ConnectionTest.get_next_user_id _user_counter in
      let '(rest, final) := spawn user_start n' counter in
      ((user_start + id - 1) :: rest, final)
  end.

End Users.

(* ===================================================================== *)
(** ** The virtual user of the gmqtt driver                               *)
(* ===================================================================== *)

Module DistributedUser.
Import Py Connections.

(** The attributes of [MQTTConnectionUser] (locustfile_distributed.py). *)
Record MQTTConnectionUser : Type := mkUser {
  client_id : string;
  mqtt_client : option Distributed.GMQTTConnectionClient;
  target : Users.Target
}.

(** [MQTTConnectionUser.on_start] *)
Definition on_start (cfg : Distributed.Config) (att : Attempt)
    (u : MQTTConnectionUser) (w : World) : MQTTConnectionUser * World :=
  let out := Distributed.connect cfg att (Distributed.init (client_id u)) w in
  ({| client_id := client_id u;
      mqtt_client := Some (Distributed.session out);
      target := target u |},
   Distributed.world out).

(** [MQTTConnectionUser.on_stop] *)
Definition on_stop (cfg : Distributed.Config) (td : Distributed.Teardown)
    (u : MQTTConnectionUser) (w : World) : MQTTConnectionUser * World :=
  match mqtt_client u with
  | Some s =>
      let out := Distributed.disconnect cfg td s w in
      ({| client_id := client_id u;
          mqtt_client := Some (Distributed.session out);
          target := target u |},
       Distributed.world out)
  | None => (u, w)
  end.

(** [MQTTConnectionUser.maintain_connection] *)
Definition maintain_connection (cfg : Distributed.Config)
    (td : Distributed.Teardown) (att : Attempt)
    (u : MQTTConnectionUser) (w : World) : MQTTConnectionUser * World :=
  let needs_connect :=
    match mqtt_client u with
    | Some s => negb (Distributed.is_connected s)
    | None => true
    end in
  if needs_connect then
    let w1 := match mqtt_client u with
              | Some s => Distributed.world (Distributed.disconnect cfg td s w)
              | None => w
              end in
    let out := Distributed.connect cfg att (Distributed.init (client_id u)) w1 in
    ({| client_id := client_id u;
        mqtt_client := Some (Distributed.session out);
        target := target u |},
     Distributed.world out)
  else (u, w).

(** What happens to a user between start and stop: a tick of
    [maintain_connection], with what the protocol layer does during it; a
    disconnection noticed by the client ([_on_disconnect]); or a CONNACK
    that reaches [_on_connect] outside [connect], as one does that comes
    after the bridge has given up. *)
Inductive Step : Type :=
| Tick (td : Distributed.Teardown) (att : Attempt)
| Dropped
| Acked (now rc : Z).

Definition step (cfg : Distributed.Config) (st : Step)
    (uw : MQTTConnectionUser * World) : MQTTConnectionUser * World :=
  match st with
  | Tick td att => maintain_connection cfg td att (fst uw) (snd uw)
  | Dropped =>
      ({| client_id := client_id (fst uw);
          mqtt_client := Distributed._on_disconnect <$> mqtt_client (fst uw);
          target := target (fst uw) |},
       snd uw)
  | Acked now rc =>
      match mqtt_client (fst uw) with
      | Some s =>
          let sw := Distributed._on_connect now rc (s, snd uw) in
          ({| client_id := client_id (fst uw);
              mqtt_client := Some (fst sw);
              target := target (fst uw) |},
           snd sw)
      | None => uw
      end
  end.

(** A user's life: [on_start], then the steps in order. *)
Definition run (cfg : Distributed.Config) (first : Attempt) (steps : list Step)
    (u : MQTTConnectionUser) (w : World) : MQTTConnectionUser * World :=
  foldl (fun uw st => step cfg st uw) (on_start cfg first u w) steps.

End DistributedUser.

(* ===================================================================== *)
(** ** The virtual user of the paho driver                                *)
(* ===================================================================== *)

Module ConnectionTestUser.
Import Py Connections.

(** The attributes of [MQTTConnectionUser]
    (locustfile_connection_test.py). *)
Record MQTTConnectionUser : Type := mkUser {
  client_id : string;
  mqtt_client : option ConnectionTest.MQTTConnectionClient;
  target : Users.Target
}.

Definition set_mqtt_client (s : ConnectionTest.MQTTConnectionClient)
    (u : MQTTConnectionUser) : MQTTConnectionUser :=
  {| client_id := client_id u; mqtt_client := Some s; target := target u |}.

(** [MQTTConnectionUser.on_start]; [None] when [fuel] polls do not end
    the loop of [connect]. *)
Definition on_start (fuel : nat) (cfg : ConnectionTest.Config)
    (att : ConnectionTest.Attempt) (u : MQTTConnectionUser) (w : World)
    : option (MQTTConnectionUser * World) :=
  match ConnectionTest.connect fuel cfg att
          (ConnectionTest.init (client_id u)) w with
  | Some out =>
      Some (set_mqtt_client (ConnectionTest.session out) u,
            ConnectionTest.world out)
  | None => None
  end.

(** [MQTTConnectionUser.on_stop] *)
Definition on_stop (td : Paho.Teardown) (u : MQTTConnectionUser) (w : World)
    : MQTTConnectionUser * World :=
  match mqtt_client u with
  | Some s =>
      let sw := ConnectionTest.disconnect td s w in
      (set_mqtt_client (fst sw) u, snd sw)
  | None => (u, w)
  end.

(** [MQTTConnectionUser.maintain_connection] *)
Definition maintain_connection (fuel : nat) (cfg : ConnectionTest.Config)
    (td : Paho.Teardown) (att : ConnectionTest.Attempt)
    (u : MQTTConnectionUser) (w : World)
    : option (MQTTConnectionUser * World) :=
  let needs_connect :=
    match mqtt_client u with
    | Some s => negb (ConnectionTest.is_connected s)
    | None => true
    end in
  if needs_connect then
    let w1 := match mqtt_client u with
              | Some s => snd (ConnectionTest.disconnect td s w)
              | None => w
              end in
    match ConnectionTest.connect fuel cfg att
            (ConnectionTest.init (client_id u)) w1 with
    | Some out =>
        Some (set_mqtt_client (ConnectionTest.session out) u,
              ConnectionTest.world out)
    | None => None
    end
  else Some (u, w).

(** What happens to a user between start and stop: a tick of
    [maintain_connection], with what the protocol layer does during it; a
    disconnection noticed by the client ([_on_disconnect]); or a CONNACK
    that reaches [_on_connect] outside [connect], the network loop of a
    session still running after [connect] has given up. *)
Inductive Step : Type :=
| Tick (td : Paho.Teardown) (att : ConnectionTest.Attempt)
| Dropped
| Acked (now : Z) (rc : Paho.ReasonCode).

Definition step (fuel : nat) (cfg : ConnectionTest.Config) (st : Step)
    (uw : MQTTConnectionUser * World) : option (MQTTConnectionUser * World) :=
  match st with
  | Tick td att => maintain_connection fuel cfg td att (fst uw) (snd uw)
  | Dropped =>
      Some ({| client_id := client_id (fst uw);
               mqtt_client := ConnectionTest._on_disconnect <$> mqtt_client (fst uw);
               target := target (fst uw) |},
            snd uw)
  | Acked now rc =>
      match mqtt_client (fst uw) with
      | Some s =>
          let sw := snd (ConnectionTest._on_connect now rc (s, snd uw)) in
          Some (set_mqtt_client (fst sw) (fst uw), snd sw)
      | None => Some uw
      end
  end.

Fixpoint steps_from (fuel : nat) (cfg : ConnectionTest.Config)
    (steps : list Step) (uw : MQTTConnectionUser * World)
    : option (MQTTConnectionUser * World) :=
  match steps with
  | [] => Some uw
  | st :: rest =>
      match step fuel cfg st uw with
      | Some uw' => steps_from fuel cfg rest uw'
      | None => None
      end
  end.

(** A user's life: [on_start], then the steps in order. *)
Definition run (fuel : nat) (cfg : ConnectionTest.Config)
    (first : ConnectionTest.Attempt) (steps : list Step)
    (u : MQTTConnectionUser) (w : World)
    : option (MQTTConnectionUser * World) :=
  match on_start fuel cfg first u w with
  | Some uw => steps_from fuel cfg steps uw
  | None => None
  end.

End ConnectionTestUser.

(* ===================================================================== *)
(** ** Counters after a run of requests                                   *)
(* ===================================================================== *)

Module Totals.
Import Py.

(** [connection_stats] once the listener has seen the requests [rs], in
    order, starting from the dictionary of module load. *)
Definition connection_stats_after (rs : list Request) : gmap string Z :=
  foldl (fun stats r => Connections.on_request r stats)
        Connections.connection_stats0 rs.

(** [alert_stats] once the listener has seen the requests [rs]. *)
Definition alert_stats_after (rs : list Request) : gmap string Z :=
  foldl (fun stats r => Subscriber.on_request r stats)
        Subscriber.alert_stats0 rs.

(** The requests the connection listener counts. *)
Definition is_connect (r : Request) : bool :=
  String.eqb (request_type r) "MQTT" && String.eqb (name r) "connect".

(** The requests the alert listener counts. *)
Definition is_alert (r : Request) : bool :=
  String.eqb (request_type r) "MQTT" && String.eqb (name r) "alert_received".

(** How many requests of [rs] satisfy [p]. *)
Definition count (p : Request -> bool) (rs : list Request) : Z :=
  Z.of_nat (length (List.filter p rs)).

Definition is_successful (r : Request) : bool :=
  is_connect r && match exception r with None => true | Some _ => false end.

Definition is_failure (r : Request) : bool :=
  is_connect r && match exception r with None => false | Some _ => true end.

(** A failed connect whose context is not empty and has [rc] 4 or 5. *)
Definition is_auth_failure (r : Request) : bool :=
  is_failure r && negb (bool_decide (context r = ∅))
  && Connections.in_4_5 (context r !! "rc").

(** An alert whose context says it is valid. *)
Definition is_valid_alert (r : Request) : bool :=
  is_alert r && truthy (default (VBool false) (context r !! "valid")).

Definition is_invalid_alert (r : Request) : bool :=
  is_alert r && negb (truthy (default (VBool false) (context r !! "valid"))).

(** A subscriber session receiving the messages [msgs] in order, the
    clock reading [now] at each receipt. *)
Definition receive_all (msgs : list (Z * Subscriber.MQTTMessage))
    (s : Subscriber.MQTTSubscriberClient) (w : Subscriber.World)
    : Subscriber.MQTTSubscriberClient * Subscriber.World :=
  foldl (fun sw m => Subscriber._on_message (fst m) (snd m) (fst sw) (snd sw))
        (s, w) msgs.

(** A connect outcome reported for the client [cid]. *)
Definition names_client (cid : string) (r : Request) : Prop :=
  request_type r = "MQTT" /\ name r = "connect" /\
  context r !! "client_id" = Some (VStr cid).

(** How many of the messages carry exactly the expected payload. *)
Definition valid_messages (msgs : list (Z * Subscriber.MQTTMessage)) : Z :=
  Z.of_nat (length (List.filter (fun m => Subscriber.is_valid (snd m)) msgs)).

End Totals.

(* ===================================================================== *)
(** ** Connecting a subscriber (locustfile.py)                            *)
(* ===================================================================== *)

Module SubscriberConnect.
Import Py Subscriber.

(** The entries of [CONFIG] a session reads.  [format_topic] is
    [CONFIG['topic_pattern'].format(client_id=...)] as a function of the
    client identifier. *)
Record Config : Type := mkConfig {
  mqtt_broker : string;
  mqtt_port : Z;
  use_tls : bool;
  ca_cert_path : option string;
  format_topic : string -> string
}.

(** The defaults of [load_config]; the pattern is
    ['clients/{client_id}/alerts']. *)
Definition default_config : Config :=
  {| mqtt_broker := "localhost"; mqtt_port := 1883; use_tls := false;
     ca_cert_path := None;
     format_topic := fun client_id => "clients/" +:+ client_id +:+ "/alerts" |}.

Inductive CertReqs : Type := CERT_NONE | CERT_REQUIRED.

(** The calls [connect] and [_on_connect] make on the paho client. *)
Inductive Call : Type :=
| TlsSet (ca_certs : option string) (cert_reqs : CertReqs)
| TlsInsecureSet (value : bool)
| UsernamePwSet (username password : string)
| Connect (broker : string) (port keepalive : Z)
| LoopStart
| Subscribe (topic : string) (qos : Z).

(** The world of the subscriber driver, and the calls above, oldest
    first.  What [connect] and its callbacks write to the logger is not
    kept. *)
Record World : Type := mkWorld {
  sub : Subscriber.World;
  calls : list Call
}.

Definition fire (r : Request) (w : World) : World :=
  {| sub := Subscriber.fire r (sub w); calls := calls w |}.

Definition call (c : Call) (w : World) : World :=
  {| sub := sub w; calls := calls w ++ [c] |}.

Definition set_connect_start (t : option Z) (s : MQTTSubscriberClient)
    : MQTTSubscriberClient :=
  {| client_id := client_id s; _connected := _connected s;
     _connect_start := t;
     messages_received := messages_received s;
     last_message_time := last_message_time s |}.

(** [f"Connect failed: rc={rc}"]: the f-string shows the name of the
    [ReasonCode]. *)
Definition connect_failed (rc : Paho.ReasonCode) : Text :=
  Lit ("Connect failed: rc=" +:+ Paho.getName rc).

(** [MQTTSubscriberClient._on_connect]; [now] is the reading of
    [time.time()], [rc] the [ReasonCode] of the VERSION2 client, which
    [rc == 0] compares by its value. *)
Definition _on_connect (cfg : Config) (now : Z) (rc : Paho.ReasonCode)
    (sw : MQTTSubscriberClient * World) : MQTTSubscriberClient * World :=
  let '(s, w) := sw in
  let response_time := elapsed_since (_connect_start s) now in
  if Paho.value rc =? 0 then
    let w1 := fire {| request_type := "MQTT"; name := "connect";
                      response_time := response_time; response_length := 0;
                      exception := None; context := ∅ |} w in
    let topic := format_topic cfg (client_id s) in
    (set_connected true s, call (Subscribe topic 1) w1)
  else
    (set_connected false s,
     fire {| request_type := "MQTT"; name := "connect";
             response_time := response_time; response_length := 0;
             exception := Some (Exception (connect_failed rc));
             context := ∅ |} w).

(** [MQTTSubscriberClient._on_subscribe] *)
Definition _on_subscribe (cfg : Config)
    (sw : MQTTSubscriberClient * World) : MQTTSubscriberClient * World :=
  let '(s, w) := sw in
  let topic := format_topic cfg (client_id s) in
  (s, fire {| request_type := "MQTT"; name := "subscribe";
              response_time := 0; response_length := 0;
              exception := None;
              context := {[ "topic" := VStr topic ]} |} w).

(** What the network thread of the paho client reports. *)
Inductive Event : Type :=
| Connack (rc : Paho.ReasonCode)   (* it calls [_on_connect] *)
| Suback                   (* it calls [_on_subscribe] *).

(** One connect attempt: the reading of [time.time()] on entry, what the
    blocking [client.connect] does, and the callbacks of the network
    thread in the order it makes them, each with its delay from entry in
    milliseconds. *)
Record Attempt : Type := mkAttempt {
  t0 : Z;
  blocking : ConnectionTest.BlockingConnect;
  events : list (Z * Event)
}.

Definition deliver (cfg : Config) (att : Attempt) (ev : Z * Event)
    (sw : MQTTSubscriberClient * World) : MQTTSubscriberClient * World :=
  match snd ev with
  | Connack rc => _on_connect cfg (t0 att + fst ev) rc sw
  | Suback => _on_subscribe cfg sw
  end.

(** The session and world a reader sees [at_ms] milliseconds into the
    attempt: the callbacks due by then have run. *)
Definition seen_at (cfg : Config) (att : Attempt) (at_ms : Z)
    (sw : MQTTSubscriberClient * World) : MQTTSubscriberClient * World :=
  foldl (fun sw ev => if fst ev <=? at_ms then deliver cfg att ev sw else sw)
        sw (events att).

(** [timeout = 10], in milliseconds. *)
Definition timeout : Z := 10000.

(** The polling loop of [connect]:
    [while not self._connected and (time.time() - start) < timeout:
         time.sleep(0.1)].
    [start_ms] is when the loop was entered and [waited] how long it has
    slept so far, each sleep taking its 100 milliseconds.  The result is
    the time waited when the loop ends. *)
Fixpoint wait_for_connection (fuel : nat) (cfg : Config) (att : Attempt)
    (start_ms waited : Z) (sw : MQTTSubscriberClient * World) : option Z :=
  match fuel with
  | O => None
  | S fuel' =>
      let s := fst (seen_at cfg att (start_ms + waited) sw) in
      if negb (_connected s) && (waited <? timeout)
      then wait_for_connection fuel' cfg att start_ms (waited + 100) sw
      else Some waited
  end.

(** Polls that always suffice. *)
Definition enough_polls : nat := 102.

Record Outcome (A : Type) : Type := mkOutcome {
  returned : Result A;
  elapsed : Z;
  session : MQTTSubscriberClient;
  world : World
}.
Arguments returned {A} _.
Arguments elapsed {A} _.
Arguments session {A} _.
Arguments world {A} _.

(** The calls of [connect] up to and including [client.connect]. *)
Definition setup_calls (cfg : Config) (client_id : string) : list Call :=
  (if use_tls cfg then
     match ca_cert_path cfg with
     | Some path =>
         if negb (String.eqb path "") then [TlsSet (Some path) CERT_REQUIRED]
         else [TlsSet None CERT_NONE; TlsInsecureSet true]
     | None => [TlsSet None CERT_NONE; TlsInsecureSet true]
     end
   else []) ++
  [UsernamePwSet client_id ""; Connect (mqtt_broker cfg) (mqtt_port cfg) 60].

(** [MQTTSubscriberClient.connect]; [None] when [fuel] polls do not end
    the loop.  The exception of the [except] clause is the one
    [client.connect] raises. *)
Definition connect (fuel : nat) (cfg : Config) (att : Attempt)
    (s : MQTTSubscriberClient) (w : World) : option (Outcome bool) :=
  let s0 := set_connect_start (Some (t0 att)) s in
  let w0 := foldl (fun w c => call c w) w (setup_calls cfg (client_id s)) in
  match blocking att with
  | ConnectionTest.Raises d what =>
      let response_time := elapsed_since (_connect_start s0) (t0 att + d) in
      Some {| returned := Return false; elapsed := d; session := s0;
              world := fire {| request_type := "MQTT"; name := "connect";
                               response_time := response_time;
                               response_length := 0;
                               exception := Some (LibraryError what);
                               context := ∅ |} w0 |}
  | ConnectionTest.Returns d =>
      let w1 := call LoopStart w0 in
      match wait_for_connection fuel cfg att d 0 (s0, w1) with
      | None => None
      | Some waited =>
          let '(s2, w2) := seen_at cfg att (d + waited) (s0, w1) in
          Some {| returned := Return (_connected s2); elapsed := d + waited;
                  session := s2; world := w2 |}
      end
  end.

End SubscriberConnect.

(* ===================================================================== *)
(** ** Reports of a worker to the coordinator (locustfile.py)             *)
(* ===================================================================== *)

Module Reports.
Import Py.

(** A worker fires the requests of [runs], one run after the other, and
    reports after each run.  [on_report_to_master] attaches a copy of
    [alert_stats] and leaves the dictionary as it is, so the next run counts
    on from there.  The result is the copies attached, in the order
    sent. *)
Fixpoint worker_reports (stats : gmap string Z) (runs : list (list Request))
    : list (gmap string Z) :=
  match runs with
  | [] => []
  | rs :: rest =>
      let stats' := foldl (fun stats r => Subscriber.on_request r stats) stats rs in
      stats' :: worker_reports stats' rest
  end.

(** How often each alert of [runs] has been reported: once in every
    report sent after it. *)
Fixpoint times_reported (p : Request -> bool) (runs : list (list Request)) : Z :=
  match runs with
  | [] => 0
  | rs :: rest => Z.of_nat (length runs) * Totals.count p rs + times_reported p rest
  end.

End Reports.

(* ===================================================================== *)
(** ** Populating the user table (populate_users.py)                      *)
(* ===================================================================== *)

Module Populate.

(** Python's [range(start, stop, step)] as a list; [None] for
    [step = 0], where [range] raises [ValueError]. *)
Definition range (start stop step : Z) : option (list Z) :=
  if step =? 0 then None
  else
    let n := if 0 <? step then (stop - start + step - 1) `div` step
             else (start - stop - step - 1) `div` (- step) in
    Some ((fun i => start + i * step) <$> seqZ 0 n).

Section Cursor.
Context {DB : Type}.

(** [cursor.execute] of the INSERT statement whose VALUES are the rows of
    the users [ids], in that order: the database afterwards and
    [cursor.rowcount]. *)
Variable execute : list Z -> DB -> DB * Z.

(** The body of the loop over [batch_start]; [acc] is [created] and the
    database. *)
Definition insert_batch (start_id count batch_size : Z)
    (acc : Z * DB) (batch_start : Z) : Z * DB :=
  let batch_end := Z.min (batch_start + batch_size) (start_id + count) in
  let values := default [] (range batch_start batch_end 1) in
  match values with
  | [] => acc
  | _ :: _ =>
      let '(db, rowcount) := execute values (snd acc) in
      (fst acc + rowcount, db)
  end.

(** [create_users]: [created] and the database afterwards; [None] when
    [range] raises. *)
Definition create_users (start_id count batch_size : Z) (db : DB)
    : option (Z * DB) :=
  match range start_id (start_id + count) batch_size with
  | Some batches =>
      Some (foldl (insert_batch start_id count batch_size) (0, db) batches)
  | None => None
  end.

(** Statements executed one after the other, their row counts added up. *)
Definition execute_all (stmts : list (list Z)) (db : DB) : Z * DB :=
  foldl (fun acc ids =>
           let '(db', rowcount) := execute ids (snd acc) in
           (fst acc + rowcount, db'))
        (0, db) stmts.

End Cursor.

End Populate.

(* ===================================================================== *)
(** ** Properties of the allocator                                        *)
(* ===================================================================== *)

Module AllocatorFacts.
Import Allocator.

Lemma state_after_S n a :
  state_after (S n) a = after (get_next_user_id (state_after n a)).
Proof.
  revert a. induction n as [|n IH]; intros a; [reflexivity|].
  change (state_after (S (S n)) a)
    with (state_after (S n) (after (get_next_user_id a))).
  rewrite IH. reflexivity.
Qed.

(** The configuration fields never change. *)
Lemma after_fields a :
  let a' := after (get_next_user_id a) in
  worker_index a' = worker_index a /\ worker_count a' = worker_count a /\
  user_pool_size a' = user_pool_size a /\ _base_id a' = _base_id a.
Proof.
  unfold get_next_user_id. cbn zeta.
  destruct (user_pool_size a <? _) ; cbn; auto.
Qed.

Lemma state_after_fields n a :
  let a' := state_after n a in
  worker_index a' = worker_index a /\ worker_count a' = worker_count a /\
  user_pool_size a' = user_pool_size a /\ _base_id a' = _base_id a.
Proof.
  cbn zeta. revert a. induction n as [|n IH]; intros a; [cbn; auto|].
  cbn [state_after].
  destruct (IH (after (get_next_user_id a))) as (H1 & H2 & H3 & H4).
  destruct (after_fields a) as (G1 & G2 & G3 & G4).
  repeat split; congruence.
Qed.

(** Every identity is the base or the base plus a non-negative multiple
    of the worker count, whenever the counter is non-negative. *)
Lemma call_shape a :
  0 <= _counter a ->
  let c := get_next_user_id a in
  0 <= _counter (after c) /\
  exists k, 0 <= k /\ user_id c = _base_id a + k * worker_count a.
Proof.
  intros Hc. unfold get_next_user_id. cbn zeta.
  destruct (user_pool_size a <? _); cbn.
  - split; [lia|]. exists 0. lia.
  - split; [lia|]. exists (_counter a). lia.
Qed.

Lemma counter_nonneg n a : 0 <= _counter a -> 0 <= _counter (state_after n a).
Proof.
  revert a. induction n as [|n IH]; intros a Hc; [exact Hc|].
  cbn [state_after]. apply IH. apply (call_shape a Hc).
Qed.

(** Before any wraparound the counter equals the number of calls made. *)
Lemma no_wrap_counter n a :
  no_wrap n a -> _counter (state_after n a) = _counter a + Z.of_nat n.
Proof.
  revert a. induction n as [|n IH]; intros a Hn.
  - cbn. lia.
  - destruct Hn as [Hlog Hrest]. cbn [state_after].
    rewrite (IH _ Hrest).
    revert Hlog. unfold get_next_user_id. cbn zeta.
    destruct (user_pool_size a <? _); cbn; [discriminate|]. lia.
Qed.

Lemma no_wrap_prefix n a : no_wrap (S n) a -> no_wrap n a.
Proof.
  revert a. induction n as [|n IH]; intros a Hn; [exact I|].
  destruct Hn as [Hlog Hrest]. split; [exact Hlog|]. apply IH, Hrest.
Qed.

Lemma no_wrap_last n a :
  no_wrap (S n) a -> logged (nth_call n a) = [].
Proof.
  revert a. induction n as [|n IH]; intros a Hn.
  - destruct Hn as [Hlog _]. exact Hlog.
  - destruct Hn as [_ Hrest]. apply (IH _ Hrest).
Qed.

(** The identity of a call that did not wrap, by sequence number. *)
Lemma nth_call_no_wrap w count pool n :
  no_wrap (S n) (init w count pool) ->
  user_id (nth_call n (init w count pool)) = (w + 1) + Z.of_nat n * count /\
  user_id (nth_call n (init w count pool)) <= pool.
Proof.
  intros Hn.
  pose proof (no_wrap_last _ _ Hn) as Hlast.
  pose proof (no_wrap_counter _ _ (no_wrap_prefix _ _ Hn)) as Hcnt.
  destruct (state_after_fields n (init w count pool)) as (_ & Hwc & Hps & Hb).
  unfold nth_call in *. revert Hlast.
  unfold get_next_user_id. cbn zeta.
  rewrite Hwc, Hps, Hb, Hcnt. cbn [init worker_count user_pool_size _counter _base_id].
  destruct (pool <? _) eqn:E; cbn; [discriminate|].
  intros _. apply Z.ltb_ge in E. lia.
Qed.

(** Identities of different workers differ modulo the worker count. *)
Lemma progression_disjoint count w1 w2 k1 k2 :
  0 <= w1 < count -> 0 <= w2 < count -> w1 <> w2 ->
  (w1 + 1) + k1 * count <> (w2 + 1) + k2 * count.
Proof.
  intros H1 H2 Hne Heq.
  assert (Hk : (k1 - k2) * count = w2 - w1) by lia.
  assert (k1 - k2 = 0) by nia.
  lia.
Qed.

(** Helper, stronger than needed for the run before wraparound: two
    workers never return the same identity, wrapped around or not. *)
Lemma workers_never_collide count pool w1 w2 n1 n2 :
  0 <= w1 < count -> 0 <= w2 < count -> w1 <> w2 ->
  user_id (nth_call n1 (init w1 count pool)) <>
  user_id (nth_call n2 (init w2 count pool)).
Proof.
  intros H1 H2 Hne. unfold nth_call.
  pose proof (counter_nonneg n1 (init w1 count pool) (Z.le_refl 0)) as C1.
  pose proof (counter_nonneg n2 (init w2 count pool) (Z.le_refl 0)) as C2.
  destruct (call_shape _ C1) as (_ & k1 & _ & E1).
  destruct (call_shape _ C2) as (_ & k2 & _ & E2).
  destruct (state_after_fields n1 (init w1 count pool)) as (_ & Hc1 & _ & Hb1).
  destruct (state_after_fields n2 (init w2 count pool)) as (_ & Hc2 & _ & Hb2).
  rewrite E1, E2, Hc1, Hc2, Hb1, Hb2. cbn [init worker_count _base_id].
  apply progression_disjoint; assumption.
Qed.

(** Identities stay in the pool when the worker's base does. *)
Lemma call_in_pool a :
  0 <= _counter a -> 0 <= worker_count a ->
  1 <= _base_id a <= user_pool_size a ->
  1 <= user_id (get_next_user_id a) <= user_pool_size a.
Proof.
  intros Hc Hw Hb. unfold get_next_user_id. cbn zeta.
  destruct (user_pool_size a <? _) eqn:E; cbn; [lia|].
  apply Z.ltb_ge in E. nia.
Qed.

Lemma ids_in_pool w count pool n :
  0 <= w < count -> w + 1 <= pool ->
  1 <= user_id (nth_call n (init w count pool)) <= pool.
Proof.
  intros Hw Hb. unfold nth_call.
  pose proof (counter_nonneg n (init w count pool) (Z.le_refl 0)) as C.
  destruct (state_after_fields n (init w count pool)) as (_ & Hc & Hp & Hbase).
  cbn [init worker_count user_pool_size _base_id] in Hc, Hp, Hbase.
  pose proof (call_in_pool (state_after n (init w count pool)) C) as H.
  rewrite Hc, Hp, Hbase in H. apply H; lia.
Qed.

(** A call that wraps returns the base and leaves the counter at 0. *)
Lemma wrap_returns_base a :
  user_pool_size a < _base_id a + _counter a * worker_count a ->
  let c := get_next_user_id a in
  user_id c = _base_id a /\ _counter (after c) = 0 /\ logged c <> [].
Proof.
  intros Hw. unfold get_next_user_id. cbn zeta.
  apply Z.ltb_lt in Hw. rewrite Hw. cbn. repeat split; discriminate.
Qed.

(** With the counter at 0 the call returns the base, wrapped or not. *)
Lemma counter_zero_returns_base a :
  _counter a = 0 -> user_id (get_next_user_id a) = _base_id a.
Proof.
  intros H0. unfold get_next_user_id. cbn zeta. rewrite H0.
  destruct (user_pool_size a <? _); cbn; lia.
Qed.

(** C1: for pool size >= 1, worker count >= 1 and two distinct worker
    indices in [0, count-1], the identities of call number k1 on the
    first worker and call number k2 on the second, both made before any
    wraparound on their worker and both inside [1, poolSize], are
    (w+1) + k*count and are different. *)
Theorem C1_identities_distinct_before_wraparound
    (poolSize count w1 w2 : Z) (k1 k2 : nat) :
  1 <= poolSize -> 1 <= count ->
  0 <= w1 <= count - 1 -> 0 <= w2 <= count - 1 -> w1 <> w2 ->
  no_wrap (S k1) (init w1 count poolSize) ->
  no_wrap (S k2) (init w2 count poolSize) ->
  1 <= user_id (nth_call k1 (init w1 count poolSize)) <= poolSize ->
  1 <= user_id (nth_call k2 (init w2 count poolSize)) <= poolSize ->
  user_id (nth_call k1 (init w1 count poolSize)) = (w1 + 1) + Z.of_nat k1 * count /\
  user_id (nth_call k2 (init w2 count poolSize)) = (w2 + 1) + Z.of_nat k2 * count /\
  user_id (nth_call k1 (init w1 count poolSize)) <>
  user_id (nth_call k2 (init w2 count poolSize)).
Proof.
  intros _ _ H1 H2 Hne N1 N2 _ _.
  destruct (nth_call_no_wrap _ _ _ _ N1) as [E1 _].
  destruct (nth_call_no_wrap _ _ _ _ N2) as [E2 _].
  repeat split; [exact E1 | exact E2 |].
  rewrite E1, E2. apply progression_disjoint; [lia | lia | exact Hne].
Qed.

Lemma C1_witness :
  user_id (nth_call 3 (init 0 2 100)) = 7 /\
  user_id (nth_call 3 (init 1 2 100)) = 8 /\
  user_id (nth_call 3 (init 0 2 100)) <> user_id (nth_call 3 (init 1 2 100)).
Proof.
  apply (C1_identities_distinct_before_wraparound 100 2 0 1 3 3);
    first [ lia | vm_compute; repeat split; congruence ].
Defined.

(** C3: pool size 100 and two workers.  Worker 0's first 50 calls return
    1, 3, ..., 99 and worker 1's return 2, 4, ..., 100, none of them
    logging anything; worker 0's 51st call returns 1 again, logs one
    warning, and leaves an allocator behind (the call has no error
    result). *)
Theorem C3_pool_100_two_workers :
  ids 50 (init 0 2 100) = map (fun i => 2 * Z.of_nat i + 1) (seq 0 50) /\
  ids 50 (init 1 2 100) = map (fun i => 2 * Z.of_nat i + 2) (seq 0 50) /\
  no_wrap 50 (init 0 2 100) /\ no_wrap 50 (init 1 2 100) /\
  nth_call 50 (init 0 2 100) =
    {| user_id := 1;
       logged := [Warning "User ID wrapped around at worker" 0];
       after := init 0 2 100 |}.
Proof.
  vm_compute. repeat split; reflexivity.
Qed.

(** The identities of the first [n] calls are those of the calls. *)
Lemma ids_in_pool_list n : forall a,
  0 <= _counter a -> 0 <= worker_count a ->
  1 <= _base_id a <= user_pool_size a ->
  Forall (fun id => 1 <= id <= user_pool_size a) (ids n a).
Proof.
  induction n as [|n IH]; intros a Hc Hw Hb; [constructor|].
  cbn [ids]. destruct (after_fields a) as (_ & G2 & G3 & G4). cbn zeta in *.
  apply List.Forall_cons; [apply call_in_pool; assumption|].
  rewrite <- G3. apply IH.
  - apply (call_shape a Hc).
  - rewrite G2. exact Hw.
  - rewrite G3, G4. exact Hb.
Qed.

(** C9 (counterexample): worker 1 of 2 with a pool of one user, a
    configuration the claim admits.  The first call computes 2 > 1, takes
    the wraparound branch and returns the base 2, which is outside
    [1, poolSize]; so does every later call. *)
Lemma C9_counterexample :
  0 <= 1 <= 2 - 1 /\ 1 <= 2 /\ 1 <= 1 /\
  user_id (nth_call 0 (init 1 2 1)) = 2 /\
  ~ (1 <= user_id (nth_call 0 (init 1 2 1)) <= 1) /\
  ids 3 (init 1 2 1) = [2; 2; 2].
Proof.
  vm_compute. repeat split; try congruence.
  intros [_ H]. apply H. reflexivity.
Qed.

(** C9 (amended): with the worker index in [0, count-1] and the worker's
    base, index + 1, inside the pool, every identity returned by any
    sequence of calls lies in [1, poolSize], wrapped around or not. *)
Theorem C9_identities_in_pool_when_base_fits (w count pool : Z) (n : nat) :
  0 <= w <= count - 1 -> 1 <= count -> 1 <= pool -> w + 1 <= pool ->
  Forall (fun id => 1 <= id <= pool) (ids n (init w count pool)) /\
  1 <= user_id (nth_call n (init w count pool)) <= pool.
Proof.
  intros Hw Hc Hp Hb. split.
  - apply (ids_in_pool_list n (init w count pool));
      cbn [init _counter worker_count _base_id user_pool_size]; lia.
  - apply ids_in_pool; lia.
Qed.

Lemma C9_witness :
  Forall (fun id => 1 <= id <= 100) (ids 120 (init 1 2 100)) /\
  1 <= user_id (nth_call 120 (init 1 2 100)) <= 100.
Proof.
  apply (C9_identities_in_pool_when_base_fits 1 2 100 120); lia.
Defined.

(** C10: when the call made after [n] earlier calls computes an identity
    above the pool size (it wraps: the counter is reset to 0 and the base
    workerIndex+1 is returned), the call that follows it returns the base
    again. *)
Theorem C10_base_returned_twice (w count pool : Z) (n : nat) :
  let a := state_after n (init w count pool) in
  user_pool_size a < _base_id a + _counter a * worker_count a ->
  user_id (nth_call n (init w count pool)) = w + 1 /\
  _counter (state_after (S n) (init w count pool)) = 0 /\
  user_id (nth_call (S n) (init w count pool)) = w + 1.
Proof.
  cbn zeta. intros Hw.
  destruct (wrap_returns_base _ Hw) as (Hid & Hc0 & _).
  destruct (state_after_fields n (init w count pool)) as (_ & _ & _ & Hb).
  cbn [init _base_id] in Hb.
  unfold nth_call. rewrite state_after_S.
  repeat split.
  - rewrite Hid. exact Hb.
  - exact Hc0.
  - rewrite (counter_zero_returns_base _ Hc0).
    destruct (after_fields (state_after n (init w count pool))) as (_ & _ & _ & Hb').
    rewrite Hb'. exact Hb.
Qed.

Lemma C10_witness :
  user_id (nth_call 50 (init 0 2 100)) = 1 /\
  _counter (state_after 51 (init 0 2 100)) = 0 /\
  user_id (nth_call 51 (init 0 2 100)) = 1.
Proof.
  apply (C10_base_returned_twice 0 2 100 50). vm_compute. reflexivity.
Defined.

End AllocatorFacts.

(* ===================================================================== *)
(** ** Properties of the UTF-8 decoder                                    *)
(* ===================================================================== *)

Module PyFacts.
Import Py.

Ltac bool_hyps :=
  repeat match goal with
  | H : (_ && _)%bool = true |- _ => apply andb_true_iff in H; destruct H
  | H : (_ && _)%bool = false |- _ => apply andb_false_iff in H
  | H : (_ <=? _)%N = true |- _ => apply N.leb_le in H
  | H : (_ <=? _)%N = false |- _ => apply N.leb_gt in H
  | H : (_ <? _)%N = true |- _ => apply N.ltb_lt in H
  | H : (_ <? _)%N = false |- _ => apply N.ltb_ge in H
  | H : (_ =? _)%N = true |- _ => apply N.eqb_eq in H
  | H : (_ =? _)%N = false |- _ => apply N.eqb_neq in H
  | H : (if ?c then _ else _) = _ |- _ => destruct c eqn:?
  end.

(** A decoded code point below 128 comes from exactly one byte, the byte
    of that value. *)
Lemma decode_ascii_head b r c t :
  decode (b :: r) = c :: t -> (c < 128)%N ->
  Byte.to_N b = c /\ decode r = t.
Proof.
  cbn [decode]. unfold replacement, second_ok, is_cont.
  set (n0 := Byte.to_N b).
  destruct (n0 <? 128)%N eqn:E0.
  { intros H _. injection H as H1 H2. split; assumption. }
  intros H Hc. exfalso. revert H.
  repeat match goal with
  | |- context [match ?l with [] => _ | _ :: _ => _ end] =>
      is_var l; destruct l
  | |- context [if ?c then _ else _] => destruct c eqn:?
  end;
  intros H; injection H as H1 H2; subst c; bool_hyps; lia.
Qed.

Lemma decode_nil bs : decode bs = [] -> bs = [].
Proof.
  destruct bs as [|b r]; [reflexivity|].
  cbn [decode].
  repeat match goal with
  | |- context [match ?l with [] => _ | _ :: _ => _ end] =>
      is_var l; destruct l
  | |- context [if ?c then _ else _] => destruct c
  end; discriminate.
Qed.

Lemma byte_of_value b n x :
  Byte.to_N b = n -> Byte.of_N n = Some x -> b = x.
Proof.
  intros <- H. rewrite Byte.of_to_N in H. congruence.
Qed.

(** Only the five bytes of the literal decode to "ALERT". *)
Lemma decode_ALERT bs :
  decode bs = str_of "ALERT" <-> bs = bytes_of "ALERT".
Proof.
  split; [|intros ->; reflexivity].
  change (str_of "ALERT") with [65; 76; 69; 82; 84]%N.
  intros H.
  destruct bs as [|b1 bs]; [discriminate|].
  apply decode_ascii_head in H as [B1 H]; [|lia].
  destruct bs as [|b2 bs]; [discriminate|].
  apply decode_ascii_head in H as [B2 H]; [|lia].
  destruct bs as [|b3 bs]; [discriminate|].
  apply decode_ascii_head in H as [B3 H]; [|lia].
  destruct bs as [|b4 bs]; [discriminate|].
  apply decode_ascii_head in H as [B4 H]; [|lia].
  destruct bs as [|b5 bs]; [discriminate|].
  apply decode_ascii_head in H as [B5 H]; [|lia].
  apply decode_nil in H. subst bs.
  rewrite (byte_of_value _ _ _ B1 eq_refl), (byte_of_value _ _ _ B2 eq_refl),
          (byte_of_value _ _ _ B3 eq_refl), (byte_of_value _ _ _ B4 eq_refl),
          (byte_of_value _ _ _ B5 eq_refl).
  reflexivity.
Qed.

End PyFacts.

(* ===================================================================== *)
(** ** Properties of the subscriber driver                                *)
(* ===================================================================== *)

Module SubscriberFacts.
Import Py Subscriber.

Lemma is_valid_iff msg : is_valid msg = true <-> payload msg = bytes_of "ALERT".
Proof.
  unfold is_valid, ALERT. rewrite bool_decide_eq_true.
  apply PyFacts.decode_ALERT.
Qed.

Lemma lookup_incr k k' (d : gmap string Z) :
  incr k d !! k' = if decide (k = k') then (fun v => v + 1) <$> d !! k' else d !! k'.
Proof.
  unfold incr. rewrite lookup_alter. case_decide; subst; reflexivity.
Qed.

(** *** Merging reports *)

Lemma lookup_add_reported (stats reported : gmap string Z) k :
  add_reported stats reported !! k
  = (fun v => v + default 0 (reported !! k)) <$> stats !! k.
Proof.
  unfold add_reported. rewrite map_lookup_imap.
  destruct (stats !! k); reflexivity.
Qed.

Lemma merge_add_reported (stats reported : gmap string Z) :
  merge stats reported = add_reported stats reported.
Proof.
  unfold merge, on_worker_report, on_report_to_master.
  rewrite lookup_insert_eq. reflexivity.
Qed.

Lemma dom_merge (stats reported : gmap string Z) :
  dom (merge stats reported) = dom stats.
Proof.
  apply set_eq. intros k. rewrite !elem_of_dom, merge_add_reported,
    lookup_add_reported.
  destruct (stats !! k); cbn; split; intros [? ?]; eauto; discriminate.
Qed.

Lemma same_keys (a b : gmap string Z) k :
  dom a = dom b -> is_Some (a !! k) <-> is_Some (b !! k).
Proof. intros H. rewrite <- !elem_of_dom, H. reflexivity. Qed.

Lemma merge_comm (a b : gmap string Z) :
  dom a = dom b -> merge a b = merge b a.
Proof.
  intros Hd. apply map_eq. intros k.
  rewrite !merge_add_reported, !lookup_add_reported.
  pose proof (same_keys a b k Hd) as Hk.
  destruct (a !! k) as [x|] eqn:Ea, (b !! k) as [y|] eqn:Eb; cbn.
  - f_equal. lia.
  - destruct (proj1 Hk) as [? ?]; [eauto | discriminate].
  - destruct (proj2 Hk) as [? ?]; [eauto | discriminate].
  - reflexivity.
Qed.

Lemma merge_assoc (a b c : gmap string Z) :
  dom a = dom b -> merge (merge a b) c = merge a (merge b c).
Proof.
  intros Hd. apply map_eq. intros k.
  rewrite !merge_add_reported, !lookup_add_reported.
  pose proof (same_keys a b k Hd) as Hk.
  destruct (a !! k) as [x|] eqn:Ea, (b !! k) as [y|] eqn:Eb; cbn.
  - f_equal. lia.
  - destruct (proj1 Hk) as [? ?]; [eauto | discriminate].
  - reflexivity.
  - reflexivity.
Qed.


Lemma lookup_merge_all ws : forall (stats : gmap string Z) k,
  merge_all stats ws !! k = (fun v => v + reported_sum k ws) <$> stats !! k.
Proof.
  induction ws as [|r ws IH]; intros stats k.
  - change (merge_all stats [] !! k) with (stats !! k).
    change (reported_sum k []) with 0.
    destruct (stats !! k) as [x|]; [|reflexivity].
    cbn [fmap option_fmap option_map]. f_equal. lia.
  - unfold merge_all in *. cbn [foldl]. rewrite IH, merge_add_reported,
      lookup_add_reported.
    change (reported_sum k (r :: ws))
      with (default 0 (r !! k) + reported_sum k ws).
    destruct (stats !! k) as [x|]; [|reflexivity].
    cbn [fmap option_fmap option_map]. f_equal. lia.
Qed.

Lemma reported_sum_perm k ws ws' :
  ws ≡ₚ ws' -> reported_sum k ws = reported_sum k ws'.
Proof.
  induction 1 as [|r l l' _ IH|r r' l|l l' l'' _ IH1 _ IH2];
    unfold reported_sum in *; cbn [foldr].
  - reflexivity.
  - rewrite IH. reflexivity.
  - lia.
  - congruence.
Qed.

(** The order in which reports arrive does not matter, whatever the
    reports contain. *)
Lemma merge_all_perm (stats : gmap string Z) ws ws' :
  ws ≡ₚ ws' -> merge_all stats ws = merge_all stats ws'.
Proof.
  intros Hp. apply map_eq. intros k.
  rewrite !lookup_merge_all, (reported_sum_perm k ws ws' Hp). reflexivity.
Qed.

Lemma snapshot_merge (a b : gmap string Z) :
  snapshot a -> snapshot b -> snapshot (merge a b).
Proof.
  intros [Da Pa] [Db Pb]. split.
  - rewrite dom_merge. exact Da.
  - intros k v. rewrite merge_add_reported, lookup_add_reported.
    destruct (a !! k) as [x|] eqn:Ea; cbn; [|discriminate].
    intros [= <-]. specialize (Pa k x Ea). cbn beta in Pa.
    destruct (b !! k) as [y|] eqn:Eb; cbn;
      [specialize (Pb k y Eb); cbn beta in Pb|]; lia.
Qed.

(** The counters a worker reports are a snapshot. *)
Lemma snapshot_alert_stats0 : snapshot alert_stats0.
Proof.
  split; [reflexivity|]. intros k v. unfold alert_stats0.
  repeat (rewrite lookup_insert; case_decide; [intros [= <-]; lia|]).
  rewrite lookup_singleton. case_decide; [intros [= <-]; lia | discriminate].
Qed.

Lemma snapshot_on_request r stats : snapshot stats -> snapshot (on_request r stats).
Proof.
  assert (Hi : forall k m, snapshot m -> snapshot (incr k m)).
  { intros k m [D P]. split.
    - unfold incr. rewrite <- D. apply dom_alter_L.
    - intros k' v. rewrite lookup_incr. case_decide; [|apply P].
      destruct (m !! k') as [x|] eqn:E; cbn; [|discriminate].
      intros [= <-]. specialize (P k' x E). cbn in P. lia. }
  intros H. unfold on_request.
  destruct (_ && _); [|exact H].
  destruct (truthy _); apply Hi, Hi, H.
Qed.

Lemma on_request_alert r stats b :
  request_type r = "MQTT" -> name r = "alert_received" ->
  context r !! "valid" = Some (VBool b) ->
  on_request r stats
  = if b then incr "valid_alerts" (incr "total_received" stats)
    else incr "invalid_alerts" (incr "total_received" stats).
Proof.
  intros Ht Hn Hc. unfold on_request. rewrite Ht, Hn, Hc. reflexivity.
Qed.

(** C6: for every payload the handler adds one to [messages_received]
    and stores the receipt time; the payload is valid exactly when its
    bytes are those of "ALERT"; the request it fires carries that
    verdict (no exception exactly for "ALERT"), and the listener counts
    the message in [total_received] and in [valid_alerts] or
    [invalid_alerts] accordingly. *)
Theorem C6_message_counted_and_classified
    (now : Z) (msg : MQTTMessage) (s : MQTTSubscriberClient) (w : World) :
  let s' := (_on_message now msg s w).1 in
  let w' := (_on_message now msg s w).2 in
  messages_received s' = messages_received s + 1 /\
  last_message_time s' = Some now /\
  (is_valid msg = true <-> payload msg = bytes_of "ALERT") /\
  (exists r, requests w' = requests w ++ [r] /\
             name r = "alert_received" /\
             context r !! "valid" = Some (VBool (is_valid msg)) /\
             (exception r = None <-> payload msg = bytes_of "ALERT")) /\
  alert_stats w' !! "total_received"
    = (fun v => v + 1) <$> alert_stats w !! "total_received" /\
  alert_stats w' !! "valid_alerts"
    = (fun v => if is_valid msg then v + 1 else v) <$> alert_stats w !! "valid_alerts" /\
  alert_stats w' !! "invalid_alerts"
    = (fun v => if is_valid msg then v else v + 1) <$> alert_stats w !! "invalid_alerts".
Proof.
  cbn zeta. unfold _on_message. cbn zeta.
  pose proof (is_valid_iff msg) as Hv.
  set (r := {| request_type := "MQTT"; name := "alert_received";
               response_time := 0;
               response_length := Z.of_nat (length (payload msg));
               exception := _; context := _ |}).
  assert (Hctx : context r !! "valid" = Some (VBool (is_valid msg))).
  { unfold r. cbn [context]. rewrite lookup_insert_ne by discriminate.
    apply lookup_singleton_eq. }
  assert (Hw : forall l, requests (write_log l (fire r w)) = requests w ++ [r]
                      /\ alert_stats (write_log l (fire r w))
                         = on_request r (alert_stats w)).
  { intros l. split; reflexivity. }
  assert (Hex : exception r = None <-> payload msg = bytes_of "ALERT").
  { unfold r. cbn [exception]. rewrite <- Hv.
    destruct (is_valid msg); split; congruence. }
  rewrite (on_request_alert r (alert_stats w) (is_valid msg) eq_refl eq_refl Hctx) in Hw.
  split; [reflexivity|]. split; [reflexivity|]. split; [exact Hv|].
  assert (Hgoal : forall l,
    (exists r0, requests (write_log l (fire r w)) = requests w ++ [r0] /\
                name r0 = "alert_received" /\
                context r0 !! "valid" = Some (VBool (is_valid msg)) /\
                (exception r0 = None <-> payload msg = bytes_of "ALERT")) /\
    alert_stats (write_log l (fire r w)) !! "total_received"
      = (fun v => v + 1) <$> alert_stats w !! "total_received" /\
    alert_stats (write_log l (fire r w)) !! "valid_alerts"
      = (fun v => if is_valid msg then v + 1 else v) <$> alert_stats w !! "valid_alerts" /\
    alert_stats (write_log l (fire r w)) !! "invalid_alerts"
      = (fun v => if is_valid msg then v else v + 1) <$> alert_stats w !! "invalid_alerts").
  { intros l. destruct (Hw l) as [Hr Hs]. split.
    - exists r. repeat split; try apply Hex; auto.
    - rewrite Hs. destruct (is_valid msg); rewrite !lookup_incr;
        repeat (case_decide; try congruence);
        repeat split; destruct (alert_stats w !! _); reflexivity. }
  destruct (is_valid msg) eqn:E; cbn [fst snd]; apply Hgoal.
Qed.

(** Payloads that are not "ALERT": empty, truncated, extended, and an
    ill-formed byte. *)
Example other_payloads_invalid :
  is_valid {| topic := "clients/user1/alerts"; payload := bytes_of "" |} = false /\
  is_valid {| topic := "clients/user1/alerts"; payload := bytes_of "ALER" |} = false /\
  is_valid {| topic := "clients/user1/alerts"; payload := bytes_of "ALERT!" |} = false /\
  is_valid {| topic := "clients/user1/alerts";
              payload := bytes_of "ALERT" ++ [Byte.xff] |} = false /\
  is_valid {| topic := "clients/user1/alerts"; payload := bytes_of "ALERT" |} = true.
Proof. vm_compute. repeat split; reflexivity. Qed.

(** C7: on counter snapshots the merge the coordinator applies is
    commutative and associative, stays a snapshot, and the totals after
    any number of reports do not depend on the order in which the reports
    arrive. *)
Theorem C7_merge_associative_commutative
    (a b c : gmap string Z) (ws ws' : list (gmap string Z)) :
  snapshot a -> snapshot b -> snapshot c ->
  Forall snapshot ws -> ws ≡ₚ ws' ->
  merge a b = merge b a /\
  merge (merge a b) c = merge a (merge b c) /\
  merge_all a ws = merge_all a ws' /\
  snapshot (merge_all a ws).
Proof.
  intros Ha Hb Hc Hws Hp.
  split; [apply merge_comm; destruct Ha, Hb; congruence|].
  split; [apply merge_assoc; destruct Ha, Hb; congruence|].
  split; [apply merge_all_perm, Hp|].
  clear Hp. revert a Ha. unfold merge_all.
  induction Hws as [|r ws Hr _ IH]; intros a Ha; [exact Ha|].
  cbn [foldl]. apply IH, snapshot_merge; assumption.
Qed.

Lemma C7_witness :
  let a : gmap string Z :=
    {[ "total_received" := 5; "valid_alerts" := 4; "invalid_alerts" := 1 ]} in
  let b : gmap string Z :=
    {[ "total_received" := 2; "valid_alerts" := 0; "invalid_alerts" := 2 ]} in
  let c : gmap string Z :=
    {[ "total_received" := 7; "valid_alerts" := 7; "invalid_alerts" := 0 ]} in
  merge a b = merge b a /\
  merge (merge a b) c = merge a (merge b c) /\
  merge_all a [b; c] = merge_all a [c; b] /\
  snapshot (merge_all a [b; c]).
Proof.
  cbn zeta.
  assert (S : forall m : gmap string Z,
             bool_decide (dom m = dom alert_stats0) = true ->
             bool_decide (map_Forall (fun _ v => 0 <= v) m) = true ->
             snapshot m).
  { intros m H1 H2. split; eapply bool_decide_eq_true_1; eassumption. }
  apply C7_merge_associative_commutative.
  - apply S; vm_compute; reflexivity.
  - apply S; vm_compute; reflexivity.
  - apply S; vm_compute; reflexivity.
  - repeat constructor; apply S; vm_compute; reflexivity.
  - apply perm_swap.
Defined.

End SubscriberFacts.

(* ===================================================================== *)
(** ** Properties of disconnect                                           *)
(* ===================================================================== *)

Module DisconnectFacts.
Import Py Connections.

Lemma gmqtt_disconnect_returns cfg td s w :
  Distributed.returned (Distributed.disconnect cfg td s w) = Return tt.
Proof.
  unfold Distributed.disconnect.
  destruct (Distributed._connected s), (Distributed.client s); try reflexivity.
  destruct (Distributed.run_async _ _) as [t [u|e]]; reflexivity.
Qed.

Lemma gmqtt_disconnect_disconnected cfg td s w :
  Distributed.well_formed s ->
  Distributed._connected (Distributed.session (Distributed.disconnect cfg td s w))
  = false.
Proof.
  intros Hwf. unfold Distributed.disconnect.
  destruct (Distributed._connected s) eqn:E; [|exact E].
  destruct (Distributed.client s) eqn:C; [|destruct (Hwf E C)].
  destruct (Distributed.run_async _ _) as [t [u|e]]; reflexivity.
Qed.

Lemma gmqtt_disconnect_noop cfg td s w :
  Distributed._connected s = false ->
  Distributed.disconnect cfg td s w
  = {| Distributed.returned := Return tt; Distributed.elapsed := 0;
       Distributed.session := s; Distributed.world := w |}.
Proof.
  intros H. unfold Distributed.disconnect. rewrite H. reflexivity.
Qed.

Lemma gmqtt_disconnects_noop cfg tds s w :
  Distributed._connected s = false ->
  Distributed.gmqtt_disconnects cfg tds (s, w) = (s, w).
Proof.
  intros H. induction tds as [|td tds IH]; [reflexivity|].
  cbn [Distributed.gmqtt_disconnects fst snd].
  rewrite (gmqtt_disconnect_noop _ _ _ _ H). exact IH.
Qed.

Lemma subscriber_disconnect_noop td s w :
  Subscriber._connected s = false ->
  Subscriber.disconnect td s w = (Return tt, (s, w)).
Proof. intros H. unfold Subscriber.disconnect. rewrite H. reflexivity. Qed.

Lemma subscriber_disconnects_noop tds s w :
  Subscriber._connected s = false ->
  Subscriber.subscriber_disconnects tds (s, w) = (s, w).
Proof.
  intros H. induction tds as [|td tds IH]; [reflexivity|].
  cbn [Subscriber.subscriber_disconnects fst snd].
  rewrite (subscriber_disconnect_noop _ _ _ H). exact IH.
Qed.

Lemma gmqtt_disconnect_well_formed cfg td s w :
  Distributed.well_formed s ->
  Distributed.well_formed (Distributed.session (Distributed.disconnect cfg td s w)).
Proof.
  intros Hwf H. rewrite (gmqtt_disconnect_disconnected cfg td s w Hwf) in H.
  discriminate.
Qed.

(** C8 (failing call): [disconnect()] of the subscriber session, on a
    connected session whose [client.disconnect()] raises.  That is what the
    call does with the client this driver builds: it is a VERSION2 client,
    which calls [on_disconnect] with five arguments from inside
    [disconnect()], and [_on_disconnect] takes four, so [TypeError] comes
    out of [client.disconnect()].  There is no [try] around it: the
    exception leaves [disconnect()], the session stays connected, and a
    second call is no no-op, it makes both calls on the client again.

    The rest of the claim holds.  The gmqtt [disconnect()] returns without
    raising and leaves the session disconnected, whatever the awaited
    [client.disconnect()] does; on a session that never connected or is
    already disconnected it changes neither session nor world; and further
    calls leave what the first left (for a session the driver can reach: a
    connected one has its [MQTTClient]).  The subscriber [disconnect()] on
    a session that is not connected is a no-op too, any number of times. *)
Theorem C8_subscriber_disconnect_raises
    (cfg : Distributed.Config) (td : Distributed.Teardown)
    (tds : list Distributed.Teardown) (cid : string)
    (s : Distributed.GMQTTConnectionClient) (w : World)
    (ptd : Paho.Teardown) (ptds : list Paho.Teardown) (what : string)
    (ps : Subscriber.MQTTSubscriberClient) (pw : Subscriber.World) :
  Distributed.well_formed s ->
  (* gmqtt session *)
  Distributed.returned (Distributed.disconnect cfg td s w) = Return tt /\
  Distributed.is_connected
    (Distributed.session (Distributed.disconnect cfg td s w)) = false /\
  Distributed.disconnect cfg td (Distributed.init cid) w
    = {| Distributed.returned := Return tt; Distributed.elapsed := 0;
         Distributed.session := Distributed.init cid;
         Distributed.world := w |} /\
  Distributed.disconnect cfg td (Distributed.set_connected false s) w
    = {| Distributed.returned := Return tt; Distributed.elapsed := 0;
         Distributed.session := Distributed.set_connected false s;
         Distributed.world := w |} /\
  Distributed.gmqtt_disconnects cfg (td :: tds) (s, w)
    = Distributed.gmqtt_disconnects cfg [td] (s, w) /\
  (* subscriber session that is not connected *)
  Subscriber.disconnect ptd (Subscriber.init cid) pw
    = (Return tt, (Subscriber.init cid, pw)) /\
  Subscriber.disconnect ptd (Subscriber.set_connected false ps) pw
    = (Return tt, (Subscriber.set_connected false ps, pw)) /\
  Subscriber.subscriber_disconnects ptds (Subscriber.set_connected false ps, pw)
    = (Subscriber.set_connected false ps, pw) /\
  (* connected subscriber session, [client.disconnect()] raising *)
  let connected := Subscriber.set_connected true ps in
  let raising := Paho.DisconnectRaises what in
  fst (Subscriber.disconnect raising connected pw) = Raise (LibraryError what) /\
  Subscriber.is_connected (fst (snd (Subscriber.disconnect raising connected pw)))
    = true /\
  Subscriber.client_calls
    (snd (Subscriber.subscriber_disconnects [raising] (connected, pw)))
    = Subscriber.client_calls pw
        ++ [Subscriber.LoopStop; Subscriber.ClientDisconnect] /\
  Subscriber.client_calls
    (snd (Subscriber.subscriber_disconnects [raising; raising] (connected, pw)))
    = Subscriber.client_calls pw
        ++ [Subscriber.LoopStop; Subscriber.ClientDisconnect;
            Subscriber.LoopStop; Subscriber.ClientDisconnect].
Proof.
  intros Hwf.
  split; [apply gmqtt_disconnect_returns|].
  split; [apply gmqtt_disconnect_disconnected, Hwf|].
  split; [apply gmqtt_disconnect_noop; reflexivity|].
  split; [apply gmqtt_disconnect_noop; reflexivity|].
  split.
  { cbn [Distributed.gmqtt_disconnects fst snd].
    apply gmqtt_disconnects_noop, gmqtt_disconnect_disconnected, Hwf. }
  split; [reflexivity|].
  split; [reflexivity|].
  split; [apply subscriber_disconnects_noop; reflexivity|].
  cbn zeta.
  split; [reflexivity|]. split; [reflexivity|].
  cbn [Subscriber.subscriber_disconnects Subscriber.disconnect
       Subscriber.set_connected Subscriber._connected fst snd
       Subscriber.call_client Subscriber.client_calls].
  split; [rewrite <- app_assoc; reflexivity|].
  rewrite <- !app_assoc. reflexivity.
Qed.

Lemma C8_witness :
  let cfg := Distributed.default_config in
  let connected :=
    Distributed.connect cfg
      {| t0 := 1000; transport := Established 20; connack := Some (45, 0) |}
      (Distributed.init "user1") world0 in
  let s := Distributed.session connected in
  let w := Distributed.world connected in
  let subscriber := Subscriber.set_connected true (Subscriber.init "user1") in
  let raising := Paho.DisconnectRaises "TypeError" in
  Distributed.is_connected s = true /\
  Distributed.is_connected
    (Distributed.session (Distributed.disconnect cfg (Distributed.Closed 7) s w))
    = false /\
  Distributed.gmqtt_disconnects cfg
    [Distributed.Closed 7; Distributed.CloseHangs; Distributed.Closed 1] (s, w)
  = Distributed.gmqtt_disconnects cfg [Distributed.Closed 7] (s, w) /\
  fst (Subscriber.disconnect raising subscriber Subscriber.world0)
    = Raise (LibraryError "TypeError") /\
  Subscriber.is_connected
    (fst (snd (Subscriber.disconnect raising subscriber Subscriber.world0))) = true.
Proof.
  cbn zeta.
  set (connected :=
         Distributed.connect Distributed.default_config
           {| t0 := 1000; transport := Established 20; connack := Some (45, 0) |}
           (Distributed.init "user1") world0).
  assert (Hwf : Distributed.well_formed (Distributed.session connected)).
  { intros _. vm_compute. discriminate. }
  destruct (C8_subscriber_disconnect_raises Distributed.default_config
              (Distributed.Closed 7)
              [Distributed.CloseHangs; Distributed.Closed 1] "user1"
              (Distributed.session connected) (Distributed.world connected)
              Paho.BothReturn [] "TypeError"
              (Subscriber.init "user1") Subscriber.world0 Hwf)
    as (_ & H2 & _ & _ & H5 & _ & _ & _ & H9 & H10 & _).
  split; [vm_compute; reflexivity|]. split; [exact H2|]. split; [exact H5|].
  split; [exact H9 | exact H10].
Defined.

End DisconnectFacts.

(* ===================================================================== *)
(** ** Properties of connect                                              *)
(* ===================================================================== *)

Module ConnectFacts.
Import Py Connections.


Lemma requests_fire r w : requests (fire r w) = requests w ++ [r].
Proof. reflexivity. Qed.

Lemma failed_connect_failed cid rt e : failed (failed_connect cid rt e).
Proof. repeat split. discriminate. Qed.

Lemma failed_connect_as cid rt e : failed_as (spec_error_class e) (failed_connect cid rt e).
Proof. repeat split. exists e. split; reflexivity. Qed.

(** *** gmqtt driver *)
Section Gmqtt.
Import Distributed.
Variable cfg : Config.

Ltac projections :=
  cbn [fst snd returned elapsed session world finished value final waiting
       _connected _connect_start _connect_error _connect_event client client_id
       set_connected set_connect_error set_connect_event].

(** What [_on_connect] does to the session and to the requests. *)
Lemma on_connect_effect now rc s w :
  exists r,
    snd (_on_connect now rc (s, w)) = fire r w /\
    request_type r = "MQTT" /\ name r = "connect" /\
    client (fst (_on_connect now rc (s, w))) = client s /\
    _connect_start (fst (_on_connect now rc (s, w))) = _connect_start s /\
    client_id (fst (_on_connect now rc (s, w))) = client_id s /\
    _connect_event (fst (_on_connect now rc (s, w)))
      = (fun _ => true) <$> _connect_event s /\
    if rc =? 0 then
      exception r = None /\
      _connected (fst (_on_connect now rc (s, w))) = true /\
      _connect_error (fst (_on_connect now rc (s, w))) = _connect_error s
    else
      exception r = Some (Exception (error_msg rc)) /\
      context r = {[ "client_id" := VStr (client_id s); "rc" := VInt rc ]} /\
      _connected (fst (_on_connect now rc (s, w))) = _connected s /\
      _connect_error (fst (_on_connect now rc (s, w))) = Some (error_msg rc).
Proof.
  unfold _on_connect.
  destruct (rc =? 0) eqn:E; destruct (_connect_event s) eqn:Ev; projections;
    rewrite ?Ev; projections; eexists; repeat split.
  all: exact Ev.
Qed.

Lemma error_msg_truthy rc : text_truthy (error_msg rc) = true.
Proof.
  unfold error_msg.
  destruct (rc_messages !! rc) as [m|] eqn:E; [|reflexivity].
  assert (Hm : m ∈ (map_to_list rc_messages).*2).
  { apply list_elem_of_fmap. exists (rc, m). split; [reflexivity|].
    apply elem_of_map_to_list, E. }
  revert Hm. vm_compute (map_to_list rc_messages).*2.
  rewrite !elem_of_cons, elem_of_nil.
  intros [->|[->|[->|[->|[->|[]]]]]]; reflexivity.
Qed.

(** The bridge never keeps the caller longer than its budget. *)
Lemma run_async_bounded {A} (run : Run A) :
  fst (run_async cfg run) <= Z.max 0 (ms (connect_timeout cfg + 5)).
Proof.
  unfold run_async. destruct (finished run) as [t|]; [|cbn; lia].
  destruct (_ <=? _) eqn:E; cbn [fst]; [|lia].
  apply Z.leb_le in E. lia.
Qed.

Lemma connect_elapsed att s w :
  elapsed (connect cfg att s w) <= Z.max 0 (ms (connect_timeout cfg + 5)).
Proof.
  pose proof (run_async_bounded (_connect_async cfg att s w)) as H.
  unfold connect.
  destruct (run_async cfg _) as [t [b|e]]; cbn [fst] in H.
  - exact H.
  - destruct (waiting _). exact H.
Qed.

Lemma waiting_started att s w :
  waiting (_connect_async cfg att s w) = (started att s, w).
Proof.
  unfold _connect_async.
  destruct (await_transport cfg att) as [t [u|e]]; [|reflexivity].
  destruct (deliver_before att _ _) as [s1 w1].
  destruct (_connect_event s1) as [[|]|]; [|reflexivity|reflexivity].
  destruct (_connected s1); reflexivity.
Qed.

(** When the coroutine finishes. *)
Lemma finished_async att s w :
  finished (_connect_async cfg att s w)
  = Some match await_transport cfg att with
         | (at_ms, Raise _) => at_ms
         | (d, Return _) =>
             match connack att with
             | Some (delay, _) =>
                 if delay <? d + wait_limit cfg then Z.max d delay
                 else d + wait_limit cfg
             | None => d + wait_limit cfg
             end
         end.
Proof.
  unfold _connect_async.
  destruct (await_transport cfg att) as [t [u|e]]; [|reflexivity].
  unfold deliver_before.
  destruct (connack att) as [[delay rc]|]; [|reflexivity].
  destruct (delay <? t + wait_limit cfg); [|reflexivity].
  destruct (on_connect_effect (t0 att + delay) rc (started att s) w)
    as (r & _ & _ & _ & _ & _ & _ & Hev & _).
  destruct (_on_connect (t0 att + delay) rc (started att s, w)) as [s1 w1].
  cbn [fst] in Hev. rewrite Hev.
  cbn [started _connect_event fmap option_fmap option_map default fst].
  unfold id. destruct (_connected s1); reflexivity.
Qed.

Lemma await_transport_bounded att :
  0 <= wait_limit cfg /\ fst (await_transport cfg att) <= wait_limit cfg.
Proof.
  unfold await_transport.
  assert (0 <= wait_limit cfg) by (unfold wait_limit; lia).
  split; [assumption|].
  destruct (transport att) as [d|d what|]; [| |cbn [fst]; lia];
    destruct (d <? wait_limit cfg) eqn:E; cbn [fst];
    try apply Z.ltb_lt in E; lia.
Qed.

(** When the bridge gives up, the coroutine is still suspended in its
    wait for the CONNACK and no callback has run: the session and world
    the [except] clause of [connect] sees are those of [waiting]. *)
Lemma bridge_gives_up_before_callback att s w t e :
  (forall delay rc, connack att = Some (delay, rc) -> 0 <= delay) ->
  run_async cfg (_connect_async cfg att s w) = (t, Raise e) ->
  deliver_before att t (started att s, w) = (started att s, w).
Proof.
  intros Hpos. unfold run_async. rewrite finished_async.
  destruct (await_transport_bounded att) as [Hl0 Hb].
  assert (Hlim : 0 <= ms (connect_timeout cfg + 5) ->
                 wait_limit cfg <= ms (connect_timeout cfg + 5))
    by (unfold wait_limit, ms; lia).
  unfold deliver_before.
  destruct (connack att) as [[delay rc]|] eqn:Hack; [|reflexivity].
  specialize (Hpos delay rc eq_refl).
  destruct (_ <=? _) eqn:E; [discriminate|]. intros [= <- _].
  destruct (delay <? Z.max 0 (ms (connect_timeout cfg + 5))) eqn:D; [|reflexivity].
  exfalso. apply Z.ltb_lt in D. apply Z.leb_gt in E.
  destruct (await_transport cfg att) as [t [u|e']]; cbn [fst] in Hb.
  - destruct (delay <? t + wait_limit cfg) eqn:E1.
    + lia.
    + apply Z.ltb_ge in E1. lia.
  - lia.
Qed.

(** The callbacks delivered during an attempt fire at most one request
    and keep the client and the start time. *)
Lemma deliver_before_effect att upto s w :
  exists new,
    requests (snd (deliver_before att upto (s, w))) = requests w ++ new /\
    client (fst (deliver_before att upto (s, w))) = client s /\
    client_id (fst (deliver_before att upto (s, w))) = client_id s.
Proof.
  unfold deliver_before.
  destruct (connack att) as [[delay rc]|]; [|exists []; rewrite app_nil_r; auto].
  destruct (delay <? upto); [|exists []; rewrite app_nil_r; auto].
  destruct (on_connect_effect (t0 att + delay) rc s w)
    as (r & Hw & _ & _ & Hc & _ & Hid & _).
  exists [r]. rewrite Hw. auto.
Qed.

Lemma except_effect att at_ms e s w :
  connect_async_except att at_ms e (s, w)
  = (s, fire (failed_connect (client_id s)
                (t0 att + at_ms - default 0 (_connect_start s)) e) w).
Proof. reflexivity. Qed.

(** What one run of the coroutine leaves: only requests are added, a
    [True] value means the session is connected, a [False] value means
    the last request added is a failed connect. *)
Lemma connect_async_effect att s w :
  let run := _connect_async cfg att s w in
  exists new,
    requests (snd (final run)) = requests w ++ new /\
    client (fst (final run)) = Some (client_id s) /\
    (value run = true -> _connected (fst (final run)) = true) /\
    (value run = false -> exists front r, new = front ++ [r] /\ failed r).
Proof.
  cbn zeta. unfold _connect_async.
  destruct (await_transport cfg att) as [t [u|e]].
  - destruct (deliver_before att _ _) as [s1 w1] eqn:D.
    destruct (deliver_before_effect att (t + wait_limit cfg)
                (started att s) w) as (new & Hn & Hc & Hid).
    rewrite D in Hn, Hc, Hid. cbn [fst snd] in Hn, Hc, Hid.
    destruct (_connect_event s1) as [[|]|].
    + destruct (_connected s1) eqn:C; projections.
      * exists new. repeat split; auto. discriminate.
      * rewrite except_effect. projections. rewrite requests_fire, Hn.
        exists (new ++ [failed_connect (client_id s1)
                  (t0 att + Z.max t (default 0 (fst <$> connack att))
                   - default 0 (_connect_start s1))
                  match _connect_error s1 with
                  | Some m => if text_truthy m then Exception m
                              else Exception (Lit "Connection failed")
                  | None => Exception (Lit "Connection failed")
                  end]).
        rewrite app_assoc. repeat split; auto; [discriminate|].
        intros _. eexists _, _. split; [reflexivity|].
        apply failed_connect_failed.
    + projections. rewrite except_effect. projections.
      rewrite requests_fire, Hn. eexists (new ++ [_]).
      rewrite app_assoc. repeat split; auto; [discriminate|].
      intros _. eexists _, _. split; [reflexivity|].
      apply failed_connect_failed.
    + projections. rewrite except_effect. projections.
      rewrite requests_fire, Hn. eexists (new ++ [_]).
      rewrite app_assoc. repeat split; auto; [discriminate|].
      intros _. eexists _, _. split; [reflexivity|].
      apply failed_connect_failed.
  - projections.
    destruct (deliver_before att t (started att s, w)) as [s1 w1] eqn:D.
    destruct (deliver_before_effect att t (started att s) w)
      as (new & Hn & Hc & Hid).
    rewrite D in Hn, Hc, Hid. cbn [fst snd] in Hn, Hc, Hid.
    rewrite except_effect. projections.
    rewrite requests_fire, Hn. eexists (new ++ [_]).
    rewrite app_assoc. repeat split; auto; [discriminate|].
    intros _. eexists _, _. split; [reflexivity|].
    apply failed_connect_failed.
Qed.

(** [connect] returns a boolean, never an exception; [True] only with
    the session connected, [False] only after firing a failed connect
    outcome.  The session it leaves has its client. *)
Lemma gmqtt_connect_total att s w :
  let out := connect cfg att s w in
  exists b new,
    returned out = Return b /\
    requests (world out) = requests w ++ new /\
    client (session out) = Some (client_id s) /\
    (b = true -> is_connected (session out) = true) /\
    (b = false -> exists front r, new = front ++ [r] /\ failed r).
Proof.
  cbn zeta. unfold connect.
  pose proof (waiting_started att s w) as Hw.
  destruct (connect_async_effect att s w) as (new & Hn & Hc & Ht & Hf).
  unfold run_async.
  destruct (finished _) as [t|].
  - destruct (t <=? _).
    + exists (value (_connect_async cfg att s w)), new. projections.
      repeat split; auto.
    + rewrite Hw. exists false. eexists. projections.
      rewrite requests_fire. repeat split; auto; [discriminate|].
      intros _. eexists [], _. split; [reflexivity|].
      apply failed_connect_failed.
  - rewrite Hw. exists false. eexists. projections.
    rewrite requests_fire. repeat split; auto; [discriminate|].
    intros _. eexists [], _. split; [reflexivity|].
    apply failed_connect_failed.
Qed.

(** Sessions stay well formed. *)
Lemma init_well_formed cid : well_formed (init cid).
Proof. intros H. discriminate. Qed.

Lemma connect_well_formed att s w : well_formed (session (connect cfg att s w)).
Proof.
  destruct (gmqtt_connect_total att s w) as (b & new & _ & _ & Hc & _).
  intros _. rewrite Hc. discriminate.
Qed.

(** Without an acknowledgment, and without an error raised by the
    client's own connect within the timeout, the one request fired is a
    failed connect of class [Timeout]. *)
Lemma gmqtt_no_ack att s w :
  connack att = None ->
  (forall d what, transport att = Broken d what -> wait_limit cfg <= d) ->
  let out := connect cfg att s w in
  returned out = Return false /\
  is_connected (session out) = _connected s /\
  exists r, requests (world out) = requests w ++ [r] /\ failed_as Timeout r.
Proof.
  intros Hack Htr. cbn zeta. unfold connect.
  rewrite waiting_started.
  unfold _connect_async, run_async, deliver_before, await_transport, started.
  rewrite Hack.
  destruct (transport att) as [d|d what|] eqn:T.
  - destruct (d <? _); projections.
    + destruct (_ <=? _); projections; rewrite ?except_effect; projections;
        (repeat split; [eexists; split; [apply requests_fire|];
                        apply failed_connect_as]).
    + destruct (_ <=? _); projections; rewrite ?except_effect; projections;
        (repeat split; [eexists; split; [apply requests_fire|];
                        apply failed_connect_as]).
  - specialize (Htr d what eq_refl).
    destruct (d <? _) eqn:E; [apply Z.ltb_lt in E; lia|]. projections.
    destruct (_ <=? _); projections; rewrite ?except_effect; projections;
      (repeat split; [eexists; split; [apply requests_fire|];
                      apply failed_connect_as]).
  - projections.
    destruct (_ <=? _); projections; rewrite ?except_effect; projections;
      (repeat split; [eexists; split; [apply requests_fire|];
                      apply failed_connect_as]).
Qed.

End Gmqtt.

(** *** paho driver *)
Section Paho.
Import ConnectionTest.
Variable cfg : Config.

Ltac projections :=
  cbn [fst snd returned elapsed session world
       _connected _connect_start _connect_error client_id
       set_connected set_connect_error].




(** The loop ends within the polls its timeout allows. *)
Lemma wait_enough fuel att start waited sw :
  (1 <= fuel)%nat ->
  ms (connect_timeout cfg) - waited <= 50 * (Z.of_nat fuel - 1) ->
  is_Some (wait_for_connection fuel cfg att start waited sw).
Proof.
  revert waited. induction fuel as [|fuel IH]; intros waited H1 H; [lia|].
  cbn [wait_for_connection].
  destruct (_ && _) eqn:C; [|eauto].
  apply andb_true_iff in C as [_ C]. apply Z.ltb_lt in C.
  apply IH; lia.
Qed.

Lemma enough_polls_enough extra att start sw :
  is_Some (wait_for_connection (enough_polls cfg + extra) cfg att start 0 sw).
Proof.
  apply wait_enough; unfold enough_polls; [lia|].
  destruct (Z.le_gt_cases 0 (ms (connect_timeout cfg))) as [Hp|Hn].
  - pose proof (Z.mul_div_le (ms (connect_timeout cfg)) 50 eq_refl).
    pose proof (Z.mod_pos_bound (ms (connect_timeout cfg)) 50 eq_refl).
    pose proof (Z.div_mod (ms (connect_timeout cfg)) 50).
    pose proof (Z.div_pos (ms (connect_timeout cfg)) 50 Hp eq_refl).
    lia.
  - lia.
Qed.

(** How long the loop waits: nothing, or less than one sleep beyond
    the timeout. *)
Lemma wait_bounds fuel att start sw : forall waited waited',
  wait_for_connection fuel cfg att start waited sw = Some waited' ->
  waited <= waited' /\
  (waited' = waited \/ waited' < ms (connect_timeout cfg) + 50).
Proof.
  induction fuel as [|fuel IH]; intros waited waited' H; [discriminate|].
  cbn [wait_for_connection] in H.
  destruct (_ && _) eqn:C.
  - apply andb_true_iff in C as [_ C]. apply Z.ltb_lt in C.
    apply IH in H. lia.
  - injection H as <-. lia.
Qed.

(** Why the loop ended. *)
Lemma wait_exit fuel att start sw : forall waited waited',
  wait_for_connection fuel cfg att start waited sw = Some waited' ->
  let s := fst (seen_at att (start + waited') sw) in
  _connected s = true \/ error_set s = true \/
  ms (connect_timeout cfg) <= waited'.
Proof.
  induction fuel as [|fuel IH]; intros waited waited' H; [discriminate|].
  cbn [wait_for_connection] in H.
  destruct (_ && _) eqn:C.
  - apply IH in H. exact H.
  - injection H as <-. cbn zeta.
    apply andb_false_iff in C as [C|C];
      [apply andb_false_iff in C as [C|C]|].
    + left. apply negb_false_iff, C.
    + right. left. apply negb_false_iff, C.
    + right. right. apply Z.ltb_ge, C.
Qed.


(** Without an acknowledgment, once the blocking [client.connect] has
    returned, a session that is not connected waits out the timeout,
    at most one sleep longer, and fires one failed connect of class
    [Timeout]. *)
Lemma paho_no_ack extra att s w d :
  connack att = None -> blocking att = Returns d -> _connected s = false ->
  exists out,
    connect (enough_polls cfg + extra) cfg att s w = Some out /\
    returned out = Return false /\
    (exists r, requests (world out) = requests w ++ [r] /\ failed_as Timeout r) /\
    d + ms (connect_timeout cfg) <= elapsed out /\
    elapsed out < d + Z.max 0 (ms (connect_timeout cfg)) + 50.
Proof.
  intros Hack Hb Hc. unfold connect. rewrite Hb.
  set (s0 := {| client_id := client_id s; _connected := _connected s;
                _connect_start := Some (t0 att); _connect_error := None |}).
  destruct (enough_polls_enough extra att d (s0, w)) as [waited Hw].
  rewrite Hw.
  pose proof (wait_bounds _ _ _ _ _ _ Hw) as [Hlo Hhi].
  pose proof (wait_exit _ _ _ _ _ _ Hw) as Hex. cbn zeta in Hex.
  unfold seen_at in *. rewrite Hack in *. cbn [fst] in Hex.
  unfold error_set in Hex. subst s0. projections. cbn [_connected _connect_error] in Hex.
  rewrite Hc in *.
  destruct Hex as [Hex|[Hex|Hex]]; [discriminate|discriminate|].
  eexists. split; [reflexivity|]. unfold connect_except. projections.
  split; [reflexivity|]. split.
  - eexists. split; [apply requests_fire|]. apply failed_connect_as.
  - lia.
Qed.

End Paho.

(** A delay below the configured timeout is below the limit of the wait. *)
Lemma within_limit cfg d :
  d < ms (Distributed.connect_timeout cfg) ->
  (d <? Distributed.wait_limit cfg) = true.
Proof. intros H. apply Z.ltb_lt. unfold Distributed.wait_limit. lia. Qed.

Lemma within_wait cfg d delay :
  delay < d + ms (Distributed.connect_timeout cfg) ->
  (delay <? d + Distributed.wait_limit cfg) = true.
Proof. intros H. apply Z.ltb_lt. unfold Distributed.wait_limit. lia. Qed.

(** *** Denied attempts in the gmqtt driver *)

Lemma classify_error_msg rc : spec_error_class (Exception (error_msg rc)) = ProtocolDenied.
Proof.
  unfold error_msg.
  destruct (rc_messages !! rc) as [m|] eqn:E; [|reflexivity].
  cbn [spec_error_class]. rewrite bool_decide_eq_true_2; [reflexivity|].
  apply list_elem_of_fmap. exists (rc, m). split; [reflexivity|].
  apply elem_of_map_to_list, E.
Qed.

(** A CONNACK with a non-zero code that reaches [_on_connect] while the
    coroutine waits, on a session not yet connected: the callback fires
    a failed connect carrying [rc], and the coroutine, woken up, raises
    the stored error into its own [except] clause, which fires a second
    failed connect without [rc]. *)
Lemma gmqtt_denial_fires_twice cfg att s w d delay rc :
  transport att = Established d ->
  d < ms (Distributed.connect_timeout cfg) ->
  connack att = Some (delay, rc) -> rc <> 0 ->
  delay < d + ms (Distributed.connect_timeout cfg) ->
  Z.max d delay <= ms (Distributed.connect_timeout cfg + 5) ->
  Distributed._connected s = false ->
  let out := Distributed.connect cfg att s w in
  Distributed.returned out = Return false /\
  exists r1 r2,
    requests (Distributed.world out) = requests w ++ [r1; r2] /\
    failed_as ProtocolDenied r1 /\ context r1 !! "rc" = Some (VInt rc) /\
    failed_as ProtocolDenied r2 /\ context r2 !! "rc" = None /\
    connection_stats (Distributed.world out)
      = on_request r2 (on_request r1 (connection_stats w)).
Proof.
  intros Ht Hd Hack Hrc Hdelay Hbudget Hcon. cbn zeta.
  unfold Distributed.connect, Distributed._connect_async,
    Distributed.await_transport, Distributed.deliver_before,
    Distributed.run_async, Distributed.started.
  rewrite Ht, Hack.
  rewrite (within_limit cfg d Hd), (within_wait cfg d delay Hdelay).
  unfold Distributed._on_connect.
  apply Z.eqb_neq in Hrc. rewrite Hrc.
  cbn [Distributed._connect_event Distributed.set_connect_error
       Distributed.set_connect_event Distributed._connected
       Distributed._connect_error Distributed.client_id
       Distributed._connect_start fmap option_fmap option_map fst default].
  rewrite Hcon, (error_msg_truthy rc).
  cbn [Distributed.finished Distributed.value Distributed.final].
  apply Z.leb_le in Hbudget. unfold id. rewrite Hbudget.
  cbn [Distributed.returned Distributed.world Distributed.connect_async_except
       snd fst Distributed.client_id Distributed._connect_start default].
  split; [reflexivity|].
  eexists _, _. rewrite !requests_fire, <- app_assoc.
  split; [reflexivity|].
  split; [|split; [|split; [|split]]].
  - repeat split. eexists. split; [reflexivity|]. apply classify_error_msg.
  - cbn [context]. rewrite lookup_insert_ne by discriminate.
    apply lookup_singleton_eq.
  - repeat split. eexists. split; [reflexivity|]. apply classify_error_msg.
  - cbn [context failed_connect]. apply lookup_singleton_ne. discriminate.
  - reflexivity.
Qed.

(** When the client reports the denial by raising from its own connect
    instead, the only request fired carries no [rc]. *)
Lemma gmqtt_denial_raised cfg att s w d what :
  transport att = Broken d what ->
  d < ms (Distributed.connect_timeout cfg) ->
  connack att = None ->
  let out := Distributed.connect cfg att s w in
  Distributed.returned out = Return false /\
  exists r,
    requests (Distributed.world out) = requests w ++ [r] /\
    failed_as TransportError r /\ context r !! "rc" = None.
Proof.
  intros Ht Hd Hack. cbn zeta.
  unfold Distributed.connect, Distributed._connect_async,
    Distributed.await_transport, Distributed.deliver_before,
    Distributed.run_async, Distributed.started.
  rewrite Ht, Hack. pose proof Hd as Hd'. rewrite (within_limit cfg d Hd).
  cbn [Distributed.finished Distributed.value Distributed.final].
  assert (Hb : (d <=? ms (Distributed.connect_timeout cfg + 5)) = true).
  { apply Z.leb_le. unfold ms in *. lia. }
  rewrite Hb.
  cbn [Distributed.returned Distributed.world Distributed.connect_async_except
       snd fst].
  split; [reflexivity|]. eexists. rewrite requests_fire.
  split; [reflexivity|]. split.
  - repeat split. eexists. split; reflexivity.
  - cbn [context failed_connect]. apply lookup_singleton_ne. discriminate.
Qed.

(** C2 (failing attempts): the transport is up after 20 ms and the CONNACK
    with rc = 5 reaches [_on_connect] after 45 ms.  [connect] returns
    False, but two failed connect outcomes have been fired, the first
    with rc = 5 in its context and the second without; the listener has
    counted two attempts and two failures, and one authentication
    failure.  Were the client to report the same denial by raising from
    its connect instead of calling back, one failed outcome would be fired,
    without rc, and no authentication failure counted. *)
Theorem C2_not_authorized_fires_two_failures :
  let out :=
    Distributed.connect Distributed.default_config
      {| t0 := 1000; transport := Established 20; connack := Some (45, 5) |}
      (Distributed.init "user1") world0 in
  let raised :=
    Distributed.connect Distributed.default_config
      {| t0 := 1000; transport := Broken 45 "MQTTConnectError(5)";
         connack := None |}
      (Distributed.init "user1") world0 in
  (Distributed.returned out = Return false /\
   (exists r1 r2,
      requests (Distributed.world out) = [r1; r2] /\
      failed_as ProtocolDenied r1 /\ context r1 !! "rc" = Some (VInt 5) /\
      exception r1 = Some (Exception (Lit "Not authorized")) /\
      failed_as ProtocolDenied r2 /\ context r2 !! "rc" = None /\
      exception r2 = Some (Exception (Lit "Not authorized"))) /\
   connection_stats (Distributed.world out) !! "total_attempts" = Some 2 /\
   connection_stats (Distributed.world out) !! "failed" = Some 2 /\
   connection_stats (Distributed.world out) !! "auth_failures" = Some 1 /\
   connection_stats (Distributed.world out) !! "successful" = Some 0) /\
  (Distributed.returned raised = Return false /\
   (exists r, requests (Distributed.world raised) = [r] /\
              failed r /\ context r !! "rc" = None) /\
   connection_stats (Distributed.world raised) !! "total_attempts" = Some 1 /\
   connection_stats (Distributed.world raised) !! "failed" = Some 1 /\
   connection_stats (Distributed.world raised) !! "auth_failures" = Some 0).
Proof.
  cbn zeta. split.
  - split; [vm_compute; reflexivity|].
    split; [|vm_compute; repeat split; reflexivity].
    eexists _, _. split; [vm_compute; reflexivity|].
    repeat split; try (vm_compute; reflexivity).
    + eexists. split; vm_compute; reflexivity.
    + eexists. split; vm_compute; reflexivity.
  - split; [vm_compute; reflexivity|].
    split; [|vm_compute; repeat split; reflexivity].
    eexists. split; [vm_compute; reflexivity|].
    split; [|vm_compute; reflexivity].
    repeat split. vm_compute. discriminate.
Qed.

(** C4 (as stated, refuted): five calls of [connect] during which no
    acknowledgment arrives.
    - gmqtt, the client's connect is refused after 3 ms: the failure
      fired is the client's error, of class [TransportError], not a
      timeout; the same in the paho driver.
    - gmqtt, configured with a timeout of -10 s: [connect] returns at once,
      which is later than timeout + 5 s.
    - paho, the blocking [client.connect] takes 60 s: [connect] returns
      after 90 s, with the default timeout of 30 s.
    - paho, on a session that is already connected: [connect] returns True
      and fires nothing. *)
Lemma C4_counterexample :
  let refused := {| t0 := 1000;
                    transport := Broken 3 "ConnectionRefusedError";
                    connack := None |} in
  let out1 := Distributed.connect Distributed.default_config refused
                (Distributed.init "user1") world0 in
  let prefused := {| ConnectionTest.t0 := 1000;
                     ConnectionTest.blocking :=
                       ConnectionTest.Raises 3 "ConnectionRefusedError";
                     ConnectionTest.connack := None |} in
  let negative :=
    {| Distributed.mqtt_broker := ""; Distributed.mqtt_port := 443;
       Distributed.use_tls := true; Distributed.user_prefix := "user";
       Distributed.user_pool_size := 1500000; Distributed.worker_index := 0;
       Distributed.worker_count := 1; Distributed.users_per_worker := 10000;
       Distributed.connect_timeout := -10; Distributed.keepalive := 60 |} in
  let silent := {| t0 := 1000; transport := Established 20; connack := None |} in
  let out2 := Distributed.connect negative silent
                (Distributed.init "user1") world0 in
  let slow := {| ConnectionTest.t0 := 1000;
                 ConnectionTest.blocking := ConnectionTest.Returns 60000;
                 ConnectionTest.connack := None |} in
  let psilent := {| ConnectionTest.t0 := 1000;
                    ConnectionTest.blocking := ConnectionTest.Returns 20;
                    ConnectionTest.connack := None |} in
  let fuel := ConnectionTest.enough_polls ConnectionTest.default_config in
  (* the client's connect is refused *)
  (connack refused = None /\
   Distributed.returned out1 = Return false /\
   exists r, requests (Distributed.world out1) = [r] /\
             failed_as TransportError r /\ ~ failed_as Timeout r) /\
  (exists out r,
     ConnectionTest.connect fuel ConnectionTest.default_config prefused
       (ConnectionTest.init "user1") world0 = Some out /\
     ConnectionTest.returned out = Return false /\
     requests (ConnectionTest.world out) = [r] /\
     failed_as TransportError r /\ ~ failed_as Timeout r) /\
  (* a timeout below zero *)
  (Distributed.returned out2 = Return false /\
   Distributed.elapsed out2 = 0 /\
   ~ Distributed.elapsed out2 <= ms (Distributed.connect_timeout negative + 5)) /\
  (* the blocking connect is slow *)
  (exists out,
     ConnectionTest.connect fuel ConnectionTest.default_config slow
       (ConnectionTest.init "user1") world0 = Some out /\
     ConnectionTest.returned out = Return false /\
     ConnectionTest.elapsed out = 90000 /\
     ~ ConnectionTest.elapsed out
       <= ms (ConnectionTest.connect_timeout ConnectionTest.default_config + 5)) /\
  (* the session is connected already *)
  (exists out,
     ConnectionTest.connect fuel ConnectionTest.default_config psilent
       (ConnectionTest.set_connected true (ConnectionTest.init "user1")) world0
     = Some out /\
     ConnectionTest.returned out = Return true /\
     requests (ConnectionTest.world out) = []).
Proof.
  cbn zeta.
  split; [|split; [|split; [|split]]].
  - split; [reflexivity|]. split; [vm_compute; reflexivity|].
    eexists. split; [vm_compute; reflexivity|]. split.
    + repeat split. eexists. split; vm_compute; reflexivity.
    + intros (_ & _ & e & He & Hc). vm_compute in He.
      injection He as <-. vm_compute in Hc. discriminate.
  - eexists _, _. split; [vm_compute; reflexivity|].
    split; [reflexivity|]. split; [reflexivity|]. split.
    + repeat split. eexists. split; vm_compute; reflexivity.
    + intros (_ & _ & e & He & Hc). vm_compute in He.
      injection He as <-. vm_compute in Hc. discriminate.
  - split; [vm_compute; reflexivity|]. split; [vm_compute; reflexivity|].
    vm_compute. intros H. apply H. reflexivity.
  - eexists. split; [vm_compute; reflexivity|].
    split; [reflexivity|]. split; [reflexivity|].
    vm_compute. intros H. apply H. reflexivity.
  - eexists. split; [vm_compute; reflexivity|].
    split; reflexivity.
Qed.

(** C4 (amended): when no acknowledgment arrives and the client's own
    connect does not raise, [connect] returns False after firing exactly
    one failed connect outcome, of class [Timeout].  In the gmqtt driver,
    configured with a timeout that is not negative, the caller is blocked
    for at most connect_timeout + 5 seconds.  In the paho driver, on a
    session that is not connected, the polling loop ends less than 50 ms
    after the timeout, counted from the return of the blocking
    [client.connect]. *)
Theorem C4_no_ack_is_a_bounded_timeout
    (gcfg : Distributed.Config) (gatt : Attempt)
    (gs : Distributed.GMQTTConnectionClient) (w : World)
    (pcfg : ConnectionTest.Config) (patt : ConnectionTest.Attempt)
    (ps : ConnectionTest.MQTTConnectionClient) (d : Z) (extra : nat) :
  0 <= Distributed.connect_timeout gcfg ->
  connack gatt = None ->
  (forall d' what, transport gatt = Broken d' what ->
                   ms (Distributed.connect_timeout gcfg) <= d') ->
  ConnectionTest.connack patt = None ->
  ConnectionTest.blocking patt = ConnectionTest.Returns d ->
  ConnectionTest._connected ps = false ->
  (let out := Distributed.connect gcfg gatt gs w in
   Distributed.returned out = Return false /\
   (exists r, requests (Distributed.world out) = requests w ++ [r] /\
              failed_as Timeout r) /\
   Distributed.elapsed out <= ms (Distributed.connect_timeout gcfg + 5)) /\
  (exists out,
     ConnectionTest.connect (ConnectionTest.enough_polls pcfg + extra)
       pcfg patt ps w = Some out /\
     ConnectionTest.returned out = Return false /\
     (exists r, requests (ConnectionTest.world out) = requests w ++ [r] /\
                failed_as Timeout r) /\
     ConnectionTest.elapsed out
       < d + Z.max 0 (ms (ConnectionTest.connect_timeout pcfg)) + 50).
Proof.
  intros Hpos Hg Ht Hp Hb Hc. split.
  - cbn zeta.
    assert (Ht' : forall d' what, transport gatt = Broken d' what ->
                                  Distributed.wait_limit gcfg <= d').
    { intros d' what H. specialize (Ht d' what H).
      unfold Distributed.wait_limit, ms in *. lia. }
    destruct (gmqtt_no_ack gcfg gatt gs w Hg Ht') as (Hr & _ & He).
    pose proof (connect_elapsed gcfg gatt gs w) as Hel.
    repeat split; [exact Hr | exact He |]. unfold ms in *. lia.
  - destruct (paho_no_ack pcfg extra patt ps w d Hp Hb Hc)
      as (out & Ho & Hr & He & _ & Hhi).
    exists out. repeat split; assumption.
Qed.

Lemma C4_witness :
  let gatt := {| t0 := 1000; transport := Established 6000; connack := None |} in
  let patt := {| ConnectionTest.t0 := 1000;
                 ConnectionTest.blocking := ConnectionTest.Returns 20;
                 ConnectionTest.connack := None |} in
  (let out := Distributed.connect Distributed.default_config gatt
                (Distributed.init "user1") world0 in
   Distributed.returned out = Return false /\
   (exists r, requests (Distributed.world out) = requests world0 ++ [r] /\
              failed_as Timeout r) /\
   Distributed.elapsed out <= 35000) /\
  (exists out,
     ConnectionTest.connect (ConnectionTest.enough_polls
                               ConnectionTest.default_config + 0)
       ConnectionTest.default_config patt (ConnectionTest.init "user1") world0
     = Some out /\
     ConnectionTest.returned out = Return false /\
     (exists r, requests (ConnectionTest.world out) = requests world0 ++ [r] /\
                failed_as Timeout r) /\
     ConnectionTest.elapsed out < 20 + 30000 + 50).
Proof.
  cbn zeta.
  apply (C4_no_ack_is_a_bounded_timeout Distributed.default_config
           {| t0 := 1000; transport := Established 6000; connack := None |}
           (Distributed.init "user1") world0 ConnectionTest.default_config
           {| ConnectionTest.t0 := 1000;
              ConnectionTest.blocking := ConnectionTest.Returns 20;
              ConnectionTest.connack := None |}
           (ConnectionTest.init "user1") 20 0).
  - discriminate.
  - reflexivity.
  - intros d' what H. discriminate H.
  - reflexivity.
  - reflexivity.
  - reflexivity.
Defined.


End ConnectFacts.



(* ===================================================================== *)
(** ** More properties of the allocator                                   *)
(* ===================================================================== *)

Module AllocatorMore.
Import Allocator AllocatorFacts.

Lemma state_after_add n p a :
  state_after (n + p) a = state_after p (state_after n a).
Proof.
  revert a. induction n as [|n IH]; intros a; [reflexivity|].
  cbn [Nat.add state_after]. apply IH.
Qed.

(** The counter never runs ahead of the calls, and keeps up with them
    exactly as long as no call wraps. *)
Lemma counter_tracks_calls n : forall a,
  0 <= _counter a ->
  0 <= _counter (state_after n a) <= _counter a + Z.of_nat n /\
  (_counter (state_after n a) = _counter a + Z.of_nat n <-> no_wrap n a).
Proof.
  induction n as [|n IH]; intros a Ha.
  - cbn. repeat split; auto; lia.
  - cbn [state_after no_wrap].
    pose proof (IH (after (get_next_user_id a))) as H.
    revert H. unfold get_next_user_id. cbn zeta.
    destruct (user_pool_size a <? _); cbn [after logged _counter set_counter];
      intros H.
    + destruct H as (Hle & Hiff); [lia|]. split; [lia|].
      split; [lia | intros [H _]; discriminate H].
    + destruct H as (Hle & Hiff); [lia|]. split; [lia|].
      rewrite <- Hiff. split; [intros; split; [reflexivity | lia] | intros [_ ?]; lia].
Qed.

(** X1: [get_user_count] after [n] calls is between 0 and [n], and it is
    [n] exactly when none of the calls wrapped around: a wraparound makes
    the count logged at test stop fall behind the users created. *)
Theorem X1_user_count_tracks_calls (w count pool : Z) (n : nat) :
  0 <= get_user_count (state_after n (init w count pool)) <= Z.of_nat n /\
  (get_user_count (state_after n (init w count pool)) = Z.of_nat n
   <-> no_wrap n (init w count pool)).
Proof.
  unfold get_user_count.
  destruct (counter_tracks_calls n (init w count pool) (Z.le_refl 0)) as [H1 H2].
  cbn [init _counter] in H1, H2. rewrite Z.add_0_l in H1, H2. split; assumption.
Qed.

(** Calls that keep the identity under the pool size do not wrap. *)
Lemma no_wrap_intro n : forall a,
  (forall k, 0 <= k < Z.of_nat n ->
             _base_id a + (_counter a + k) * worker_count a <= user_pool_size a) ->
  no_wrap n a /\ state_after n a = set_counter a (_counter a + Z.of_nat n).
Proof.
  induction n as [|n IH]; intros a H.
  - split; [exact I|]. change (Z.of_nat 0) with 0. rewrite Z.add_0_r.
    destruct a; reflexivity.
  - cbn [no_wrap state_after].
    assert (H0 : _base_id a + _counter a * worker_count a <= user_pool_size a).
    { specialize (H 0). rewrite Z.add_0_r in H. apply H. lia. }
    unfold get_next_user_id. cbn zeta.
    destruct (user_pool_size a <? _) eqn:E; [apply Z.ltb_lt in E; lia|].
    cbn [logged after].
    destruct (IH (set_counter a (_counter a + 1))) as [Hn Hs].
    { intros k Hk. cbn [set_counter _base_id _counter worker_count user_pool_size].
      replace (_counter a + 1 + k) with (_counter a + (k + 1)) by lia.
      apply H. lia. }
    split; [split; [reflexivity | exact Hn]|].
    rewrite Hs. unfold set_counter.
    cbn [worker_index worker_count user_pool_size _counter _base_id].
    f_equal. lia.
Qed.

(** X2: with at least one worker, the map from (worker index, call number)
    to identity is injective on calls made before any wraparound: equal
    identities come from the same worker and the same call. *)
Theorem X2_identity_injective_before_wraparound
    (pool count w1 w2 : Z) (k1 k2 : nat) :
  1 <= count -> 0 <= w1 < count -> 0 <= w2 < count ->
  no_wrap (S k1) (init w1 count pool) ->
  no_wrap (S k2) (init w2 count pool) ->
  user_id (nth_call k1 (init w1 count pool))
    = user_id (nth_call k2 (init w2 count pool)) ->
  w1 = w2 /\ k1 = k2.
Proof.
  intros Hc H1 H2 N1 N2.
  destruct (nth_call_no_wrap _ _ _ _ N1) as [E1 _].
  destruct (nth_call_no_wrap _ _ _ _ N2) as [E2 _].
  rewrite E1, E2. intros E.
  assert (Hw : w1 = w2).
  { destruct (Z.eq_dec w1 w2) as [|Hne]; [assumption|].
    destruct (progression_disjoint count w1 w2 (Z.of_nat k1) (Z.of_nat k2)
                H1 H2 Hne E). }
  split; [exact Hw|]. subst w2. nia.
Qed.

Lemma X2_witness : 0 = 0 /\ 3%nat = 3%nat.
Proof.
  apply (X2_identity_injective_before_wraparound 100 2 0 0 3 3);
    first [ lia | reflexivity | vm_compute; repeat split; congruence ].
Defined.

(** X3: a worker whose base identity [worker_index + 1] is inside the
    pool only ever returns identities of the pool, [1 .. user_pool_size],
    wrapped around or not. *)
Theorem X3_identities_in_pool (w count pool : Z) (n : nat) :
  0 <= w < count -> w + 1 <= pool ->
  1 <= user_id (nth_call n (init w count pool)) <= pool.
Proof. apply ids_in_pool. Qed.

Lemma X3_witness : 1 <= user_id (nth_call 120 (init 1 2 100)) <= 100.
Proof. apply (X3_identities_in_pool 1 2 100 120); lia. Defined.

(** The number of identities of the pool that belong to worker [w]. *)
Lemma share_bounds w count pool :
  1 <= count -> w + 1 <= pool ->
  let m := (pool - (w + 1)) / count + 1 in
  1 <= m /\ (w + 1) + (m - 1) * count <= pool /\ pool < (w + 1) + m * count.
Proof.
  intros Hc Hb. cbn zeta.
  pose proof (Z.div_pos (pool - (w + 1)) count ltac:(lia) ltac:(lia)).
  pose proof (Z.mul_div_le (pool - (w + 1)) count ltac:(lia)).
  pose proof (Z.mul_succ_div_gt (pool - (w + 1)) count ltac:(lia)).
  nia.
Qed.

(** X4: the allocator cycles.  A worker with [m] identities in the pool
    (m = (pool - base) div count + 1) hands them out in [m] calls without
    wrapping, wraps on call [m + 1], and is then back in its initial state:
    every identity comes back every [m + 1] calls. *)
Theorem X4_allocator_period (w count pool : Z) (n : nat) :
  1 <= count -> w + 1 <= pool ->
  let m := Z.to_nat ((pool - (w + 1)) / count + 1) in
  no_wrap m (init w count pool) /\
  logged (nth_call m (init w count pool)) <> [] /\
  state_after (S m) (init w count pool) = init w count pool /\
  user_id (nth_call (S m + n) (init w count pool))
    = user_id (nth_call n (init w count pool)).
Proof.
  intros Hc Hb. cbn zeta.
  destruct (share_bounds w count pool Hc Hb) as (Hm & Hlast & Hnext).
  set (mz := (pool - (w + 1)) / count + 1) in *.
  destruct (no_wrap_intro (Z.to_nat mz) (init w count pool)) as [Hn Hs].
  { intros k Hk. cbn [init _base_id _counter worker_count user_pool_size]. nia. }
  assert (Hwrap : user_pool_size (state_after (Z.to_nat mz) (init w count pool))
                  < _base_id (state_after (Z.to_nat mz) (init w count pool))
                    + _counter (state_after (Z.to_nat mz) (init w count pool))
                      * worker_count (state_after (Z.to_nat mz) (init w count pool))).
  { rewrite Hs. cbn [init set_counter _base_id _counter worker_count user_pool_size].
    rewrite Z2Nat.id by lia. lia. }
  assert (Hback : state_after (S (Z.to_nat mz)) (init w count pool) = init w count pool).
  { rewrite state_after_S. unfold get_next_user_id. cbn zeta.
    apply Z.ltb_lt in Hwrap. rewrite Hwrap. cbn [after]. rewrite Hs. reflexivity. }
  split; [exact Hn|]. split; [|split; [exact Hback|]].
  - unfold nth_call. apply (wrap_returns_base _ Hwrap).
  - unfold nth_call. rewrite state_after_add, Hback. reflexivity.
Qed.

Lemma X4_witness :
  no_wrap 50 (init 0 2 100) /\
  logged (nth_call 50 (init 0 2 100)) <> [] /\
  state_after 51 (init 0 2 100) = init 0 2 100 /\
  user_id (nth_call (51 + 7) (init 0 2 100)) = user_id (nth_call 7 (init 0 2 100)).
Proof. apply (X4_allocator_period 0 2 100 7); lia. Defined.

(** X5: the workers' shares cover the pool.  Identity [i] of the pool is
    handed out, before any wraparound, by worker [(i - 1) mod count] in its
    call number [(i - 1) div count]. *)
Theorem X5_every_identity_allocated (count pool i : Z) :
  1 <= count -> 1 <= i <= pool ->
  let w := (i - 1) mod count in
  let k := Z.to_nat ((i - 1) / count) in
  0 <= w <= count - 1 /\
  no_wrap (S k) (init w count pool) /\
  user_id (nth_call k (init w count pool)) = i.
Proof.
  intros Hc Hi. cbn zeta.
  pose proof (Z.mod_pos_bound (i - 1) count ltac:(lia)) as Hmod.
  pose proof (Z.div_mod (i - 1) count ltac:(lia)) as Hdm.
  pose proof (Z.div_pos (i - 1) count ltac:(lia) ltac:(lia)) as Hdiv.
  set (w := (i - 1) mod count) in *. set (q := (i - 1) / count) in *.
  destruct (no_wrap_intro (S (Z.to_nat q)) (init w count pool)) as [Hn _].
  { intros k Hk. cbn [init _base_id _counter worker_count user_pool_size]. nia. }
  split; [lia|]. split; [exact Hn|].
  destruct (nth_call_no_wrap _ _ _ _ Hn) as [E _]. rewrite E.
  rewrite Z2Nat.id by lia. lia.
Qed.

Lemma X5_witness :
  0 <= (37 - 1) mod 4 <= 4 - 1 /\
  no_wrap (S (Z.to_nat ((37 - 1) / 4))) (init ((37 - 1) mod 4) 4 100) /\
  user_id (nth_call (Z.to_nat ((37 - 1) / 4)) (init ((37 - 1) mod 4) 4 100)) = 37.
Proof. apply (X5_every_identity_allocated 4 100 37); lia. Defined.

(** X6: users on different workers never get the same client identifier
    [f"{user_prefix}{user_num}"], whatever the prefix and however many
    users each worker has created. *)
Theorem X6_client_ids_differ_across_workers
    (user_prefix : string) (count pool w1 w2 : Z) (n1 n2 : nat) :
  0 <= w1 < count -> 0 <= w2 < count -> w1 <> w2 ->
  Users.client_id_of user_prefix (user_id (nth_call n1 (init w1 count pool)))
  <> Users.client_id_of user_prefix (user_id (nth_call n2 (init w2 count pool))).
Proof.
  intros H1 H2 Hne E. unfold Users.client_id_of in E.
  apply String.app_inj in E. apply (inj pretty) in E.
  exact (workers_never_collide count pool w1 w2 n1 n2 H1 H2 Hne E).
Qed.

Lemma X6_witness :
  Users.client_id_of "user" (user_id (nth_call 60 (init 0 2 100)))
  <> Users.client_id_of "user" (user_id (nth_call 3 (init 1 2 100))).
Proof. apply (X6_client_ids_differ_across_workers "user" 2 100 0 1 60 3); lia. Defined.

End AllocatorMore.

(* ===================================================================== *)
(** ** What the counters count                                            *)
(* ===================================================================== *)

Module TotalsFacts.
Import Py Totals.

Lemma count_cons p r rs :
  count p (r :: rs) = (if p r then 1 else 0) + count p rs.
Proof.
  unfold count. cbn [List.filter]. destruct (p r); cbn [length]; lia.
Qed.

Lemma count_nonneg p rs : 0 <= count p rs.
Proof. unfold count. lia. Qed.

Lemma count_le p q rs :
  (forall r, p r = true -> q r = true) -> count p rs <= count q rs.
Proof.
  intros H. induction rs as [|r rs IH]; [reflexivity|].
  rewrite !count_cons. specialize (H r).
  destruct (p r), (q r); try lia; discriminate (H eq_refl).
Qed.

Ltac lookups :=
  rewrite ?SubscriberFacts.lookup_incr;
  repeat (case_decide; try congruence).

Lemma on_request_cases r (st : gmap string Z) :
  Connections.on_request r st
  = if is_connect r then
      match exception r with
      | Some _ =>
          if negb (bool_decide (context r = ∅))
             && Connections.in_4_5 (context r !! "rc")
          then incr "auth_failures" (incr "failed" (incr "total_attempts" st))
          else incr "failed" (incr "total_attempts" st)
      | None => incr "successful" (incr "total_attempts" st)
      end
    else st.
Proof. reflexivity. Qed.

(** The connection listener, from any dictionary that has the four
    counters. *)
Lemma connection_fold rs : forall (st : gmap string Z) t s f a,
  st !! "total_attempts" = Some t -> st !! "successful" = Some s ->
  st !! "failed" = Some f -> st !! "auth_failures" = Some a ->
  let st' := foldl (fun stats r => Connections.on_request r stats) st rs in
  st' !! "total_attempts" = Some (t + count is_connect rs) /\
  st' !! "successful" = Some (s + count is_successful rs) /\
  st' !! "failed" = Some (f + count is_failure rs) /\
  st' !! "auth_failures" = Some (a + count is_auth_failure rs).
Proof.
  induction rs as [|r rs IH]; intros st t s f a Ht Hs Hf Ha; cbn zeta.
  - cbn [foldl]. unfold count. cbn. rewrite !Z.add_0_r. auto.
  - cbn [foldl]. rewrite !count_cons.
    unfold is_successful, is_failure, is_auth_failure, is_failure.
    rewrite on_request_cases.
    destruct (is_connect r) eqn:C; cbn [andb].
    + destruct (exception r) as [e|]; cbn [andb].
      * destruct (negb (bool_decide (context r = ∅))
                  && Connections.in_4_5 (context r !! "rc")) eqn:A.
        -- specialize (IH (incr "auth_failures" (incr "failed" (incr "total_attempts" st)))
                          (t + 1) s (f + 1) (a + 1)).
           cbn zeta in IH.
           destruct IH as (I1 & I2 & I3 & I4);
             [lookups; rewrite ?Ht, ?Hs, ?Hf, ?Ha; reflexivity ..|].
           unfold is_successful, is_failure, is_auth_failure, is_failure in *.
           rewrite I1, I2, I3, I4. repeat split; f_equal; lia.
        -- specialize (IH (incr "failed" (incr "total_attempts" st))
                          (t + 1) s (f + 1) a).
           cbn zeta in IH.
           destruct IH as (I1 & I2 & I3 & I4);
             [lookups; rewrite ?Ht, ?Hs, ?Hf, ?Ha; reflexivity ..|].
           unfold is_successful, is_failure, is_auth_failure, is_failure in *.
           rewrite I1, I2, I3, I4. repeat split; f_equal; lia.
      * specialize (IH (incr "successful" (incr "total_attempts" st))
                       (t + 1) (s + 1) f a).
        cbn zeta in IH.
        destruct IH as (I1 & I2 & I3 & I4);
          [lookups; rewrite ?Ht, ?Hs, ?Hf, ?Ha; reflexivity ..|].
        unfold is_successful, is_failure, is_auth_failure, is_failure in *.
           rewrite I1, I2, I3, I4. repeat split; f_equal; lia.
    + destruct (IH st t s f a Ht Hs Hf Ha) as (I1 & I2 & I3 & I4).
      unfold is_successful, is_failure, is_auth_failure, is_failure in *.
           rewrite I1, I2, I3, I4. repeat split; f_equal; lia.
Qed.

(** X7: after any run of requests, [connection_stats] holds exactly what
    its keys say: the number of connect requests, of those without and
    with an exception, and of the failed ones whose context carries rc 4 or
    5.  So total_attempts = successful + failed and
    0 <= auth_failures <= failed, always. *)
Theorem X7_connection_stats_count (rs : list Request) :
  connection_stats_after rs !! "total_attempts" = Some (count is_connect rs) /\
  connection_stats_after rs !! "successful" = Some (count is_successful rs) /\
  connection_stats_after rs !! "failed" = Some (count is_failure rs) /\
  connection_stats_after rs !! "auth_failures" = Some (count is_auth_failure rs) /\
  count is_connect rs = count is_successful rs + count is_failure rs /\
  0 <= count is_auth_failure rs <= count is_failure rs.
Proof.
  destruct (connection_fold rs Connections.connection_stats0 0 0 0 0)
    as (H1 & H2 & H3 & H4); try reflexivity.
  unfold connection_stats_after. rewrite H1, H2, H3, H4.
  repeat split; try (apply count_nonneg).
  - clear. induction rs as [|r rs IH]; [reflexivity|]. rewrite !count_cons.
    unfold is_successful, is_failure in *.
    destruct (is_connect r), (exception r); cbn [andb]; lia.
  - apply count_le. intros r. unfold is_auth_failure.
    intros H. apply andb_true_iff in H as [H _].
    apply andb_true_iff in H as [H _]. exact H.
Qed.

Lemma alert_request_cases r (st : gmap string Z) :
  Subscriber.on_request r st
  = if is_alert r then
      if truthy (default (VBool false) (context r !! "valid"))
      then incr "valid_alerts" (incr "total_received" st)
      else incr "invalid_alerts" (incr "total_received" st)
    else st.
Proof. reflexivity. Qed.

Lemma alert_fold rs : forall (st : gmap string Z) t v i,
  st !! "total_received" = Some t -> st !! "valid_alerts" = Some v ->
  st !! "invalid_alerts" = Some i ->
  let st' := foldl (fun stats r => Subscriber.on_request r stats) st rs in
  st' !! "total_received" = Some (t + count is_alert rs) /\
  st' !! "valid_alerts" = Some (v + count is_valid_alert rs) /\
  st' !! "invalid_alerts" = Some (i + count is_invalid_alert rs).
Proof.
  induction rs as [|r rs IH]; intros st t v i Ht Hv Hi; cbn zeta.
  - cbn [foldl]. unfold count. cbn. rewrite !Z.add_0_r. auto.
  - cbn [foldl]. rewrite !count_cons, alert_request_cases.
    unfold is_valid_alert, is_invalid_alert in *.
    destruct (is_alert r) eqn:C; cbn [andb].
    + destruct (truthy _) eqn:V; cbn [negb].
      * destruct (IH (incr "valid_alerts" (incr "total_received" st))
                     (t + 1) (v + 1) i) as (I1 & I2 & I3);
          [lookups; rewrite ?Ht, ?Hv, ?Hi; reflexivity ..|].
        rewrite I1, I2, I3. repeat split; f_equal; lia.
      * destruct (IH (incr "invalid_alerts" (incr "total_received" st))
                     (t + 1) v (i + 1)) as (I1 & I2 & I3);
          [lookups; rewrite ?Ht, ?Hv, ?Hi; reflexivity ..|].
        rewrite I1, I2, I3. repeat split; f_equal; lia.
    + destruct (IH st t v i Ht Hv Hi) as (I1 & I2 & I3).
      rewrite I1, I2, I3. repeat split; f_equal; lia.
Qed.

(** X8: after any run of requests, [alert_stats] holds the number of
    alert requests, of those marked valid and of those not marked valid;
    so total_received = valid_alerts + invalid_alerts, always.  A request
    without a "valid" entry counts as invalid. *)
Theorem X8_alert_stats_count (rs : list Request) :
  alert_stats_after rs !! "total_received" = Some (count is_alert rs) /\
  alert_stats_after rs !! "valid_alerts" = Some (count is_valid_alert rs) /\
  alert_stats_after rs !! "invalid_alerts" = Some (count is_invalid_alert rs) /\
  count is_alert rs = count is_valid_alert rs + count is_invalid_alert rs.
Proof.
  destruct (alert_fold rs Subscriber.alert_stats0 0 0 0)
    as (H1 & H2 & H3); try reflexivity.
  unfold alert_stats_after. rewrite H1, H2, H3.
  repeat split.
  clear. induction rs as [|r rs IH]; [reflexivity|]. rewrite !count_cons.
  unfold is_valid_alert, is_invalid_alert in *.
  destruct (is_alert r), (truthy _); cbn [andb negb]; lia.
Qed.

(** One message: the session, the request fired and the counters. *)
Lemma one_message now msg s w :
  let s' := (Subscriber._on_message now msg s w).1 in
  let w' := (Subscriber._on_message now msg s w).2 in
  Subscriber.messages_received s' = Subscriber.messages_received s + 1 /\
  Subscriber.last_message_time s' = Some now /\
  Subscriber._connected s' = Subscriber._connected s /\
  (exists r, Subscriber.requests w' = Subscriber.requests w ++ [r]) /\
  Subscriber.alert_stats w'
  = if Subscriber.is_valid msg
    then incr "valid_alerts" (incr "total_received" (Subscriber.alert_stats w))
    else incr "invalid_alerts" (incr "total_received" (Subscriber.alert_stats w)).
Proof.
  cbn zeta. unfold Subscriber._on_message. cbn zeta.
  set (r := {| request_type := "MQTT"; name := "alert_received";
               response_time := 0;
               response_length := Z.of_nat (length (Subscriber.payload msg));
               exception := _; context := _ |}).
  assert (Hctx : context r !! "valid" = Some (VBool (Subscriber.is_valid msg))).
  { unfold r. cbn [context]. rewrite lookup_insert_ne by discriminate.
    apply lookup_singleton_eq. }
  pose proof (SubscriberFacts.on_request_alert r (Subscriber.alert_stats w)
                (Subscriber.is_valid msg) eq_refl eq_refl Hctx) as Hs.
  destruct (Subscriber.is_valid msg); cbn [fst snd];
    (split; [reflexivity|]; split; [reflexivity|]; split; [reflexivity|];
     split; [eexists; reflexivity | exact Hs]).
Qed.

Lemma receive_all_snoc msgs m s w :
  receive_all (msgs ++ [m]) s w
  = Subscriber._on_message (fst m) (snd m)
      (receive_all msgs s w).1 (receive_all msgs s w).2.
Proof. unfold receive_all. rewrite foldl_snoc. reflexivity. Qed.

Lemma valid_messages_snoc msgs m :
  valid_messages (msgs ++ [m])
  = valid_messages msgs + (if Subscriber.is_valid (snd m) then 1 else 0).
Proof.
  unfold valid_messages. rewrite List.filter_app, length_app.
  cbn [List.filter]. destruct (Subscriber.is_valid (snd m)); cbn [length]; lia.
Qed.

(** X9: a session that receives a list of messages has counted every one
    of them, holds the reading of the last receipt, has fired one request
    per message, and the listener has added the number of messages to
    total_received, the number of exact "ALERT" payloads to valid_alerts
    and the rest to invalid_alerts.  Receiving never changes whether the
    session is connected. *)
Theorem X9_messages_add_up
    (msgs : list (Z * Subscriber.MQTTMessage))
    (s : Subscriber.MQTTSubscriberClient) (w : Subscriber.World) :
  let s' := (receive_all msgs s w).1 in
  let w' := (receive_all msgs s w).2 in
  let n := Z.of_nat (length msgs) in
  Subscriber.messages_received s' = Subscriber.messages_received s + n /\
  Subscriber.last_message_time s'
    = match last msgs with
      | Some m => Some (fst m)
      | None => Subscriber.last_message_time s
      end /\
  Subscriber.is_connected s' = Subscriber.is_connected s /\
  length (Subscriber.requests w') = (length (Subscriber.requests w) + length msgs)%nat /\
  Subscriber.alert_stats w' !! "total_received"
    = (fun v => v + n) <$> Subscriber.alert_stats w !! "total_received" /\
  Subscriber.alert_stats w' !! "valid_alerts"
    = (fun v => v + valid_messages msgs) <$> Subscriber.alert_stats w !! "valid_alerts" /\
  Subscriber.alert_stats w' !! "invalid_alerts"
    = (fun v => v + (n - valid_messages msgs))
        <$> Subscriber.alert_stats w !! "invalid_alerts".
Proof.
  cbn zeta. induction msgs as [|m msgs IH] using rev_ind.
  - unfold receive_all, valid_messages. cbn.
    repeat split; try lia;
      destruct (Subscriber.alert_stats w !! _); cbn; f_equal; lia.
  - rewrite receive_all_snoc, valid_messages_snoc, last_snoc, length_app.
    destruct IH as (I1 & I2 & I3 & I4 & I5 & I6 & I7).
    destruct (one_message (fst m) (snd m) (receive_all msgs s w).1
                (receive_all msgs s w).2) as (O1 & O2 & O3 & [r O4] & O5).
    unfold Subscriber.is_connected in *.
    rewrite O1, O2, O3, O4, O5, I1, I3, length_app, I4. cbn [length].
    split; [lia|]. split; [reflexivity|]. split; [reflexivity|]. split; [lia|].
    destruct (Subscriber.alert_stats w !! "total_received") as [a|],
             (Subscriber.alert_stats w !! "valid_alerts") as [b|],
             (Subscriber.alert_stats w !! "invalid_alerts") as [c|];
      destruct (Subscriber.is_valid (snd m)); lookups; rewrite ?I5, ?I6, ?I7;
      cbn [fmap option_fmap option_map];
      repeat split; f_equal; lia.
Qed.

End TotalsFacts.

(* ===================================================================== *)
(** ** Properties of user creation                                        *)
(* ===================================================================== *)

Module UsersFacts.
Import Users.

Lemma prefix_append p s : String.prefix p (p +:+ s) = true.
Proof.
  induction p as [|c p IH]; [destruct s; reflexivity|].
  change (String c p +:+ s) with (String c (p +:+ s)). cbn [String.prefix].
  destruct (Ascii.ascii_dec c c) as [_|N]; [exact IH | destruct (N eq_refl)].
Qed.

Lemma drop_chars_append p s : drop_chars (String.length p) (p +:+ s) = s.
Proof. induction p as [|c p IH]; [reflexivity | exact IH]. Qed.

(** Splitting finds the first colon. *)
Lemma split_colon_first b rest :
  split_colon b = None ->
  split_colon (b +:+ String colon rest) = Some (b, rest).
Proof.
  induction b as [|c b IH]; intros H.
  - reflexivity.
  - change (String c b +:+ String colon rest)
      with (String c (b +:+ String colon rest)).
    cbn [split_colon] in *.
    destruct (Ascii.eqb c colon); [discriminate|].
    destruct (split_colon b) as [[x y]|]; [discriminate|].
    rewrite IH by reflexivity. reflexivity.
Qed.

Lemma split_colon_none_append b s :
  split_colon b = None -> split_colon s = None -> split_colon (b +:+ s) = None.
Proof.
  induction b as [|c b IH]; intros Hb Hs; [exact Hs|].
  change (String c b +:+ s) with (String c (b +:+ s)).
  cbn [split_colon] in *.
  destruct (Ascii.eqb c colon); [discriminate|].
  destruct (split_colon b) as [[x y]|]; [discriminate|].
  rewrite IH by auto. reflexivity.
Qed.

(** What a split returns puts the host back together, and the first part
    has no colon. *)
Lemma split_colon_sound s b rest :
  split_colon s = Some (b, rest) ->
  s = b +:+ String colon rest /\ split_colon b = None.
Proof.
  revert b. induction s as [|c s IH]; intros b H; [discriminate|].
  cbn [split_colon] in H.
  destruct (Ascii.eqb c colon) eqn:E.
  - injection H as <- <-. apply Ascii.eqb_eq in E. subst c. split; reflexivity.
  - destruct (split_colon s) as [[x y]|]; [|discriminate].
    injection H as <- <-. destruct (IH x eq_refl) as [-> Hx].
    split; [reflexivity|]. cbn [split_colon]. rewrite E, Hx. reflexivity.
Qed.

Lemma scheme_nonempty scheme s : scheme <> "" -> String.eqb (scheme +:+ s) "" = false.
Proof. destruct scheme; [congruence | reflexivity]. Qed.

(** X10: what a user connects to.  A configured MQTT_BROKER wins over the
    host, scheme included.  Otherwise a host "mqtts://b:p" or "mqtt://b:p",
    with no colon in [b], gives broker [b], port [int(p)] and TLS on for
    mqtts, off for mqtt, whatever USE_TLS says; without ":p" the configured
    port is kept; and when [int(p)] raises, so does the constructor. *)
Theorem X10_target_of_host
    (int : string -> option Z) (mqtt_broker : string) (mqtt_port : Z)
    (cfg_use_tls : bool) (host : option string) (b p : string) :
  mqtt_broker <> "" -> split_colon b = None ->
  parse_target int mqtt_broker mqtt_port cfg_use_tls host
    = Some {| broker := mqtt_broker; port := mqtt_port; use_tls := cfg_use_tls |} /\
  parse_target int "" mqtt_port cfg_use_tls (Some ("mqtts://" +:+ b +:+ String colon p))
    = (fun n => {| broker := b; port := n; use_tls := true |}) <$> int p /\
  parse_target int "" mqtt_port cfg_use_tls (Some ("mqtt://" +:+ b +:+ String colon p))
    = (fun n => {| broker := b; port := n; use_tls := false |}) <$> int p /\
  parse_target int "" mqtt_port cfg_use_tls (Some ("mqtts://" +:+ b))
    = Some {| broker := b; port := mqtt_port; use_tls := true |} /\
  parse_target int "" mqtt_port cfg_use_tls (Some ("mqtt://" +:+ b))
    = Some {| broker := b; port := mqtt_port; use_tls := false |}.
Proof.
  intros Hb Hc.
  assert (Hne : String.eqb mqtt_broker "" = false).
  { apply String.eqb_neq. exact Hb. }
  split.
  { unfold parse_target. rewrite Hne. destruct host; reflexivity. }
  assert (S1 : forall s, String.prefix "mqtts://" ("mqtts://" +:+ s) = true)
    by (intros; apply (prefix_append "mqtts://")).
  assert (S2 : forall s, String.prefix "mqtt://" ("mqtt://" +:+ s) = true)
    by (intros; apply (prefix_append "mqtt://")).
  assert (S3 : forall s, String.prefix "mqtts://" ("mqtt://" +:+ s) = false).
  { intros s. cbn. reflexivity. }
  assert (D1 : forall s, drop_chars 8 ("mqtts://" +:+ s) = s)
    by (intros; apply (drop_chars_append "mqtts://")).
  assert (D2 : forall s, drop_chars 7 ("mqtt://" +:+ s) = s)
    by (intros; apply (drop_chars_append "mqtt://")).
  unfold parse_target.
  rewrite !S1, !S3, !S2, !D1, !D2, !split_colon_first, !Hc by exact Hc.
  cbn [String.eqb andb negb].
  rewrite !scheme_nonempty by discriminate. cbn [negb].
  repeat split; destruct (int p); reflexivity.
Qed.

Lemma X10_witness :
  parse_target int_of_ascii "broker.example" 443 false (Some "mqtts://other:8883")
    = Some {| broker := "broker.example"; port := 443; use_tls := false |} /\
  parse_target int_of_ascii "" 443 false (Some "mqtts://10.0.0.7:8883")
    = Some {| broker := "10.0.0.7"; port := 8883; use_tls := true |} /\
  parse_target int_of_ascii "" 443 true (Some "mqtt://10.0.0.7:1883")
    = Some {| broker := "10.0.0.7"; port := 1883; use_tls := false |}.
Proof.
  destruct (X10_target_of_host int_of_ascii "broker.example" 443 false
              (Some "mqtts://other:8883") "10.0.0.7" "8883")
    as (H1 & H2 & _); [discriminate | reflexivity |].
  destruct (X10_target_of_host int_of_ascii "broker.example" 443 true
              None "10.0.0.7" "1883")
    as (_ & _ & H3 & _); [discriminate | reflexivity |].
  split; [exact H1|]. split; [exact H2 | exact H3].
Defined.

Lemma spawn_from n : forall user_start c,
  spawn user_start n c = (seqZ (user_start + c) (Z.of_nat n), c + Z.of_nat n).
Proof.
  induction n as [|n IH]; intros user_start c.
  - cbn [spawn]. rewrite seqZ_nil by lia. f_equal. cbn. lia.
  - cbn [spawn ConnectionTest.get_next_user_id]. rewrite IH.
    rewrite (seqZ_cons (user_start + c)) by lia.
    replace (Z.pred (Z.of_nat (S n))) with (Z.of_nat n) by lia.
    replace (Z.succ (user_start + c)) with (user_start + (c + 1)) by lia.
    f_equal; [|lia]. f_equal. lia.
Qed.

(** X11: the users of the connection test get consecutive numbers.  The
    [n] users created after the counter was reset get
    [user_start, user_start + 1, ..., user_start + n - 1], whatever
    USER_MAX is, and their client identifiers are pairwise different. *)
Theorem X11_spawned_users_consecutive (user_prefix : string) (user_start : Z) (n : nat) :
  (spawn user_start n 0).1 = seqZ user_start (Z.of_nat n) /\
  (spawn user_start n 0).2 = Z.of_nat n /\
  NoDup (map (client_id_of user_prefix) (spawn user_start n 0).1).
Proof.
  rewrite spawn_from. cbn [fst snd]. rewrite Z.add_0_r, Z.add_0_l.
  split; [reflexivity|]. split; [reflexivity|].
  apply NoDup_fmap_2; [|apply NoDup_seqZ].
  intros x y E. unfold client_id_of in E.
  apply String.app_inj in E. apply (inj pretty) in E. exact E.
Qed.

End UsersFacts.

(* ===================================================================== *)
(** ** More on the two connection drivers                                 *)
(* ===================================================================== *)

Module ConnectMore.
Import Py Connections Totals ConnectFacts.

Ltac named :=
  split; [reflexivity|]; split; [reflexivity|];
  first [ apply lookup_singleton_eq | apply lookup_insert_eq ].

Section Gmqtt.
Import Distributed.
Variable cfg : Config.

Ltac projections :=
  cbn [fst snd returned elapsed session world finished value final waiting
       _connected _connect_start _connect_error _connect_event client client_id
       set_connected set_connect_error set_connect_event started
       requests client_calls connection_stats fire connect_async_except
       failed_connect fmap option_fmap option_map default id].

Ltac crunch :=
  repeat first
    [ progress projections
    | match goal with
      | |- context [if ?c then _ else _] => destruct c eqn:?
      end ].

(** What one call of [connect] adds to the world. *)
Lemma connect_reports att s w :
  exists new,
    requests (world (connect cfg att s w)) = requests w ++ new /\
    Forall (names_client (client_id s)) new /\
    (1 <= length new <= 2)%nat /\
    connection_stats (world (connect cfg att s w))
      = foldl (fun stats r => on_request r stats) (connection_stats w) new /\
    client_calls (world (connect cfg att s w)) = client_calls w /\
    client_id (session (connect cfg att s w)) = client_id s.
Proof.
  unfold connect. rewrite waiting_started.
  unfold _connect_async, run_async, await_transport, deliver_before, _on_connect.
  destruct (transport att) as [d|d what|];
    destruct (connack att) as [[delay rc]|];
  crunch;
    (eexists; split;
       [first [reflexivity | exact (eq_sym (app_assoc _ [_] [_]))]|];
     split; [repeat (apply List.Forall_cons; [named|]); apply List.Forall_nil|];
     split; [rewrite ?length_app; cbn [length Nat.add]; lia|];
     split; [reflexivity|];
     split; reflexivity).
Qed.

(** X12: what the world holds when [GMQTTConnectionClient.connect]
    returns, whatever the protocol layer did until then.  One or two
    requests have been fired since the call began; each is a connect request
    that carries the session's client identifier, and the listener has
    counted each of them.  No call of [client.disconnect()] has been made
    and [client_id] is as it was.  (A coroutine the bridge has given up on
    goes on after the return; what it fires then is not part of this
    world.) *)
Theorem X12_gmqtt_requests_when_connect_returns att s w :
  exists new,
    requests (world (connect cfg att s w)) = requests w ++ new /\
    Forall (names_client (client_id s)) new /\
    (1 <= length new <= 2)%nat /\
    connection_stats (world (connect cfg att s w))
      = foldl (fun stats r => on_request r stats) (connection_stats w) new /\
    client_calls (world (connect cfg att s w)) = client_calls w /\
    client_id (session (connect cfg att s w)) = client_id s.
Proof. exact (connect_reports att s w). Qed.


(** X14: a CONNACK with a non-zero code that reaches [_on_connect] while
    the coroutine waits is counted twice: [total_attempts] and [failed]
    both go up by 2 for the one attempt, [auth_failures] goes up by 1 when
    the code is 4 or 5 and not at all otherwise, [successful] is unchanged. *)
Theorem X14_gmqtt_denial_counted_twice att s w d delay rc t f a :
  transport att = Established d ->
  d < ms (connect_timeout cfg) ->
  connack att = Some (delay, rc) -> rc <> 0 ->
  delay < d + ms (connect_timeout cfg) ->
  Z.max d delay <= ms (connect_timeout cfg + 5) ->
  _connected s = false ->
  connection_stats w !! "total_attempts" = Some t ->
  connection_stats w !! "failed" = Some f ->
  connection_stats w !! "auth_failures" = Some a ->
  let stats := connection_stats (world (connect cfg att s w)) in
  stats !! "total_attempts" = Some (t + 2) /\
  stats !! "failed" = Some (f + 2) /\
  stats !! "auth_failures"
    = Some (if bool_decide (rc = 4 \/ rc = 5) then a + 1 else a) /\
  stats !! "successful" = connection_stats w !! "successful".
Proof.
  intros Ht Hd Hack Hrc Hdelay Hbudget Hcon St Sf Sa. cbn zeta.
  destruct (gmqtt_denial_fires_twice cfg att s w d delay rc
              Ht Hd Hack Hrc Hdelay Hbudget Hcon)
    as (_ & r1 & r2 & _ & F1 & C1 & F2 & C2 & ->).
  destruct F1 as (T1 & N1 & e1 & E1 & _), F2 as (T2 & N2 & e2 & E2 & _).
  rewrite !TotalsFacts.on_request_cases. unfold is_connect.
  rewrite T1, N1, T2, N2, E1, E2, C1, C2.
  assert (Hne : bool_decide (context r1 = ∅) = false).
  { apply bool_decide_eq_false_2. intros E. rewrite E in C1. discriminate. }
  rewrite Hne. cbn [String.eqb Ascii.eqb Bool.eqb andb negb in_4_5].
  rewrite andb_false_r.
  destruct (bool_decide (rc = 4 \/ rc = 5)) eqn:B.
  - apply bool_decide_eq_true_1 in B.
    assert (H45 : (rc =? 4) || (rc =? 5) = true)
      by (destruct B as [-> | ->]; reflexivity).
    rewrite H45.
    rewrite ?SubscriberFacts.lookup_incr.
    repeat (case_decide; try congruence).
    rewrite St, Sf, Sa. cbn [fmap option_fmap option_map].
    repeat split; f_equal; lia.
  - apply bool_decide_eq_false_1 in B.
    assert (H45 : (rc =? 4) || (rc =? 5) = false)
      by (apply orb_false_iff; split; apply Z.eqb_neq; lia).
    rewrite H45.
    rewrite ?SubscriberFacts.lookup_incr.
    repeat (case_decide; try congruence).
    rewrite St, Sf, Sa. cbn [fmap option_fmap option_map].
    repeat split; f_equal; lia.
Qed.

End Gmqtt.

Section Paho.
Import ConnectionTest.
Variable cfg : Config.

Ltac projections :=
  cbn [fst snd returned elapsed session world
       _connected _connect_start _connect_error client_id
       set_connected set_connect_error].




(** X16: the paho driver never reports a denial as one.  The client is a
    VERSION2 one, so the [rc] of a refused CONNACK is a [ReasonCode];
    [rc_messages.get(rc, ...)] cannot hash it and raises [TypeError] inside
    [_on_connect], before an error is stored or a request fired.  The
    polling loop therefore sees nothing: [connect] waits out the whole
    timeout, whenever the denial came, and returns False after one failed
    connect request, a timeout without [rc] in its context, so that
    [auth_failures] is not counted. *)
Theorem X16_paho_denial_ends_as_timeout extra att s w d delay rc :
  blocking att = Returns d ->
  connack att = Some (delay, rc) -> Paho.value rc <> 0 ->
  _connected s = false ->
  _on_connect (t0 att + delay) rc (s, w)
    = (Raise (LibraryError Paho.unhashable), (s, w)) /\
  exists out,
    connect (enough_polls cfg + extra) cfg att s w = Some out /\
    returned out = Return false /\
    is_connected (session out) = false /\
    _connect_error (session out) = None /\
    d + ms (connect_timeout cfg) <= elapsed out /\
    elapsed out < d + Z.max 0 (ms (connect_timeout cfg)) + 50 /\
    exists r,
      requests (world out) = requests w ++ [r] /\
      failed_as Timeout r /\ context r !! "rc" = None /\
      names_client (client_id s) r /\
      connection_stats (world out) !! "auth_failures"
      = connection_stats w !! "auth_failures".
Proof.
  intros Hb Hack Hrc Hc. apply Z.eqb_neq in Hrc.
  split; [unfold _on_connect; rewrite Hrc; reflexivity|].
  unfold connect. rewrite Hb.
  set (s0 := {| client_id := client_id s; _connected := _connected s;
                _connect_start := Some (t0 att); _connect_error := None |}).
  assert (Hseen : forall at_ms, seen_at att at_ms (s0, w) = (s0, w)).
  { intros at_ms. unfold seen_at. rewrite Hack.
    destruct (delay <=? at_ms); [|reflexivity].
    unfold _on_connect. rewrite Hrc. reflexivity. }
  destruct (enough_polls_enough cfg extra att d (s0, w)) as [waited Hw].
  rewrite Hw.
  pose proof (wait_bounds _ _ _ _ _ _ _ Hw) as [Hlo Hhi].
  pose proof (wait_exit _ _ _ _ _ _ _ Hw) as Hex. cbn zeta in Hex.
  rewrite Hseen in *. cbn [fst] in Hex. unfold error_set in Hex.
  subst s0. projections. cbn [_connected _connect_error] in Hex.
  rewrite Hc in *.
  destruct Hex as [Hex|[Hex|Hex]]; [discriminate|discriminate|].
  eexists. split; [reflexivity|]. unfold connect_except. projections.
  split; [reflexivity|]. split; [reflexivity|]. split; [reflexivity|].
  split; [lia|]. split; [lia|].
  eexists. split; [apply requests_fire|].
  split; [apply failed_connect_as|].
  split; [cbn [context failed_connect]; apply lookup_singleton_ne; discriminate|].
  split; [named|].
  cbn [fire connection_stats]. rewrite TotalsFacts.on_request_cases.
  cbn [is_connect failed_connect request_type name exception context
       String.eqb Ascii.eqb Bool.eqb andb].
  rewrite lookup_singleton_ne by discriminate.
  cbn [in_4_5]. rewrite andb_false_r.
  rewrite !SubscriberFacts.lookup_incr.
  repeat (case_decide; try congruence).
Qed.

End Paho.


Lemma X14_witness :
  let att := {| t0 := 1000; transport := Established 20;
                connack := Some (45, 5) |} in
  let stats :=
    connection_stats
      (Distributed.world
         (Distributed.connect Distributed.default_config att
            (Distributed.init "user1") world0)) in
  stats !! "total_attempts" = Some (0 + 2) /\
  stats !! "failed" = Some (0 + 2) /\
  stats !! "auth_failures"
    = Some (if bool_decide (5 = 4 \/ 5 = 5) then 0 + 1 else 0) /\
  stats !! "successful" = connection_stats world0 !! "successful".
Proof.
  apply (X14_gmqtt_denial_counted_twice Distributed.default_config
           {| t0 := 1000; transport := Established 20; connack := Some (45, 5) |}
           (Distributed.init "user1") world0 20 45 5 0 0 0);
    first [reflexivity | discriminate | (vm_compute; congruence)].
Defined.


Lemma X16_witness :
  let rc := Paho.mkReasonCode 135 "Not authorized" in
  let att := {| ConnectionTest.t0 := 1000;
                ConnectionTest.blocking := ConnectionTest.Returns 20;
                ConnectionTest.connack := Some (45, rc) |} in
  ConnectionTest._on_connect (1000 + 45) rc (ConnectionTest.init "user1", world0)
    = (Raise (LibraryError Paho.unhashable),
       (ConnectionTest.init "user1", world0)) /\
  exists out,
    ConnectionTest.connect (ConnectionTest.enough_polls
                              ConnectionTest.default_config + 0)
      ConnectionTest.default_config att
      (ConnectionTest.init "user1") world0 = Some out /\
    ConnectionTest.returned out = Return false /\
    ConnectionTest.is_connected (ConnectionTest.session out) = false /\
    ConnectionTest._connect_error (ConnectionTest.session out) = None /\
    20 + ms 30 <= ConnectionTest.elapsed out /\
    ConnectionTest.elapsed out < 20 + Z.max 0 (ms 30) + 50 /\
    exists r,
      requests (ConnectionTest.world out) = requests world0 ++ [r] /\
      failed_as Timeout r /\ context r !! "rc" = None /\
      names_client "user1" r /\
      connection_stats (ConnectionTest.world out) !! "auth_failures"
      = connection_stats world0 !! "auth_failures".
Proof.
  cbn zeta.
  apply (X16_paho_denial_ends_as_timeout ConnectionTest.default_config 0
           {| ConnectionTest.t0 := 1000;
              ConnectionTest.blocking := ConnectionTest.Returns 20;
              ConnectionTest.connack :=
                Some (45, Paho.mkReasonCode 135 "Not authorized") |}
           (ConnectionTest.init "user1") world0 20 45
           (Paho.mkReasonCode 135 "Not authorized"));
    first [reflexivity | discriminate].
Defined.

End ConnectMore.

(* ===================================================================== *)
(** ** The life of a user of the gmqtt driver                             *)
(* ===================================================================== *)

Module UserLife.
Import Py Connections Totals DistributedUser.

(** The request of [_on_connect] names the session's client. *)
Lemma on_connect_names now rc s w :
  exists r,
    snd (Distributed._on_connect now rc (s, w)) = fire r w /\
    names_client (Distributed.client_id s) r.
Proof.
  unfold Distributed._on_connect.
  destruct (rc =? 0);
    cbn [Distributed._connect_event Distributed.set_connected
         Distributed.set_connect_error];
    destruct (Distributed._connect_event s); cbn [snd];
    eexists; (split; [reflexivity|]); ConnectMore.named.
Qed.

(** What holds of a user and the world all through the user's life, which
    began with the user [u0] in the world [w0]. *)
Lemma life_start cfg att u w :
  let uw := on_start cfg att u w in
  client_id (fst uw) = client_id u /\ target (fst uw) = target u /\
  (exists s, mqtt_client (fst uw) = Some s /\
             Distributed.client_id s = client_id u /\
             Distributed.client s <> None) /\
  client_calls (snd uw) = client_calls w /\
  exists new, requests (snd uw) = requests w ++ new /\
              Forall (names_client (client_id u)) new /\ (1 <= length new)%nat.
Proof.
  cbn zeta. unfold on_start. cbn [fst snd client_id target mqtt_client].
  destruct (ConnectMore.connect_reports cfg att (Distributed.init (client_id u)) w)
    as (new & Hr & Hn & Hl & _ & Hc & Hi).
  destruct (ConnectFacts.gmqtt_connect_total cfg att (Distributed.init (client_id u)) w)
    as (b & new' & _ & _ & Hcl & _).
  split; [reflexivity|]. split; [reflexivity|].
  split; [eexists; split; [reflexivity|]; split; [exact Hi|]; rewrite Hcl; discriminate|].
  split; [exact Hc|].
  exists new. split; [exact Hr|]. split; [exact Hn|]. lia.
Qed.

Lemma life_step cfg st u0 w0 uw :
  (client_id (fst uw) = client_id u0 /\ target (fst uw) = target u0 /\
   (exists s, mqtt_client (fst uw) = Some s /\
              Distributed.client_id s = client_id u0 /\
              Distributed.client s <> None) /\
   client_calls (snd uw) = client_calls w0 /\
   exists new, requests (snd uw) = requests w0 ++ new /\
               Forall (names_client (client_id u0)) new /\ (1 <= length new)%nat) ->
  let uw' := step cfg st uw in
  client_id (fst uw') = client_id u0 /\ target (fst uw') = target u0 /\
  (exists s, mqtt_client (fst uw') = Some s /\
             Distributed.client_id s = client_id u0 /\
             Distributed.client s <> None) /\
  client_calls (snd uw') = client_calls w0 /\
  exists new, requests (snd uw') = requests w0 ++ new /\
              Forall (names_client (client_id u0)) new /\ (1 <= length new)%nat.
Proof.
  destruct uw as [u w]. cbn [fst snd].
  intros (Hid & Htg & (s & Hs & Hsid & Hcl) & Hcalls & new & Hreq & Hnames & Hlen).
  cbn zeta. destruct st as [td att| |now rc]; cbn [step fst snd].
  - unfold maintain_connection. rewrite Hs. unfold Distributed.is_connected.
    destruct (Distributed._connected s) eqn:Hc; cbn [negb].
    + cbn [fst snd].
      split; [exact Hid|]. split; [exact Htg|].
      split; [exists s; auto|]. split; [exact Hcalls|]. exists new; auto.
    + rewrite (DisconnectFacts.gmqtt_disconnect_noop cfg td s w Hc).
      cbn [Distributed.world fst snd client_id target mqtt_client].
      destruct (ConnectMore.connect_reports cfg att (Distributed.init (client_id u)) w)
        as (new' & Hr & Hn & Hl & _ & Hc' & Hi).
      destruct (ConnectFacts.gmqtt_connect_total cfg att
                  (Distributed.init (client_id u)) w)
        as (b & new'' & _ & _ & Hcl' & _).
      cbn [Distributed.init Distributed.client_id] in Hi, Hn.
      rewrite Hid in *.
      split; [reflexivity|]. split; [exact Htg|].
      split; [eexists; split; [reflexivity|]; split; [exact Hi|];
              rewrite Hcl'; discriminate|].
      split; [congruence|].
      exists (new ++ new'). rewrite Hr, Hreq, app_assoc.
      split; [reflexivity|]. split; [apply Forall_app; auto|].
      rewrite length_app. lia.
  - rewrite Hs. cbn [fmap option_fmap option_map client_id target mqtt_client].
    split; [exact Hid|]. split; [exact Htg|].
    split; [eexists; split; [reflexivity|]; split; assumption|].
    split; [exact Hcalls|]. exists new; auto.
  - rewrite Hs. cbn [fst snd client_id target mqtt_client].
    destruct (ConnectFacts.on_connect_effect now rc s w)
      as (r0 & _ & _ & _ & Hcl' & _ & Hi & _).
    destruct (on_connect_names now rc s w) as (r & Hw & Hr).
    split; [exact Hid|]. split; [exact Htg|].
    split; [eexists; split; [reflexivity|]; split; congruence|].
    rewrite Hw. cbn [fire client_calls requests].
    split; [exact Hcalls|].
    exists (new ++ [r]). rewrite Hreq, app_assoc.
    split; [reflexivity|]. split; [|rewrite length_app; lia].
    apply Forall_app. split; [exact Hnames|]. apply List.Forall_cons; [|constructor].
    rewrite <- Hsid. exact Hr.
Qed.

Lemma life_steps cfg steps u0 w0 : forall uw,
  (client_id (fst uw) = client_id u0 /\ target (fst uw) = target u0 /\
   (exists s, mqtt_client (fst uw) = Some s /\
              Distributed.client_id s = client_id u0 /\
              Distributed.client s <> None) /\
   client_calls (snd uw) = client_calls w0 /\
   exists new, requests (snd uw) = requests w0 ++ new /\
               Forall (names_client (client_id u0)) new /\ (1 <= length new)%nat) ->
  let uw' := foldl (fun uw st => step cfg st uw) uw steps in
  client_id (fst uw') = client_id u0 /\ target (fst uw') = target u0 /\
  (exists s, mqtt_client (fst uw') = Some s /\
             Distributed.client_id s = client_id u0 /\
             Distributed.client s <> None) /\
  client_calls (snd uw') = client_calls w0 /\
  exists new, requests (snd uw') = requests w0 ++ new /\
              Forall (names_client (client_id u0)) new /\ (1 <= length new)%nat.
Proof.
  induction steps as [|st steps IH]; intros uw H; [exact H|].
  cbn [foldl]. apply IH. apply (life_step cfg st u0 w0 uw H).
Qed.

(** What [disconnect] does with a session that has its client. *)
Lemma disconnect_effect cfg td s w :
  Distributed.client s <> None ->
  let out := Distributed.disconnect cfg td s w in
  Distributed.is_connected (Distributed.session out) = false /\
  requests (Distributed.world out) = requests w /\
  client_calls (Distributed.world out)
    = client_calls w ++ (if Distributed.is_connected s
                         then [ClientDisconnect] else []).
Proof.
  intros Hcl. cbn zeta.
  unfold Distributed.disconnect, Distributed._disconnect_async,
    Distributed.run_async, Distributed.is_connected.
  destruct (Distributed.client s) as [c|]; [|congruence].
  destruct (Distributed._connected s) eqn:Hc.
  - cbn [Distributed.finished].
    destruct td as [d|d what|];
      [destruct (d <=? _) | destruct (d <=? _) | ];
      cbn [Distributed.session Distributed.world Distributed.final
           Distributed.waiting fst snd Distributed.set_connected
           Distributed._connected call_client requests client_calls];
      auto.
  - cbn [Distributed.session Distributed.world]. rewrite app_nil_r. auto.
Qed.

(** X17: the whole life of a user of the gmqtt driver, [on_start]
    followed by any ticks of [maintain_connection], dropped connections
    and late acknowledgments.  The user keeps its client identifier and
    target, and every request fired names that identifier.  No call of
    [client.disconnect()] is made before [on_stop]: the
    [self.mqtt_client.disconnect()] of [maintain_connection] only ever runs
    on a session that is not connected, where it does nothing, so a
    replaced session's client is never closed.  [on_stop] then makes one
    such call if its session is connected and none otherwise, fires no
    request and leaves the session not connected. *)
Theorem X17_gmqtt_user_life cfg first steps td u w :
  let uw := run cfg first steps u w in
  let stopped := on_stop cfg td (fst uw) (snd uw) in
  client_id (fst uw) = client_id u /\ target (fst uw) = target u /\
  client_calls (snd uw) = client_calls w /\
  (exists new, requests (snd uw) = requests w ++ new /\
               Forall (names_client (client_id u)) new /\
               (1 <= length new)%nat) /\
  (exists s, mqtt_client (fst uw) = Some s /\
             Distributed.client_id s = client_id u /\
             client_calls (snd stopped)
               = client_calls w ++ (if Distributed.is_connected s
                                    then [ClientDisconnect] else [])) /\
  requests (snd stopped) = requests (snd uw) /\
  (exists s', mqtt_client (fst stopped) = Some s' /\
              Distributed.is_connected s' = false).
Proof.
  cbn zeta. unfold run.
  destruct (life_steps cfg steps u w (on_start cfg first u w)
              (life_start cfg first u w))
    as (Hid & Htg & (s & Hs & Hsid & Hcl) & Hcalls & Hnew).
  cbn zeta in *.
  set (uw := foldl (fun uw st => step cfg st uw) (on_start cfg first u w) steps) in *.
  destruct (disconnect_effect cfg td s (snd uw) Hcl) as (D1 & D2 & D3).
  unfold on_stop. rewrite Hs. cbn [fst snd mqtt_client].
  split; [exact Hid|]. split; [exact Htg|]. split; [exact Hcalls|].
  split; [exact Hnew|].
  split; [exists s; split; [reflexivity|]; split; [exact Hsid|];
          rewrite D3, Hcalls; reflexivity|].
  split; [exact D2|].
  eexists. split; [reflexivity|]. exact D1.
Qed.

End UserLife.

(* ===================================================================== *)
(** ** Connecting a subscriber                                            *)
(* ===================================================================== *)


Module SubscriberConnectFacts.
Import Py Subscriber SubscriberConnect.

Section Connect.
Variable cfg : Config.

Ltac projections :=
  cbn [fst snd returned elapsed session world sub calls fire call
       Subscriber.fire requests alert_stats client_calls log
       client_id _connected _connect_start messages_received last_message_time
       set_connected set_connect_start].

(** The loop ends within the polls its timeout allows. *)
Lemma subscriber_wait_enough fuel att start waited sw :
  (1 <= fuel)%nat ->
  timeout - waited <= 100 * (Z.of_nat fuel - 1) ->
  is_Some (wait_for_connection fuel cfg att start waited sw).
Proof.
  revert waited. induction fuel as [|fuel IH]; intros waited H1 H; [lia|].
  cbn [wait_for_connection].
  destruct (_ && _) eqn:C; [|eauto].
  apply andb_true_iff in C as [_ C]. apply Z.ltb_lt in C.
  apply IH; lia.
Qed.

Lemma subscriber_polls_enough extra att start sw :
  is_Some (wait_for_connection (enough_polls + extra) cfg att start 0 sw).
Proof. apply subscriber_wait_enough; unfold enough_polls, timeout; lia. Qed.

(** When the loop ends, and why: the session is connected, or the
    timeout has passed; and unless it ended at once, one sleep earlier
    the session was not connected and the timeout had not passed. *)
Lemma subscriber_wait_ends fuel att start sw : forall waited waited',
  wait_for_connection fuel cfg att start waited sw = Some waited' ->
  (_connected (fst (seen_at cfg att (start + waited') sw)) = true \/
   timeout <= waited') /\
  (waited' = waited \/
   (waited + 100 <= waited' /\ waited' - 100 < timeout /\
    _connected (fst (seen_at cfg att (start + (waited' - 100)) sw)) = false)).
Proof.
  induction fuel as [|fuel IH]; intros waited waited' H; [discriminate|].
  cbn [wait_for_connection] in H.
  destruct (_ && _) eqn:C.
  - apply andb_true_iff in C as [C1 C2].
    apply negb_true_iff in C1. apply Z.ltb_lt in C2.
    apply IH in H as [Hex [->|(Hle & Hlt & Hc)]].
    + split; [exact Hex|]. right.
      replace (waited + 100 - 100) with waited by lia. auto with lia.
    + split; [exact Hex|]. right. auto with lia.
  - injection H as <-. split; [|left; reflexivity].
    apply andb_false_iff in C as [C|C].
    + left. apply negb_false_iff, C.
    + right. apply Z.ltb_ge, C.
Qed.

(** The world after a run of calls on the client. *)
Lemma calls_made l : forall w,
  foldl (fun w c => call c w) w l = {| sub := sub w; calls := calls w ++ l |}.
Proof.
  induction l as [|c l IH]; intros [sb cs]; cbn [foldl sub calls].
  - rewrite app_nil_r. reflexivity.
  - rewrite IH. cbn [call sub calls]. rewrite <- app_assoc. reflexivity.
Qed.

(** A callback other than a CONNACK whose reason code has the value 0. *)
Lemma denial_delivered att ev s w :
  (forall rc, snd ev = Connack rc -> Paho.value rc <> 0) ->
  _connected s = false ->
  let sw := deliver cfg att ev (s, w) in
  _connected (fst sw) = false /\
  calls (snd sw) = calls w /\
  alert_stats (sub (snd sw)) = alert_stats (sub w) /\
  exists r, requests (sub (snd sw)) = requests (sub w) ++ [r].
Proof.
  intros Hev Hc. cbn zeta. unfold deliver, _on_connect, _on_subscribe.
  destruct (snd ev) as [rc|].
  - destruct (Paho.value rc =? 0) eqn:R;
      [apply Z.eqb_eq in R; destruct (Hev rc eq_refl R)|].
    projections. repeat split. eexists. reflexivity.
  - projections. repeat split; auto. eexists. reflexivity.
Qed.

(** Callbacks none of which is a CONNACK whose reason code has the
    value 0. *)
Lemma denials_seen att at_ms evs : forall sw,
  Forall (fun ev => forall rc, snd ev = Connack rc -> Paho.value rc <> 0) evs ->
  _connected (fst sw) = false ->
  let sw' := foldl (fun sw ev => if fst ev <=? at_ms
                                 then deliver cfg att ev sw else sw)
                   sw evs in
  _connected (fst sw') = false /\
  calls (snd sw') = calls (snd sw) /\
  alert_stats (sub (snd sw')) = alert_stats (sub (snd sw)) /\
  exists new,
    requests (sub (snd sw')) = requests (sub (snd sw)) ++ new /\
    length new = length (List.filter (fun ev => fst ev <=? at_ms) evs).
Proof.
  induction evs as [|ev evs IH]; intros sw Hall Hc; cbn zeta.
  - cbn [foldl List.filter length]. repeat split; auto.
    exists []. rewrite app_nil_r. auto.
  - apply Forall_cons in Hall as [Hev Hall].
    cbn [foldl List.filter]. destruct (fst ev <=? at_ms) eqn:E.
    + destruct sw as [s w]. cbn [fst snd] in *.
      destruct (denial_delivered att ev s w Hev Hc) as (D1 & D2 & D3 & r & D4).
      cbn zeta in *.
      destruct (IH (deliver cfg att ev (s, w)) Hall D1)
        as (I1 & I2 & I3 & new & I4 & I5).
      cbn zeta in *. rewrite I1, I2, I3, D2, D3. repeat split.
      exists (r :: new). rewrite I4, D4, <- app_assoc.
      split; [reflexivity|]. cbn [length]. rewrite I5. reflexivity.
    + apply IH; assumption.
Qed.

(** X18: the blocking [client.connect] returns and no CONNACK whose
    reason code has the value 0 arrives, whatever else the network thread
    reports.  Then
    [connect] blocks for the whole 10 seconds, also when the broker denied
    the session at once, and returns False.  It fires no request of its
    own: the requests added are the ones of the callbacks made by then,
    one each, so that a broker that never answers leaves no trace of the
    failed attempt at all.  It has started the network loop and made no
    further call on the client. *)
Theorem X18_subscriber_connect_waits_out_the_timeout extra att s w d :
  blocking att = ConnectionTest.Returns d ->
  Forall (fun ev => forall rc, snd ev = Connack rc -> Paho.value rc <> 0)
         (events att) ->
  _connected s = false ->
  exists out,
    connect (enough_polls + extra) cfg att s w = Some out /\
    returned out = Return false /\
    is_connected (session out) = false /\
    d + timeout <= elapsed out < d + timeout + 100 /\
    calls (world out) = calls w ++ setup_calls cfg (client_id s) ++ [LoopStart] /\
    alert_stats (sub (world out)) = alert_stats (sub w) /\
    exists new,
      requests (sub (world out)) = requests (sub w) ++ new /\
      length new
      = length (List.filter (fun ev => fst ev <=? elapsed out) (events att)).
Proof.
  intros Hb Hall Hc. unfold connect. rewrite Hb.
  set (s0 := set_connect_start (Some (t0 att)) s).
  set (w1 := call LoopStart _).
  destruct (subscriber_polls_enough extra att d (s0, w1)) as [waited Hw].
  rewrite Hw.
  destruct (subscriber_wait_ends _ _ _ _ _ _ Hw) as [Hex Hprev].
  assert (Hseen : forall at_ms,
            let sw := seen_at cfg att at_ms (s0, w1) in
            _connected (fst sw) = false /\
            calls (snd sw) = calls w1 /\
            alert_stats (sub (snd sw)) = alert_stats (sub w1) /\
            exists new,
              requests (sub (snd sw)) = requests (sub w1) ++ new /\
              length new
              = length (List.filter (fun ev => fst ev <=? at_ms) (events att))).
  { intros at_ms. apply (denials_seen att at_ms (events att) (s0, w1) Hall Hc). }
  assert (Hlo : timeout <= waited).
  { destruct Hex as [Hex|Hex]; [|exact Hex].
    destruct (Hseen (d + waited)) as (Hn & _). cbn zeta in Hn. congruence. }
  assert (Hhi : waited < timeout + 100).
  { destruct Hprev as [->|(_ & Hlt & _)]; [unfold timeout in *|]; lia. }
  destruct (Hseen (d + waited)) as (S1 & S2 & S3 & new & S4 & S5).
  cbn zeta in *.
  destruct (seen_at cfg att (d + waited) (s0, w1)) as [s2 w2].
  cbn [fst snd] in *.
  eexists. split; [reflexivity|]. projections.
  unfold is_connected. rewrite S1.
  split; [reflexivity|]. split; [reflexivity|]. split; [lia|].
  subst w1. rewrite calls_made in S2, S3, S4. cbn [call calls sub] in S2, S3, S4.
  split; [rewrite S2, <- app_assoc; reflexivity|].
  split; [exact S3|].
  exists new. split; [exact S4|exact S5].
Qed.

(** Confirmations of the subscription change nothing but the requests. *)
Lemma subacks_seen att at_ms evs : forall sw,
  Forall (fun ev => snd ev = Suback) evs ->
  let sw' := foldl (fun sw ev => if fst ev <=? at_ms
                                 then deliver cfg att ev sw else sw)
                   sw evs in
  fst sw' = fst sw /\
  calls (snd sw') = calls (snd sw) /\
  exists confirmed,
    requests (sub (snd sw')) = requests (sub (snd sw)) ++ confirmed /\
    Forall (fun r => name r = "subscribe" /\
                     context r !! "topic"
                     = Some (VStr (format_topic cfg (client_id (fst sw)))))
           confirmed.
Proof.
  induction evs as [|ev evs IH]; intros sw Hall; cbn zeta.
  - cbn [foldl]. repeat split.
    exists []. rewrite app_nil_r. split; [reflexivity|constructor].
  - apply Forall_cons in Hall as [Hev Hall].
    cbn [foldl]. destruct (fst ev <=? at_ms) eqn:E; [|apply IH; assumption].
    destruct sw as [s w].
    destruct (IH (deliver cfg att ev (s, w)) Hall) as (I1 & I2 & new & I3 & I4).
    cbn zeta in *. rewrite I1, I2, I3. clear I1 I2 I3.
    unfold deliver, _on_subscribe in *. rewrite Hev in *. projections.
    cbn [fst client_id] in I4.
    repeat split. eexists. rewrite <- app_assoc. split; [reflexivity|].
    apply List.Forall_cons; [|exact I4].
    split; [reflexivity|]. apply lookup_singleton_eq.
Qed.

(** X19: the blocking [client.connect] returns, a CONNACK whose reason
    code has the value 0 reaches [_on_connect] before the polling loop
    gives up, and all the
    network thread reports after it are confirmations of the subscription.
    Then [connect] returns True at the first poll after the CONNACK, less
    than one 100 ms sleep after it.  The calls made on the client are those
    of the setup, then [loop_start()], then one
    [subscribe(topic, qos=1)] for the topic of the session's own client
    identifier.  The first request added is the successful connect, whose
    response time is the delay of the CONNACK; the others are the confirmed
    subscriptions of that topic. *)
Theorem X19_subscriber_connect_subscribes extra att s w d delay rc later :
  blocking att = ConnectionTest.Returns d ->
  events att = (delay, Connack rc) :: later -> Paho.value rc = 0 ->
  Forall (fun ev => snd ev = Suback) later ->
  _connected s = false ->
  delay < d + timeout ->
  t0 att <> 0 ->
  exists out,
    connect (enough_polls + extra) cfg att s w = Some out /\
    returned out = Return true /\
    is_connected (session out) = true /\
    Z.max d delay <= elapsed out < Z.max d delay + 100 /\
    calls (world out)
      = calls w ++ setup_calls cfg (client_id s)
          ++ [LoopStart; Subscribe (format_topic cfg (client_id s)) 1] /\
    exists r confirmed,
      requests (sub (world out)) = requests (sub w) ++ r :: confirmed /\
      request_type r = "MQTT" /\ name r = "connect" /\
      exception r = None /\ response_time r = delay /\
      Forall (fun r' => name r' = "subscribe" /\
                        context r' !! "topic"
                        = Some (VStr (format_topic cfg (client_id s))))
             confirmed.
Proof.
  intros Hb Hev Hrc Hall Hc Hdelay Hclock. unfold connect. rewrite Hb.
  set (s0 := set_connect_start (Some (t0 att)) s).
  set (w1 := call LoopStart _).
  destruct (subscriber_polls_enough extra att d (s0, w1)) as [waited Hw].
  rewrite Hw.
  destruct (subscriber_wait_ends _ _ _ _ _ _ Hw) as [Hex Hprev].
  assert (Hseen : forall at_ms,
            seen_at cfg att at_ms (s0, w1)
            = foldl (fun sw ev => if fst ev <=? at_ms
                                  then deliver cfg att ev sw else sw)
                    (if delay <=? at_ms
                     then _on_connect cfg (t0 att + delay) rc (s0, w1)
                     else (s0, w1))
                    later).
  { intros at_ms. unfold seen_at. rewrite Hev. cbn [foldl fst snd deliver].
    reflexivity. }
  assert (Hnot : forall at_ms,
            (delay <=? at_ms) = false ->
            _connected (fst (seen_at cfg att at_ms (s0, w1))) = false).
  { intros at_ms E. rewrite Hseen, E.
    destruct (subacks_seen att at_ms later (s0, w1) Hall) as (-> & _).
    exact Hc. }
  assert (Hin : (delay <=? d + waited) = true).
  { destruct (delay <=? d + waited) eqn:E; [reflexivity|].
    rewrite (Hnot _ E) in Hex. apply Z.leb_gt in E.
    destruct Hex as [?|?]; [discriminate|lia]. }
  assert (Hel : Z.max d delay <= d + waited < Z.max d delay + 100).
  { apply Z.leb_le in Hin.
    destruct Hprev as [->|(Hle & _ & Hp)]; [lia|].
    destruct (delay <=? d + (waited - 100)) eqn:E.
    - rewrite Hseen, E in Hp.
      destruct (subacks_seen att (d + (waited - 100)) later
                  (_on_connect cfg (t0 att + delay) rc (s0, w1)) Hall) as (F & _).
      cbn zeta in F. rewrite F in Hp. unfold _on_connect in Hp.
      rewrite Hrc in Hp. change (0 =? 0) with true in Hp. discriminate Hp.
    - apply Z.leb_gt in E. lia. }
  rewrite Hseen, Hin.
  destruct (subacks_seen att (d + waited) later
              (_on_connect cfg (t0 att + delay) rc (s0, w1)) Hall)
    as (F1 & F2 & confirmed & F3 & F4).
  cbn zeta in *.
  destruct (foldl _ _ later) as [s2 w2]. cbn [fst snd] in *.
  unfold _on_connect in *. rewrite Hrc in *. change (0 =? 0) with true in *.
  subst s0 w1. rewrite calls_made in *. projections. cbn [fst snd] in *.
  projections.
  eexists. split; [reflexivity|]. projections. subst s2.
  unfold is_connected. projections.
  split; [reflexivity|]. split; [reflexivity|]. split; [exact Hel|].
  split.
  { rewrite F2. projections. rewrite <- !app_assoc. reflexivity. }
  eexists _, confirmed. rewrite F3. projections. rewrite <- app_assoc.
  split; [reflexivity|]. split; [reflexivity|]. split; [reflexivity|].
  split; [reflexivity|]. split; [|exact F4].
  cbn [response_time elapsed_since].
  apply Z.eqb_neq in Hclock. rewrite Hclock. lia.
Qed.

(** Callbacks stop no loop and take back no call. *)
Lemma seen_keeps att at_ms evs : forall sw,
  let sw' := foldl (fun sw ev => if fst ev <=? at_ms
                                 then deliver cfg att ev sw else sw)
                   sw evs in
  client_calls (sub (snd sw')) = client_calls (sub (snd sw)) /\
  exists more, calls (snd sw') = calls (snd sw) ++ more.
Proof.
  induction evs as [|ev evs IH]; intros sw; cbn zeta.
  - cbn [foldl]. split; [reflexivity|]. exists []. rewrite app_nil_r. reflexivity.
  - cbn [foldl]. destruct (fst ev <=? at_ms); [|apply IH].
    destruct (IH (deliver cfg att ev sw)) as (I1 & more & I2).
    cbn zeta in *. rewrite I1, I2. clear I1 I2. destruct sw as [s w].
    unfold deliver, _on_connect, _on_subscribe.
    destruct (snd ev) as [rc|]; [destruct (Paho.value rc =? 0)|]; projections;
      (split; [reflexivity|]).
    + exists (Subscribe (format_topic cfg (client_id s)) 1 :: more).
      rewrite <- app_assoc. reflexivity.
    + exists more. reflexivity.
    + exists more. reflexivity.
Qed.

(** X20: a [connect] that returns False although the blocking
    [client.connect] returned (the wait timed out, or the broker denied
    the session) has called [loop_start()] and not [loop_stop()], and the
    [disconnect()] that the users call on such a session does nothing,
    whatever the client would do: the network loop of that client is never
    stopped. *)
Theorem X20_failed_subscriber_connect_leaves_loop_running
    fuel att s w d out td :
  blocking att = ConnectionTest.Returns d ->
  connect fuel cfg att s w = Some out ->
  returned out = Return false ->
  LoopStart ∈ calls (world out) /\
  client_calls (sub (world out)) = client_calls (sub w) /\
  disconnect td (session out) (sub (world out))
    = (Return tt, (session out, sub (world out))).
Proof.
  intros Hb Hout Hret. unfold connect in Hout. rewrite Hb in Hout.
  destruct (wait_for_connection _ _ _ _ _ _) as [waited|]; [|discriminate].
  unfold seen_at in Hout.
  destruct (seen_keeps att (d + waited) (events att)
              (set_connect_start (Some (t0 att)) s,
               call LoopStart
                 (foldl (fun w c => call c w) w (setup_calls cfg (client_id s)))))
    as (K1 & more & K2).
  cbn zeta in *.
  destruct (foldl _ _ (events att)) as [s2 w2]. cbn [fst snd] in *.
  injection Hout as <-. projections. cbn [returned] in Hret.
  rewrite calls_made in *. projections. cbn [sub calls call] in K1, K2.
  split; [|split].
  - rewrite K2. set_solver.
  - exact K1.
  - unfold disconnect. injection Hret as ->. reflexivity.
Qed.

End Connect.

Lemma X18_witness :
  exists out,
    connect (enough_polls + 0) default_config
      {| t0 := 1000; blocking := ConnectionTest.Returns 20;
         events := [(45, Connack (Paho.mkReasonCode 135 "Not authorized"))] |}
      (init "user1") {| sub := world0; calls := [] |} = Some out /\
    returned out = Return false /\
    is_connected (session out) = false /\
    20 + timeout <= elapsed out < 20 + timeout + 100 /\
    calls (world out) = [] ++ setup_calls default_config "user1" ++ [LoopStart] /\
    alert_stats (sub (world out)) = alert_stats world0 /\
    exists new,
      requests (sub (world out)) = requests world0 ++ new /\
      length new
      = length (List.filter (fun ev => fst ev <=? elapsed out)
                            [(45, Connack (Paho.mkReasonCode 135 "Not authorized"))]).
Proof.
  apply (X18_subscriber_connect_waits_out_the_timeout default_config 0
           {| t0 := 1000; blocking := ConnectionTest.Returns 20;
              events := [(45, Connack (Paho.mkReasonCode 135 "Not authorized"))] |}
           (init "user1") {| sub := world0; calls := [] |} 20).
  - reflexivity.
  - repeat constructor. intros rc [= <-]. discriminate.
  - reflexivity.
Defined.

Lemma X19_witness :
  exists out,
    connect (enough_polls + 0) default_config
      {| t0 := 1000; blocking := ConnectionTest.Returns 20;
         events := [(45, Connack (Paho.mkReasonCode 0 "Success")); (60, Suback)] |}
      (init "user1") {| sub := world0; calls := [] |} = Some out /\
    returned out = Return true /\
    is_connected (session out) = true /\
    Z.max 20 45 <= elapsed out < Z.max 20 45 + 100 /\
    calls (world out)
      = [] ++ setup_calls default_config "user1"
          ++ [LoopStart; Subscribe (format_topic default_config "user1") 1] /\
    exists r confirmed,
      requests (sub (world out)) = requests world0 ++ r :: confirmed /\
      request_type r = "MQTT" /\ name r = "connect" /\
      exception r = None /\ response_time r = 45 /\
      Forall (fun r' => name r' = "subscribe" /\
                        context r' !! "topic"
                        = Some (VStr (format_topic default_config "user1")))
             confirmed.
Proof.
  apply (X19_subscriber_connect_subscribes default_config 0
           {| t0 := 1000; blocking := ConnectionTest.Returns 20;
              events := [(45, Connack (Paho.mkReasonCode 0 "Success")); (60, Suback)] |}
           (init "user1") {| sub := world0; calls := [] |} 20 45
           (Paho.mkReasonCode 0 "Success") [(60, Suback)]).
  - reflexivity.
  - reflexivity.
  - reflexivity.
  - repeat constructor.
  - reflexivity.
  - reflexivity.
  - discriminate.
Defined.

Lemma X20_witness :
  exists out,
    connect enough_polls default_config
      {| t0 := 1000; blocking := ConnectionTest.Returns 20; events := [] |}
      (init "user1") {| sub := world0; calls := [] |} = Some out /\
    LoopStart ∈ calls (world out) /\
    client_calls (sub (world out)) = client_calls world0 /\
    disconnect (Paho.DisconnectRaises "TypeError") (session out) (sub (world out))
    = (Return tt, (session out, sub (world out))).
Proof.
  eexists. split; [vm_compute; reflexivity|].
  eapply (X20_failed_subscriber_connect_leaves_loop_running default_config
            enough_polls
            {| t0 := 1000; blocking := ConnectionTest.Returns 20; events := [] |}
            (init "user1") {| sub := world0; calls := [] |} 20 _
            (Paho.DisconnectRaises "TypeError")).
  - reflexivity.
  - vm_compute. reflexivity.
  - reflexivity.
Defined.

End SubscriberConnectFacts.

(* ===================================================================== *)
(** ** Reports to the coordinator                                         *)
(* ===================================================================== *)

Module ReportsFacts.
Import Py Totals Reports TotalsFacts.

Lemma count_app p rs rs' : count p (rs ++ rs') = count p rs + count p rs'.
Proof. unfold count. rewrite List.filter_app, length_app. lia. Qed.

(** The alert listener, from any dictionary: a counter that is there
    grows by its count, and nothing else changes. *)
Lemma alert_lookups rs : forall (st : gmap string Z),
  let st' := foldl (fun stats r => Subscriber.on_request r stats) st rs in
  st' !! "total_received"
    = (fun v => v + count is_alert rs) <$> st !! "total_received" /\
  st' !! "valid_alerts"
    = (fun v => v + count is_valid_alert rs) <$> st !! "valid_alerts" /\
  st' !! "invalid_alerts"
    = (fun v => v + count is_invalid_alert rs) <$> st !! "invalid_alerts" /\
  forall k, k <> "total_received" -> k <> "valid_alerts" ->
            k <> "invalid_alerts" -> st' !! k = st !! k.
Proof.
  induction rs as [|r rs IH]; intros st; cbn zeta.
  - cbn [foldl]. unfold count. cbn [List.filter length Z.of_nat].
    repeat split; try (destruct (st !! _); cbn; f_equal; lia).
  - cbn [foldl]. destruct (IH (Subscriber.on_request r st)) as (I1 & I2 & I3 & I4).
    cbn zeta in *. rewrite !count_cons.
    unfold is_valid_alert, is_invalid_alert in *.
    split; [|split; [|split]].
    + rewrite I1, alert_request_cases.
      destruct (is_alert r); [destruct (truthy _)|]; cbn [andb negb];
        lookups; destruct (st !! "total_received");
        cbn [fmap option_fmap option_map]; f_equal; lia.
    + rewrite I2, alert_request_cases.
      destruct (is_alert r); [destruct (truthy _)|]; cbn [andb negb];
        lookups; destruct (st !! "valid_alerts");
        cbn [fmap option_fmap option_map]; f_equal; lia.
    + rewrite I3, alert_request_cases.
      destruct (is_alert r); [destruct (truthy _)|]; cbn [andb negb];
        lookups; destruct (st !! "invalid_alerts");
        cbn [fmap option_fmap option_map]; f_equal; lia.
    + intros k K1 K2 K3. rewrite (I4 k K1 K2 K3), alert_request_cases.
      destruct (is_alert r); [destruct (truthy _)|]; lookups; reflexivity.
Qed.

Lemma alert_stats0_other k :
  k <> "total_received" -> k <> "valid_alerts" -> k <> "invalid_alerts" ->
  Subscriber.alert_stats0 !! k = None.
Proof.
  intros K1 K2 K3. unfold Subscriber.alert_stats0.
  rewrite !lookup_insert_ne by congruence.
  apply lookup_singleton_ne. congruence.
Qed.

Lemma alert_stats_after_lookup rs k :
  alert_stats_after rs !! k
  = if decide (k = "total_received") then Some (count is_alert rs)
    else if decide (k = "valid_alerts") then Some (count is_valid_alert rs)
    else if decide (k = "invalid_alerts") then Some (count is_invalid_alert rs)
    else None.
Proof.
  unfold alert_stats_after.
  destruct (alert_lookups rs Subscriber.alert_stats0) as (H1 & H2 & H3 & H4).
  cbn zeta in *.
  repeat case_decide; subst.
  - rewrite H1. reflexivity.
  - rewrite H2. reflexivity.
  - rewrite H3. reflexivity.
  - rewrite H4 by assumption. apply alert_stats0_other; assumption.
Qed.

(** What the reports of workers that each report once add up to. *)
Lemma reported_sum_single k p rss :
  (forall rs, alert_stats_after rs !! k = Some (count p rs)) ->
  Subscriber.reported_sum k (alert_stats_after <$> rss) = count p (concat rss).
Proof.
  intros H. induction rss as [|rs rss IH]; [reflexivity|].
  cbn [fmap list_fmap concat Subscriber.reported_sum foldr].
  fold (Subscriber.reported_sum k (alert_stats_after <$> rss)).
  rewrite IH, H, count_app. reflexivity.
Qed.

(** X21: distributed counting agrees with central counting when every
    worker reports once.  Each worker starts from the counters of module
    load and sees its own requests; the coordinator starts from the same
    counters, sees no request itself and merges the reports received.  Its
    [alert_stats] is then the dictionary a single process would hold after
    all the requests of all the workers. *)
Theorem X21_single_reports_add_up (rss : list (list Request)) :
  Subscriber.merge_all Subscriber.alert_stats0 (alert_stats_after <$> rss)
  = alert_stats_after (concat rss).
Proof.
  apply map_eq. intros k.
  rewrite SubscriberFacts.lookup_merge_all, alert_stats_after_lookup.
  repeat case_decide; subst.
  - rewrite (reported_sum_single _ is_alert)
      by (intros rs; rewrite alert_stats_after_lookup; reflexivity).
    reflexivity.
  - rewrite (reported_sum_single _ is_valid_alert)
      by (intros rs; rewrite alert_stats_after_lookup; reflexivity).
    reflexivity.
  - rewrite (reported_sum_single _ is_invalid_alert)
      by (intros rs; rewrite alert_stats_after_lookup; reflexivity).
    reflexivity.
  - rewrite alert_stats0_other by assumption. reflexivity.
Qed.

(** What the successive reports of one worker add up to. *)
Lemma reported_sum_reports k p runs : forall (st : gmap string Z) a,
  (forall (st : gmap string Z) rs,
     foldl (fun stats r => Subscriber.on_request r stats) st rs !! k
     = (fun v => v + count p rs) <$> st !! k) ->
  st !! k = Some a ->
  Subscriber.reported_sum k (worker_reports st runs)
  = Z.of_nat (length runs) * a + times_reported p runs.
Proof.
  intros st a H. revert st a.
  induction runs as [|rs runs IH]; intros st a Ha.
  - cbn [worker_reports Subscriber.reported_sum foldr times_reported length].
    lia.
  - cbn [worker_reports Subscriber.reported_sum foldr times_reported].
    fold (Subscriber.reported_sum k
            (worker_reports
               (foldl (fun stats r => Subscriber.on_request r stats) st rs) runs)).
    rewrite (IH _ (a + count p rs)) by (rewrite H, Ha; reflexivity).
    rewrite H, Ha. cbn [fmap option_fmap option_map default].
    change (length (rs :: runs)) with (S (length runs)).
    rewrite Nat2Z.inj_succ. unfold id. nia.
Qed.

Lemma count_le_times_reported p runs :
  count p (concat runs) <= times_reported p runs.
Proof.
  induction runs as [|rs runs IH]; [reflexivity|].
  cbn [concat times_reported]. rewrite count_app.
  change (length (rs :: runs)) with (S (length runs)).
  rewrite Nat2Z.inj_succ. pose proof (count_nonneg p rs). nia.
Qed.

(** X22: [on_report_to_master] sends a copy of the worker's counters and
    does not reset them, and [on_worker_report] adds what it receives.  So
    when one worker reports after each of several runs of requests, the
    coordinator counts every alert once for each report sent after it:
    its totals are never less than the number of alerts, and after two
    reports the alerts that came before the first are counted twice. *)
Theorem X22_repeated_reports_count_again
    (runs : list (list Request)) (rs1 rs2 : list Request) :
  let totals :=
    Subscriber.merge_all Subscriber.alert_stats0
      (worker_reports Subscriber.alert_stats0 runs) in
  totals !! "total_received" = Some (times_reported is_alert runs) /\
  totals !! "valid_alerts" = Some (times_reported is_valid_alert runs) /\
  totals !! "invalid_alerts" = Some (times_reported is_invalid_alert runs) /\
  count is_alert (concat runs) <= times_reported is_alert runs /\
  Subscriber.merge_all Subscriber.alert_stats0
    (worker_reports Subscriber.alert_stats0 [rs1; rs2]) !! "total_received"
  = Some (2 * count is_alert rs1 + count is_alert rs2).
Proof.
  cbn zeta. rewrite !SubscriberFacts.lookup_merge_all.
  rewrite (reported_sum_reports "total_received" is_alert runs _ 0);
    [|intros st rs; apply (alert_lookups rs st)|reflexivity].
  rewrite (reported_sum_reports "valid_alerts" is_valid_alert runs _ 0);
    [|intros st rs; apply (alert_lookups rs st)|reflexivity].
  rewrite (reported_sum_reports "invalid_alerts" is_invalid_alert runs _ 0);
    [|intros st rs; apply (alert_lookups rs st)|reflexivity].
  rewrite (reported_sum_reports "total_received" is_alert [rs1; rs2] _ 0);
    [|intros st rs; apply (alert_lookups rs st)|reflexivity].
  change (Subscriber.alert_stats0 !! "total_received") with (Some 0).
  change (Subscriber.alert_stats0 !! "valid_alerts") with (Some 0).
  change (Subscriber.alert_stats0 !! "invalid_alerts") with (Some 0).
  cbn [fmap option_fmap option_map times_reported length].
  split; [f_equal; lia|]. split; [f_equal; lia|]. split; [f_equal; lia|].
  split; [apply count_le_times_reported|]. f_equal. lia.
Qed.

End ReportsFacts.

(* ===================================================================== *)
(** ** Populating the user table                                          *)
(* ===================================================================== *)

Module PopulateFacts.
Import Populate.

(** [range(a, b)] *)
Lemma range_one a b : range a b 1 = Some (seqZ a (b - a)).
Proof.
  unfold range. cbn [Z.eqb Z.ltb Z.compare].
  rewrite Z.div_1_r.
  replace (b - a + 1 - 1) with (b - a) by lia.
  f_equal. rewrite <- (Z.add_0_r a) at 2. rewrite <- fmap_add_seqZ.
  apply list_fmap_ext. intros _ i _. lia.
Qed.

Section Batches.
Context {DB : Type}.
Variable execute : list Z -> DB -> DB * Z.
Variable start_id : Z.
Variable count : Z.
Variable batch_size : Z.
Hypothesis positive : 1 <= batch_size.

(** The statements of the batches whose numbers are [is]. *)
Lemma fold_batches (ks : list Z) : forall acc,
  Forall (fun i => i * batch_size < count) ks ->
  foldl (insert_batch execute start_id count batch_size) acc
        ((fun i => start_id + i * batch_size) <$> ks)
  = foldl (fun acc ids =>
             let '(db', rowcount) := execute ids (snd acc) in
             (fst acc + rowcount, db'))
          acc
          ((fun i => seqZ (start_id + i * batch_size)
                          (Z.min batch_size (count - i * batch_size))) <$> ks).
Proof.
  induction ks as [|i ks IH]; intros acc Hall; [reflexivity|].
  apply Forall_cons in Hall as [Hi Hall].
  cbn [fmap list_fmap foldl]. rewrite <- (IH _ Hall). f_equal.
  unfold insert_batch. rewrite range_one. cbn [default]. unfold id.
  replace (Z.min (start_id + i * batch_size + batch_size) (start_id + count)
           - (start_id + i * batch_size))
    with (Z.min batch_size (count - i * batch_size)) by lia.
  destruct (seqZ _ _) as [|x xs] eqn:E; [|reflexivity].
  apply (f_equal length) in E. rewrite length_seqZ in E. cbn [length] in E. lia.
Qed.

(** Cutting a range into [k] batches. *)
Lemma concat_batches (k : nat) : forall start n,
  (Z.of_nat k - 1) * batch_size < n <= Z.of_nat k * batch_size ->
  concat ((fun i => seqZ (start + i * batch_size)
                         (Z.min batch_size (n - i * batch_size)))
            <$> seqZ 0 (Z.of_nat k))
  = seqZ start n.
Proof.
  induction k as [|k IH]; intros start n H.
  - cbn [Z.of_nat]. rewrite !seqZ_nil by lia. reflexivity.
  - rewrite Nat2Z.inj_succ in *. rewrite seqZ_cons by lia.
    replace (Z.pred (Z.succ (Z.of_nat k))) with (Z.of_nat k) by lia.
    cbn [fmap list_fmap concat].
    change (Z.succ 0) with (1 + 0). rewrite <- (fmap_add_seqZ 1 0), <- list_fmap_compose.
    rewrite (list_fmap_ext _
               (fun i => seqZ ((start + batch_size) + i * batch_size)
                              (Z.min batch_size ((n - batch_size) - i * batch_size))))
      by (intros _ i _; cbn [compose]; f_equal; lia).
    rewrite (IH (start + batch_size) (n - batch_size)) by lia.
    replace (start + 0 * batch_size) with start by lia.
    replace (n - 0 * batch_size) with n by lia.
    destruct (Z.le_gt_cases batch_size n) as [Hn|Hn].
    + rewrite Z.min_l by lia.
      rewrite <- seqZ_app by lia. f_equal. lia.
    + rewrite Z.min_r by lia. rewrite (seqZ_nil _ (n - batch_size)) by lia.
      apply app_nil_r.
Qed.

End Batches.

(** X23: with a batch size of at least 1, [create_users] executes one
    INSERT per batch; the batches, in the order executed, cut the user
    numbers start_id, ..., start_id + count - 1 into consecutive pieces:
    every number is inserted once, in increasing order, no statement is
    empty and none has more than [batch_size] rows.  The value returned is
    the sum of the row counts of these statements.  For count <= 0 no
    statement is executed. *)
Theorem X23_create_users_batches {DB : Type}
    (execute : list Z -> DB -> DB * Z) (start_id count batch_size : Z) (db : DB) :
  1 <= batch_size ->
  exists stmts,
    create_users execute start_id count batch_size db
      = Some (execute_all execute stmts db) /\
    concat stmts = seqZ start_id count /\
    Forall (fun ids => 1 <= Z.of_nat (length ids) <= batch_size) stmts.
Proof.
  intros Hb.
  set (n := (count + batch_size - 1) `div` batch_size).
  assert (Hlo : batch_size * n <= count + batch_size - 1)
    by (apply Z.mul_div_le; lia).
  assert (Hhi : count + batch_size - 1 < batch_size * Z.succ n)
    by (apply Z.mul_succ_div_gt; lia).
  exists ((fun i => seqZ (start_id + i * batch_size)
                         (Z.min batch_size (count - i * batch_size)))
            <$> seqZ 0 n).
  split; [|split].
  - unfold create_users, range, execute_all.
    destruct (batch_size =? 0) eqn:E0; [apply Z.eqb_eq in E0; lia|].
    destruct (0 <? batch_size) eqn:E1; [|apply Z.ltb_ge in E1; lia].
    replace (start_id + count - start_id + batch_size - 1)
      with (count + batch_size - 1) by lia.
    fold n. f_equal. apply fold_batches; [exact Hb|].
    apply Forall_forall. intros i Hi. apply elem_of_seqZ in Hi. nia.
  - destruct (Z.le_gt_cases n 0) as [Hn|Hn].
    + rewrite !seqZ_nil by nia. reflexivity.
    + rewrite <- (Z2Nat.id n) by lia.
      apply concat_batches; [exact Hb|]. rewrite Z2Nat.id by lia. nia.
  - apply Forall_fmap, Forall_forall. intros i Hi. apply elem_of_seqZ in Hi.
    cbn [compose]. rewrite length_seqZ. nia.
Qed.

(** Without a positive batch size nothing is inserted. *)
Lemma fold_no_batches {DB : Type}
    (execute : list Z -> DB -> DB * Z) (start_id count batch_size : Z)
    (batches : list Z) : forall acc,
  batch_size < 0 ->
  foldl (insert_batch execute start_id count batch_size) acc batches = acc.
Proof.
  intros acc Hb. induction batches as [|b batches IH]; [reflexivity|].
  cbn [foldl]. rewrite <- IH at 2. f_equal.
  unfold insert_batch. rewrite range_one, seqZ_nil by lia. reflexivity.
Qed.

(** X24: the batch sizes that are not positive.  With a batch size of 0
    [range] raises before anything is executed; with a negative one
    [create_users] executes nothing and returns 0, however many users were
    asked for. *)
Theorem X24_create_users_without_batches {DB : Type}
    (execute : list Z -> DB -> DB * Z) (start_id count batch_size : Z) (db : DB) :
  batch_size < 0 ->
  create_users execute start_id count 0 db = None /\
  create_users execute start_id count batch_size db = Some (0, db).
Proof.
  intros Hb. split; [reflexivity|].
  unfold create_users, range.
  destruct (batch_size =? 0) eqn:E0; [apply Z.eqb_eq in E0; lia|].
  f_equal. apply fold_no_batches, Hb.
Qed.

Lemma X23_witness :
  exists stmts,
    create_users (fun ids (db : list Z) => (db ++ ids, Z.of_nat (length ids)))
      1 2500 1000 []
      = Some (execute_all
                (fun ids (db : list Z) => (db ++ ids, Z.of_nat (length ids)))
                stmts []) /\
    concat stmts = seqZ 1 2500 /\
    Forall (fun ids => 1 <= Z.of_nat (length ids) <= 1000) stmts.
Proof.
  apply (X23_create_users_batches
           (fun ids (db : list Z) => (db ++ ids, Z.of_nat (length ids)))
           1 2500 1000 []).
  lia.
Defined.

Lemma X24_witness :
  create_users (fun ids (db : list Z) => (db ++ ids, Z.of_nat (length ids)))
    1 2500 0 [] = None /\
  create_users (fun ids (db : list Z) => (db ++ ids, Z.of_nat (length ids)))
    1 2500 (-1000) [] = Some (0, []).
Proof.
  apply (X24_create_users_without_batches
           (fun ids (db : list Z) => (db ++ ids, Z.of_nat (length ids)))
           1 2500 (-1000) []).
  lia.
Defined.

End PopulateFacts.

(* ===================================================================== *)
(** ** The life of a user of the paho driver                              *)
(* ===================================================================== *)

Module PahoUserLife.
Import Py Connections Totals ConnectionTestUser.

(** [_on_connect] either fires one request, which names the session's
    client, or raises and leaves session and world as they were. *)
Lemma paho_callback_names now rc s w :
  (exists s' r,
     snd (ConnectionTest._on_connect now rc (s, w)) = (s', fire r w) /\
     names_client (ConnectionTest.client_id s) r /\
     ConnectionTest.client_id s' = ConnectionTest.client_id s) \/
  snd (ConnectionTest._on_connect now rc (s, w)) = (s, w).
Proof.
  unfold ConnectionTest._on_connect.
  destruct (Paho.value rc =? 0); cbn [fst snd]; [left|right; reflexivity].
  eexists _, _. split; [reflexivity|]. split; [ConnectMore.named|reflexivity].
Qed.

(** What one call of the paho [connect] adds to the world. *)
Lemma paho_connect_reports cfg extra att s w :
  ConnectionTest._connected s = false ->
  exists out new,
    ConnectionTest.connect (ConnectionTest.enough_polls cfg + extra) cfg att s w
    = Some out /\
    requests (ConnectionTest.world out) = requests w ++ new /\
    Forall (names_client (ConnectionTest.client_id s)) new /\
    (1 <= length new)%nat /\
    client_calls (ConnectionTest.world out) = client_calls w /\
    ConnectionTest.client_id (ConnectionTest.session out)
    = ConnectionTest.client_id s.
Proof.
  intros Hc. unfold ConnectionTest.connect.
  set (s0 := {| ConnectionTest.client_id := ConnectionTest.client_id s;
                ConnectionTest._connected := ConnectionTest._connected s;
                ConnectionTest._connect_start := Some (ConnectionTest.t0 att);
                ConnectionTest._connect_error := None |}).
  destruct (ConnectionTest.blocking att) as [d|d what].
  - destruct (ConnectFacts.enough_polls_enough cfg extra att d (s0, w))
      as [waited Hw].
    rewrite Hw.
    assert (Hseen :
      (exists r,
         snd (ConnectionTest.seen_at att (d + waited) (s0, w)) = fire r w /\
         names_client (ConnectionTest.client_id s) r /\
         ConnectionTest.client_id
           (fst (ConnectionTest.seen_at att (d + waited) (s0, w)))
         = ConnectionTest.client_id s) \/
      ConnectionTest.seen_at att (d + waited) (s0, w) = (s0, w)).
    { unfold ConnectionTest.seen_at.
      destruct (ConnectionTest.connack att) as [[delay rc]|]; [|right; reflexivity].
      destruct (delay <=? d + waited); [|right; reflexivity].
      destruct (paho_callback_names (ConnectionTest.t0 att + delay) rc s0 w)
        as [(s' & r & E & Hr & Hid)|E]; rewrite E; [left|right; reflexivity].
      exists r. auto. }
    destruct (ConnectionTest.seen_at att (d + waited) (s0, w)) as [s1 w1].
    cbn [fst snd] in Hseen.
    destruct Hseen as [(r & -> & Hr & Hid)|[= -> ->]].
    + destruct (ConnectionTest._connected s1).
      * eexists _, [r]. split; [reflexivity|].
        cbn [ConnectionTest.world ConnectionTest.session fire requests
             client_calls].
        repeat split; auto.
      * eexists _, [r; _]. split; [reflexivity|].
        unfold ConnectionTest.connect_except.
        cbn [ConnectionTest.world ConnectionTest.session fire requests
             client_calls].
        rewrite <- app_assoc. split; [reflexivity|].
        split; [|repeat split; auto; cbn [length]; lia].
        apply List.Forall_cons; [exact Hr|].
        apply List.Forall_cons; [|constructor].
        rewrite Hid. ConnectMore.named.
    + subst s0. cbn [ConnectionTest._connected]. rewrite Hc.
      eexists _, [_]. split; [reflexivity|].
      unfold ConnectionTest.connect_except.
      cbn [ConnectionTest.world ConnectionTest.session fire requests
           client_calls ConnectionTest.client_id].
      split; [reflexivity|].
      split; [|repeat split; auto].
      apply List.Forall_cons; [|constructor]. ConnectMore.named.
  - eexists _, [_]. split; [reflexivity|].
    unfold ConnectionTest.connect_except.
    cbn [ConnectionTest.world ConnectionTest.session fire requests
         client_calls ConnectionTest.client_id].
    split; [reflexivity|].
    split; [|repeat split; auto].
    apply List.Forall_cons; [|constructor]. ConnectMore.named.
Qed.

Lemma paho_life_start cfg extra att u w :
  exists uw,
    on_start (ConnectionTest.enough_polls cfg + extra) cfg att u w = Some uw /\
    client_id (fst uw) = client_id u /\ target (fst uw) = target u /\
    (exists s, mqtt_client (fst uw) = Some s /\
               ConnectionTest.client_id s = client_id u) /\
    client_calls (snd uw) = client_calls w /\
    exists new, requests (snd uw) = requests w ++ new /\
                Forall (names_client (client_id u)) new /\ (1 <= length new)%nat.
Proof.
  unfold on_start.
  destruct (paho_connect_reports cfg extra att
              (ConnectionTest.init (client_id u)) w eq_refl)
    as (out & new & -> & Hr & Hn & Hl & Hc & Hi).
  eexists. split; [reflexivity|].
  cbn [fst snd set_mqtt_client client_id target mqtt_client].
  split; [reflexivity|]. split; [reflexivity|].
  split; [eexists; split; [reflexivity|exact Hi]|].
  split; [exact Hc|]. exists new. auto.
Qed.

Lemma paho_life_step cfg extra st u0 w0 uw :
  (client_id (fst uw) = client_id u0 /\ target (fst uw) = target u0 /\
   (exists s, mqtt_client (fst uw) = Some s /\
              ConnectionTest.client_id s = client_id u0) /\
   client_calls (snd uw) = client_calls w0 /\
   exists new, requests (snd uw) = requests w0 ++ new /\
               Forall (names_client (client_id u0)) new /\ (1 <= length new)%nat) ->
  exists uw',
    step (ConnectionTest.enough_polls cfg + extra) cfg st uw = Some uw' /\
    client_id (fst uw') = client_id u0 /\ target (fst uw') = target u0 /\
    (exists s, mqtt_client (fst uw') = Some s /\
               ConnectionTest.client_id s = client_id u0) /\
    client_calls (snd uw') = client_calls w0 /\
    exists new, requests (snd uw') = requests w0 ++ new /\
                Forall (names_client (client_id u0)) new /\ (1 <= length new)%nat.
Proof.
  destruct uw as [u w]. cbn [fst snd].
  intros (Hid & Htg & (s & Hs & Hsid) & Hcalls & new & Hreq & Hnames & Hlen).
  destruct st as [td att| |now rc]; cbn [step fst snd].
  - unfold maintain_connection. rewrite Hs. unfold ConnectionTest.is_connected.
    destruct (ConnectionTest._connected s) eqn:Hc; cbn [negb].
    + eexists. split; [reflexivity|]. cbn [fst snd].
      split; [exact Hid|]. split; [exact Htg|].
      split; [exists s; auto|]. split; [exact Hcalls|]. exists new; auto.
    + unfold ConnectionTest.disconnect. rewrite Hc. cbn [snd].
      destruct (paho_connect_reports cfg extra att
                  (ConnectionTest.init (client_id u)) w eq_refl)
        as (out & new' & -> & Hr & Hn & Hl & Hc' & Hi).
      eexists. split; [reflexivity|].
      cbn [fst snd set_mqtt_client client_id target mqtt_client].
      cbn [ConnectionTest.init ConnectionTest.client_id] in Hi, Hn.
      rewrite Hid in *.
      split; [reflexivity|]. split; [exact Htg|].
      split; [eexists; split; [reflexivity|exact Hi]|].
      split; [congruence|].
      exists (new ++ new'). rewrite Hr, Hreq, app_assoc.
      split; [reflexivity|]. split; [apply Forall_app; auto|].
      rewrite length_app. lia.
  - eexists. split; [reflexivity|]. rewrite Hs.
    cbn [fst snd fmap option_fmap option_map client_id target mqtt_client].
    split; [exact Hid|]. split; [exact Htg|].
    split; [eexists; split; [reflexivity|exact Hsid]|].
    split; [exact Hcalls|]. exists new; auto.
  - rewrite Hs.
    destruct (paho_callback_names now rc s w) as [(s' & r & E & Hr & Hi)|E];
      (eexists; split; [reflexivity|]); rewrite E;
      cbn [fst snd set_mqtt_client client_id target mqtt_client fire
           client_calls requests];
      (split; [exact Hid|]); (split; [exact Htg|]);
      (split; [eexists; split; [reflexivity|congruence]|]);
      (split; [exact Hcalls|]).
    + exists (new ++ [r]). rewrite Hreq, app_assoc.
      split; [reflexivity|]. split; [|rewrite length_app; lia].
      apply Forall_app. split; [exact Hnames|].
      apply List.Forall_cons; [|constructor]. rewrite <- Hsid. exact Hr.
    + exists new. auto.
Qed.

Lemma paho_life_steps cfg extra steps u0 w0 : forall uw,
  (client_id (fst uw) = client_id u0 /\ target (fst uw) = target u0 /\
   (exists s, mqtt_client (fst uw) = Some s /\
              ConnectionTest.client_id s = client_id u0) /\
   client_calls (snd uw) = client_calls w0 /\
   exists new, requests (snd uw) = requests w0 ++ new /\
               Forall (names_client (client_id u0)) new /\ (1 <= length new)%nat) ->
  exists uw',
    steps_from (ConnectionTest.enough_polls cfg + extra) cfg steps uw = Some uw' /\
    client_id (fst uw') = client_id u0 /\ target (fst uw') = target u0 /\
    (exists s, mqtt_client (fst uw') = Some s /\
               ConnectionTest.client_id s = client_id u0) /\
    client_calls (snd uw') = client_calls w0 /\
    exists new, requests (snd uw') = requests w0 ++ new /\
                Forall (names_client (client_id u0)) new /\ (1 <= length new)%nat.
Proof.
  induction steps as [|st steps IH]; intros uw H.
  - exists uw. split; [reflexivity|exact H].
  - cbn [steps_from].
    destruct (paho_life_step cfg extra st u0 w0 uw H) as (uw1 & -> & H1).
    apply IH, H1.
Qed.

(** X25: the whole life of a user of the paho driver, [on_start]
    followed by any ticks of [maintain_connection], dropped connections
    and late calls of [_on_connect] with any reason code.  Every call of
    [connect] in it returns.  The user keeps its client identifier and
    target, and every request fired names that identifier.  Neither
    [loop_stop()] nor [client.disconnect()] is called before [on_stop]: the
    [self.mqtt_client.disconnect()] of [maintain_connection] only ever runs
    on a session that is not connected, where it does nothing whatever the
    client would do, so the client of a replaced session is dropped with
    its network loop running.  [on_stop] calls nothing if its session is
    not connected.  If it is connected, it calls [loop_stop()], and
    [client.disconnect()] after it unless [loop_stop()] raised.  In every
    case [on_stop] fires no request and leaves the session not
    connected. *)
Theorem X25_paho_user_life cfg extra first steps td u w :
  exists uw,
    run (ConnectionTest.enough_polls cfg + extra) cfg first steps u w = Some uw /\
    client_id (fst uw) = client_id u /\ target (fst uw) = target u /\
    client_calls (snd uw) = client_calls w /\
    (exists new, requests (snd uw) = requests w ++ new /\
                 Forall (names_client (client_id u)) new /\
                 (1 <= length new)%nat) /\
    (exists s, mqtt_client (fst uw) = Some s /\
               ConnectionTest.client_id s = client_id u /\
               client_calls (snd (on_stop td (fst uw) (snd uw)))
                 = client_calls w ++
                   (if ConnectionTest.is_connected s
                    then match td with
                         | Paho.LoopStopRaises _ => [LoopStop]
                         | Paho.DisconnectRaises _ | Paho.BothReturn =>
                             [LoopStop; ClientDisconnect]
                         end
                    else [])) /\
    requests (snd (on_stop td (fst uw) (snd uw))) = requests (snd uw) /\
    (exists s', mqtt_client (fst (on_stop td (fst uw) (snd uw))) = Some s' /\
                ConnectionTest.is_connected s' = false).
Proof.
  unfold run.
  destruct (paho_life_start cfg extra first u w) as (uw0 & -> & H0).
  destruct (paho_life_steps cfg extra steps u w uw0 H0)
    as (uw & -> & Hid & Htg & (s & Hs & Hsid) & Hcalls & Hnew).
  exists uw. split; [reflexivity|].
  split; [exact Hid|]. split; [exact Htg|]. split; [exact Hcalls|].
  split; [exact Hnew|].
  unfold on_stop. rewrite Hs.
  unfold ConnectionTest.disconnect, ConnectionTest.is_connected.
  destruct (ConnectionTest._connected s) eqn:Hc;
    cbn [fst snd set_mqtt_client mqtt_client call_client client_calls requests
         ConnectionTest.set_connected ConnectionTest._connected].
  - split; [exists s; split; [reflexivity|]; split; [exact Hsid|];
            rewrite Hc; destruct td; cbn [call_client client_calls];
            rewrite Hcalls, <- ?app_assoc; reflexivity|].
    split; [destruct td; reflexivity|]. eexists. split; reflexivity.
  - split; [exists s; split; [reflexivity|]; split; [exact Hsid|];
            rewrite Hc, Hcalls, app_nil_r; reflexivity|].
    split; [reflexivity|]. exists s. split; [reflexivity|exact Hc].
Qed.

End PahoUserLife.
